(** * The data-science pipeline example, embedded and checked against its description

    The development follows [07-EXAMPLES/data-science-pipeline.py]: the data
    loader ([DataConfig], [ModernDataLoader]), the feature transformers
    ([TypeSafeFeatureTransformer], [SmartMissingValueImputer],
    [AdvancedFeatureEngineer]), the trainer ([MLOpsModelTrainer]) and the
    pipeline ([DataSciencePipeline]).

    Conventions of the embedding.
    - A Python exception is a value of [exn]; a call that may raise returns a
      [result].
    - pandas frames are ordered lists of labelled columns over an index of a
      given length; a frame the code mutates lives in a store and is reached
      through a reference, so that aliasing is visible.
    - binary64 numbers inside frames are idealised as rationals extended with
      the two infinities and NaN (rounding is left out); the cross-validation
      scores, whose standard deviation needs a square root, are reals.
    - pandas, NumPy, scikit-learn, MLflow and joblib are not part of the
      program: what the program needs from them is either written out from
      their documented behaviour or taken as an interface record. *)

From Stdlib Require Import ZArith QArith Qround Qfield Lqa Reals Lia String List.
From stdpp Require Import base gmap strings list pretty.

Local Open Scope string_scope.
Local Open Scope list_scope.
Set Warnings "-register-all".

(** ** Python runtime: exceptions and results *)

Module Py.

Inductive exn : Type :=
| ValueError (msg : string)
| TypeError (msg : string)
| KeyError (key : string)
| NameError (name : string)
| AttributeError (msg : string)
| ZeroDivisionError
| NotImplementedError
| FileNotFoundError (path : string)
| IsADirectoryError (path : string)
| PicklingError
| UnpicklingError
| ValidationError (errors : list (string * string)).

Inductive result (A : Type) : Type :=
| Ok (a : A)
| Raise (e : exn).
Arguments Ok {A} a.
Arguments Raise {A} e.

Definition bind {A B} (m : result A) (k : A -> result B) : result B :=
  match m with
  | Ok a => k a
  | Raise e => Raise e
  end.

(** Python's [repr] of a list of strings, as an f-string prints it. *)
Fixpoint repr_items (l : list string) : string :=
  match l with
  | [] => ""
  | [x] => "'" +:+ x +:+ "'"
  | x :: rest => "'" +:+ x +:+ "', " +:+ repr_items rest
  end.

Definition repr_list (l : list string) : string := "[" +:+ repr_items l +:+ "]".

End Py.

Export Py.

#[global] Instance result_ret : MRet result := fun A a => Ok a.
#[global] Instance result_bind : MBind result := fun A B k m => Py.bind m k.

(** ** Statements that change a state and may raise

    A method body is a function from the state before to the outcome and the
    state after: what was changed before an exception is raised stays
    changed. *)

Module StateExn.

Definition M (S A : Type) : Type := S -> result A * S.

#[global] Instance M_ret S : MRet (M S) := fun A a s => (Ok a, s).
#[global] Instance M_bind S : MBind (M S) := fun A B k m s =>
  match m s with
  | (Ok a, s') => k a s'
  | (Raise e, s') => (Raise e, s')
  end.

Definition get {S} : M S S := fun s => (Ok s, s).
Definition put {S} (s : S) : M S unit := fun _ => (Ok tt, s).
Definition raise {S A} (e : exn) : M S A := fun s => (Raise e, s).

(** A call that reads nothing of the state. *)
Definition lift {S A} (r : result A) : M S A := fun s => (r, s).

(** [for a in l: body] *)
Fixpoint for_each {S A} (l : list A) (body : A -> M S unit) : M S unit :=
  match l with
  | [] => mret tt
  | a :: rest => body a;; for_each rest body
  end.

(** [try: m except: handler] with a bare [except]. *)
Definition try_except {S A} (m : M S A) (handler : M S A) : M S A := fun s =>
  match m s with
  | (Ok a, s') => (Ok a, s')
  | (Raise _, s') => handler s'
  end.

End StateExn.

Export StateExn.

(** ** Python dictionaries

    A [dict] keeps its keys in insertion order and holds each key once:
    assigning to a key that is present replaces its value where it stands. *)

Module PyDict.

Definition dict (V : Type) : Type := list (string * V).

Fixpoint get {V} (d : dict V) (k : string) : option V :=
  match d with
  | [] => None
  | (k', v) :: rest => if bool_decide (k' = k) then Some v else get rest k
  end.

Fixpoint set {V} (d : dict V) (k : string) (v : V) : dict V :=
  match d with
  | [] => [(k, v)]
  | (k', v') :: rest =>
      if bool_decide (k' = k) then (k, v) :: rest else (k', v') :: set rest k v
  end.

Definition keys {V} (d : dict V) : list string := map fst d.
Definition values {V} (d : dict V) : list V := map snd d.

(** [d[k]]: a missing key raises [KeyError]. *)
Definition item {V} (d : dict V) (k : string) : result V :=
  match get d k with
  | Some v => Ok v
  | None => Raise (KeyError k)
  end.

(** The dict built from a sequence of items, later items winning. *)
Definition of_items {V} (items : list (string * V)) : dict V :=
  fold_left (fun d kv => set d (fst kv) (snd kv)) items [].

End PyDict.

(** ** pandas and NumPy values

    Written out from the libraries' documented behaviour, as far as the
    program depends on it. Left out: rounding of binary floating point (a
    finite float is a rational, so [float32] and [float64] differ in their tag
    only and float results are tagged [float64]), the sign of zero, index
    labels and alignment (a frame's rows are numbered), and repeated column
    labels (see [wf_frame]). *)

Module Pandas.

Inductive np_dtype : Type :=
| int8 | int16 | int32 | int64
| uint8 | uint16 | uint32 | uint64
| float32 | float64
| bool_ | object_ | category | datetime64.

#[global] Instance np_dtype_eq_dec : EqDecision np_dtype.
Proof. solve_decision. Defined.

(** [(signed, bits)] of an integer dtype. *)
Definition int_kind (dt : np_dtype) : option (bool * Z) :=
  match dt with
  | int8 => Some (true, 8) | int16 => Some (true, 16)
  | int32 => Some (true, 32) | int64 => Some (true, 64)
  | uint8 => Some (false, 8) | uint16 => Some (false, 16)
  | uint32 => Some (false, 32) | uint64 => Some (false, 64)
  | _ => None
  end%Z.

Definition is_float (dt : np_dtype) : bool :=
  match dt with float32 | float64 => true | _ => false end.

(** [np.number]: the integer and floating dtypes ([bool_] is not one). *)
Definition is_number (dt : np_dtype) : bool :=
  match int_kind dt with Some _ => true | None => is_float dt end.

(** [np.iinfo(dt).min] and [np.iinfo(dt).max]. *)
Definition iinfo_min (dt : np_dtype) : Z :=
  match int_kind dt with
  | Some (true, b) => - 2 ^ (b - 1)
  | _ => 0
  end%Z.

Definition iinfo_max (dt : np_dtype) : Z :=
  match int_kind dt with
  | Some (true, b) => 2 ^ (b - 1) - 1
  | Some (false, b) => 2 ^ b - 1
  | None => 0
  end%Z.

(** The value an integer takes in a fixed-width dtype: NumPy's casts and
    integer arithmetic wrap around without a check. *)
Definition wrap_int (dt : np_dtype) (z : Z) : Z :=
  match int_kind dt with
  | Some (true, b) => (z + 2 ^ (b - 1)) mod 2 ^ b - 2 ^ (b - 1)
  | Some (false, b) => z mod 2 ^ b
  | None => z
  end%Z.

(** A floating-point value. *)
Inductive npfloat : Type :=
| Fin (q : Q)
| PInf
| NInf
| NaN.

Definition fneg (x : npfloat) : npfloat :=
  match x with
  | Fin q => Fin (Qred (- q))
  | PInf => NInf
  | NInf => PInf
  | NaN => NaN
  end.

Definition fadd (x y : npfloat) : npfloat :=
  match x, y with
  | NaN, _ | _, NaN => NaN
  | Fin a, Fin b => Fin (Qred (a + b))
  | PInf, NInf | NInf, PInf => NaN
  | PInf, _ | _, PInf => PInf
  | NInf, _ | _, NInf => NInf
  end.

Definition fsub (x y : npfloat) : npfloat := fadd x (fneg y).

(** [Some Lt], [Some Eq], [Some Gt] for negative, zero, positive; [None] for NaN. *)
Definition fsign (x : npfloat) : option comparison :=
  match x with
  | Fin q => Some (q ?= 0)%Q
  | PInf => Some Gt
  | NInf => Some Lt
  | NaN => None
  end.

Definition signed_inf (sx sy : comparison) : npfloat :=
  match sx, sy with
  | Eq, _ | _, Eq => NaN
  | Gt, Gt | Lt, Lt => PInf
  | _, _ => NInf
  end.

Definition fmul (x y : npfloat) : npfloat :=
  match x, y with
  | Fin a, Fin b => Fin (Qred (a * b))
  | _, _ =>
      match fsign x, fsign y with
      | Some sx, Some sy => signed_inf sx sy
      | _, _ => NaN
      end
  end.

(** IEEE division: a finite number over zero is an infinity (NaN for 0/0),
    never an exception. *)
Definition fdiv (x y : npfloat) : npfloat :=
  match x, y with
  | NaN, _ | _, NaN => NaN
  | Fin a, Fin b =>
      if Qeq_bool b 0
      then match (a ?= 0)%Q with Eq => NaN | Gt => PInf | Lt => NInf end
      else Fin (Qred (a / b))
  | Fin _, _ => Fin 0
  | PInf, Fin b => if Qle_bool 0 b then PInf else NInf
  | NInf, Fin b => if Qle_bool 0 b then NInf else PInf
  | _, _ => NaN
  end.

Definition fis_zero (x : npfloat) : bool :=
  match x with Fin q => Qeq_bool q 0 | _ => false end.

Definition feqb (x y : npfloat) : bool :=
  match x, y with
  | Fin a, Fin b => Qeq_bool a b
  | PInf, PInf | NInf, NInf | NaN, NaN => true
  | _, _ => false
  end.

(** What a cell of a column holds: a number, a truth value, a string, a
    timestamp (nanoseconds), or nothing ([None], [NaT], [pd.NA]). A missing
    float is [VFloat NaN]. *)
Inductive cell : Type :=
| VInt (z : Z)
| VFloat (x : npfloat)
| VBool (b : bool)
| VStr (s : string)
| VTime (ns : Z)
| VNone.

Definition isnull (c : cell) : bool :=
  match c with
  | VNone | VFloat NaN => true
  | _ => false
  end.

(** Equality of cells as [duplicated] and [nunique] see it: missing values
    are equal to each other. *)
Definition cell_eqb (a b : cell) : bool :=
  match a, b with
  | VInt x, VInt y => Z.eqb x y
  | VFloat x, VFloat y => feqb x y
  | VBool x, VBool y => Bool.eqb x y
  | VStr x, VStr y => bool_decide (x = y)
  | VTime x, VTime y => Z.eqb x y
  | VNone, VNone => true
  | _, _ => false
  end.

Record Series : Type := mkSeries {
  dtype : np_dtype;
  values : list cell
}.

(** A frame: [index_len] rows and the columns in their order. *)
Record DataFrame : Type := mkFrame {
  index_len : nat;
  columns : list (string * Series)
}.

Definition labels (df : DataFrame) : list string := map fst (columns df).

(** The frames of the model: labels are unique (pandas gives a lookup by a
    repeated label a sub-frame, which the model leaves out) and every column
    is as long as the index. *)
Definition wf_frame (df : DataFrame) : bool :=
  bool_decide (NoDup (labels df))
  && forallb (fun c => Nat.eqb (length (values (snd c))) (index_len df)) (columns df).

(** [df[name]] *)
Definition getitem (df : DataFrame) (name : string) : result Series :=
  PyDict.item (columns df) name.

(** [df[name] = s]: an existing column is replaced where it stands, a new
    one is appended. A value of another length is refused. *)
Definition setitem (df : DataFrame) (name : string) (s : Series) : result DataFrame :=
  if Nat.eqb (length (values s)) (index_len df)
  then Ok {| index_len := index_len df; columns := PyDict.set (columns df) name s |}
  else Raise (ValueError "Length of values does not match length of index").

(** [df.select_dtypes(include=...).columns] *)
Definition select_dtypes (include : np_dtype -> bool) (df : DataFrame) : list string :=
  map fst (filter (fun c => include (dtype (snd c))) (columns df)).

(** [df[names]]: the sub-frame of the named columns, [KeyError] for a name
    that is no column. *)
Fixpoint subframe_columns (df : DataFrame) (names : list string)
  : result (list (string * Series)) :=
  match names with
  | [] => Ok []
  | n :: rest =>
      s ← getitem df n;
      cs ← subframe_columns df rest;
      Ok ((n, s) :: cs)
  end.

Definition subframe (df : DataFrame) (names : list string) : result DataFrame :=
  cs ← subframe_columns df names;
  Ok {| index_len := index_len df; columns := cs |}.

(** [s.isnull().sum()] *)
Definition null_count (s : Series) : nat := length (filter (fun c => isnull c) (values s)).

(** [s.isnull().mean()]: NaN for a series with no row. *)
Definition null_mean (s : Series) : npfloat :=
  match length (values s) with
  | O => NaN
  | n => Fin (Z.of_nat (null_count s) # Pos.of_nat n)
  end.

(** Row [i] of a frame, and all its rows. *)
Definition row (df : DataFrame) (i : nat) : list cell :=
  map (fun c => nth i (values (snd c)) VNone) (columns df).

Definition rows (df : DataFrame) : list (list cell) :=
  map (row df) (seq 0 (index_len df)).

Fixpoint row_eqb (r1 r2 : list cell) : bool :=
  match r1, r2 with
  | [], [] => true
  | a :: r1', b :: r2' => cell_eqb a b && row_eqb r1' r2'
  | _, _ => false
  end.

(** [duplicated()] marks a row that repeats an earlier one; this counts the
    marks. *)
Fixpoint count_duplicated (seen rest : list (list cell)) : nat :=
  match rest with
  | [] => 0
  | r :: rest' =>
      (if existsb (row_eqb r) seen then 1 else 0)%nat + count_duplicated (r :: seen) rest'
  end.

(** [df.duplicated().sum()]; an empty frame (no row or no column) has none. *)
Definition duplicated_sum (df : DataFrame) : nat :=
  match columns df with
  | [] => 0
  | _ => count_duplicated [] (rows df)
  end.

(** [s.nunique()]: the distinct values that are not missing. *)
Fixpoint distinct (seen rest : list cell) : nat :=
  match rest with
  | [] => 0
  | c :: rest' =>
      if isnull c || existsb (cell_eqb c) seen
      then distinct seen rest'
      else S (distinct (c :: seen) rest')
  end.

Definition nunique (s : Series) : nat := distinct [] (values s).

(** The integers of a column, and their extremes ([min()], [max()]; none for
    a column with no value). *)
Definition int_values (s : Series) : list Z :=
  omap (fun c => match c with VInt z => Some z | _ => None end) (values s).

Definition list_min (l : list Z) : option Z :=
  match l with
  | [] => None
  | z :: rest => Some (fold_left Z.min rest z)
  end.

Definition list_max (l : list Z) : option Z :=
  match l with
  | [] => None
  | z :: rest => Some (fold_left Z.max rest z)
  end.

(** [s.astype(dt)] for an integer target: integers wrap around into it, other
    cells (there are none in a column of integers) are kept. *)
Definition astype_int (dt : np_dtype) (s : Series) : Series :=
  {| dtype := dt;
     values := map (fun c => match c with VInt z => VInt (wrap_int dt z) | _ => c end)
                   (values s) |}.

(** [s.astype('category')] keeps the values and changes the dtype. *)
Definition astype_category (s : Series) : Series :=
  {| dtype := category; values := values s |}.

End Pandas.

(** ** Arithmetic on columns

    [a * b], [a + 1e-8] and [a / b] on series, cell by cell. Columns of a
    numeric dtype follow NumPy (fixed-width integers wrap around, a division
    by zero gives an infinity or NaN); a column of dtype [object_] holds Python
    objects and follows Python (a string times an integer repeats the string,
    a division by zero raises). *)

Module SeriesOps.
Import Pandas.

Definition to_int (c : cell) : option Z :=
  match c with
  | VInt z => Some z
  | VBool b => Some (if b then 1 else 0)%Z
  | _ => None
  end.

Definition to_float (c : cell) : option npfloat :=
  match c with
  | VInt z => Some (Fin (inject_Z z))
  | VBool b => Some (Fin (if b then 1 else 0))
  | VFloat x => Some x
  | _ => None
  end.

(** The dtype of [a * b]: [None] where pandas refuses the operands. *)
Definition promote (a b : np_dtype) : option np_dtype :=
  match a, b with
  | category, _ | _, category | datetime64, _ | _, datetime64 => None
  | object_, _ | _, object_ => Some object_
  | bool_, d | d, bool_ => Some d
  | _, _ =>
      match int_kind a, int_kind b with
      | Some (sa, ba), Some (sb, bb) =>
          if Bool.eqb sa sb then Some (if (ba <? bb)%Z then b else a)
          else
            let '(sbits, ubits) := if sa then (ba, bb) else (bb, ba) in
            if (ubits <? sbits)%Z then Some (if sa then a else b)
            else if (ubits =? 8)%Z then Some int16
            else if (ubits =? 16)%Z then Some int32
            else if (ubits =? 32)%Z then Some int64
            else Some float64
      | _, _ => Some float64
      end
  end.

Fixpoint repeat_string (n : nat) (s : string) : string :=
  match n with
  | O => ""
  | S n' => s +:+ repeat_string n' s
  end.

Definition unsupported (op : string) : exn :=
  TypeError ("unsupported operand type(s) for " +:+ op).

(** Python's [a * b] on two objects. *)
Definition py_mul (a b : cell) : result cell :=
  match a, b with
  | VStr s, VInt n | VInt n, VStr s => Ok (VStr (repeat_string (Z.to_nat n) s))
  | VStr s, VBool n | VBool n, VStr s => Ok (VStr (if n then s else ""))
  | VFloat x, _ | _, VFloat x =>
      match to_float a, to_float b with
      | Some x, Some y => Ok (VFloat (fmul x y))
      | _, _ => Raise (unsupported "*")
      end
  | _, _ =>
      match to_int a, to_int b with
      | Some x, Some y => Ok (VInt (x * y))
      | _, _ => Raise (unsupported "*")
      end
  end.

(** One cell of [a * b] for a result of dtype [dt]. *)
Definition cell_mul (dt : np_dtype) (a b : cell) : result cell :=
  match dt with
  | object_ => py_mul a b
  | bool_ =>
      match to_int a, to_int b with
      | Some x, Some y => Ok (VBool (negb (x * y =? 0)%Z))
      | _, _ => Raise (unsupported "*")
      end
  | _ =>
      match int_kind dt with
      | Some _ =>
          match to_int a, to_int b with
          | Some x, Some y => Ok (VInt (wrap_int dt (x * y)))
          | _, _ => Raise (unsupported "*")
          end
      | None =>
          match to_float a, to_float b with
          | Some x, Some y => Ok (VFloat (fmul x y))
          | _, _ => Raise (unsupported "*")
          end
      end
  end.

(** One cell of [a + x] for a Python float [x]: a number becomes a float,
    anything else is refused. *)
Definition cell_add_float (x : Q) (a : cell) : result cell :=
  match to_float a with
  | Some y => Ok (VFloat (fadd y (Fin x)))
  | None => Raise (unsupported "+")
  end.

(** One cell of [a / b]; [python] tells whether the cells are Python objects. *)
Definition cell_truediv (python : bool) (a b : cell) : result cell :=
  match to_float a, to_float b with
  | Some x, Some y =>
      if python && fis_zero y then Raise ZeroDivisionError
      else Ok (VFloat (fdiv x y))
  | _, _ => Raise (unsupported "/")
  end.

Fixpoint map_cells (f : cell -> result cell) (l : list cell) : result (list cell) :=
  match l with
  | [] => Ok []
  | c :: rest =>
      c' ← f c;
      rest' ← map_cells f rest;
      Ok (c' :: rest')
  end.

Fixpoint zip_cells (f : cell -> cell -> result cell) (l1 l2 : list cell)
  : result (list cell) :=
  match l1, l2 with
  | [], [] => Ok []
  | a :: l1', b :: l2' =>
      c ← f a b;
      rest ← zip_cells f l1' l2';
      Ok (c :: rest)
  | _, _ => Raise (ValueError "operands could not be broadcast together")
  end.

Definition series_mul (a b : Series) : result Series :=
  match promote (dtype a) (dtype b) with
  | None => Raise (unsupported "*")
  | Some dt =>
      vs ← zip_cells (cell_mul dt) (values a) (values b);
      Ok {| dtype := dt; values := vs |}
  end.

Definition series_add_float (a : Series) (x : Q) : result Series :=
  match promote (dtype a) float64 with
  | None => Raise (unsupported "+")
  | Some dt =>
      vs ← map_cells (cell_add_float x) (values a);
      Ok {| dtype := dt; values := vs |}
  end.

Definition series_truediv (a b : Series) : result Series :=
  match promote (dtype a) (dtype b) with
  | None => Raise (unsupported "/")
  | Some dt =>
      vs ← zip_cells (cell_truediv (bool_decide (dt = object_))) (values a) (values b);
      Ok {| dtype := if bool_decide (dt = object_) then object_ else float64; values := vs |}
  end.

(** A divisor with a cell that is zero. *)
Definition has_zero (s : Series) : bool :=
  existsb (fun c => match to_float c with Some x => fis_zero x | None => false end)
          (values s).

End SeriesOps.

(** ** The file system *)

Module FileSystem.

Definition Path := string.

Inductive node : Type :=
| File (content : list Byte.byte)
| Directory.

(** [Path.exists()] *)
Definition exists_ (fs : gmap Path node) (p : Path) : bool :=
  match fs !! p with Some _ => true | None => false end.

End FileSystem.

(** ** [DataConfig]: the loader's validated configuration *)

Module DataConfig.
Import FileSystem.

Record t : Type := mk {
  file_path : Path;
  file_type : string;
  encoding : string;
  delimiter : string;
  skip_rows : Z;
  max_rows : option Z;
  columns : option (list string)
}.

Definition allowed_types : list string := ["csv"; "json"; "parquet"; "excel"].

Definition validate_file_type (v : string) : result string :=
  if bool_decide (v ∉ allowed_types)
  then Raise (ValueError ("File type must be one of " +:+ repr_list allowed_types))
  else Ok v.

Definition validate_file_exists (fs : gmap Path node) (v : Path) : result Path :=
  if negb (exists_ fs v)
  then Raise (ValueError ("File does not exist: " +:+ v))
  else Ok v.

(** What pydantic does with a field's validator: an error is kept under the
    field's name, and the other fields are still validated. *)
Definition field_errors {A} (field : string) (r : result A) : list (string * string) :=
  match r with
  | Ok _ => []
  | Raise (ValueError msg) => [(field, msg)]
  | Raise _ => [(field, "")]
  end.

(** [DataConfig(file_path=..., file_type=..., ...)]. Fields are validated in
    their order of declaration; any error makes the construction raise
    pydantic's [ValidationError] with all of them. *)
Definition init (fs : gmap Path node) (path : Path) (ftype : string)
    (enc delim : string) (skip : Z) (maxr : option Z) (cols : option (list string))
  : result t :=
  let r_path := validate_file_exists fs path in
  let r_type := validate_file_type ftype in
  match r_path, r_type with
  | Ok p, Ok ty =>
      Ok {| file_path := p; file_type := ty; encoding := enc; delimiter := delim;
            skip_rows := skip; max_rows := maxr; columns := cols |}
  | _, _ =>
      Raise (ValidationError (field_errors "file_path" r_path ++
                              field_errors "file_type" r_type))
  end.

(** The call of [DataSciencePipeline.load_data]: the other fields take their
    defaults. *)
Definition of_path (fs : gmap Path node) (path : Path) (ftype : string) : result t :=
  init fs path ftype "utf-8" "," 0 None None.

End DataConfig.

(** ** What the program takes from pandas and scikit-learn as given *)

Module Library.
Import Pandas.

(** A scikit-learn imputer: its class and parameter, and, once fitted, the
    training columns (they determine what it fills in). *)
Inductive imputer : Type :=
| SimpleImputer (strategy : string) (fitted_on : option DataFrame)
| KNNImputer (n_neighbors : Z) (fitted_on : option DataFrame).

(** [imputer.fit(df)], as far as it can refuse: both classes validate their
    parameter and want at least one row and one column; the mean and the
    median want numbers. *)
Definition check_array (df : DataFrame) : result unit :=
  if Nat.eqb (index_len df) 0
  then Raise (ValueError "Found array with 0 sample(s)")
  else if Nat.eqb (length (columns df)) 0
  then Raise (ValueError "at least one array or dtype is required")
  else Ok tt.

Definition imputer_fit (imp : imputer) (df : DataFrame) : result imputer :=
  match imp with
  | SimpleImputer strategy _ =>
      if bool_decide (strategy ∉ ["mean"; "median"; "most_frequent"; "constant"])
      then Raise (ValueError "The 'strategy' parameter of SimpleImputer is invalid")
      else
        check_array df;;
        if bool_decide (strategy ∈ ["mean"; "median"])
           && negb (forallb (fun c => is_number (dtype (snd c)) || bool_decide (dtype (snd c) = bool_))
                            (columns df))
        then Raise (ValueError "Cannot use this strategy with non-numeric data")
        else Ok (SimpleImputer strategy (Some df))
  | KNNImputer n _ =>
      if (n <? 1)%Z
      then Raise (ValueError "The 'n_neighbors' parameter of KNNImputer is invalid")
      else
        check_array df;;
        Ok (KNNImputer n (Some df))
  end.

(** A two-dimensional array: its dtype and its columns. *)
Record ndarray : Type := mkArray {
  arr_dtype : np_dtype;
  arr_columns : list (list cell)
}.

Inductive dt_field : Type :=
| year | month | day | dayofweek | quarter.

Class t : Type := {
  (** [pd.to_numeric(s, downcast='float')] *)
  to_numeric_downcast_float : Series -> Series;
  (** [df.memory_usage(deep=True).sum()], in bytes *)
  memory_usage_deep : DataFrame -> Z;
  (** [imputer.transform(df)] *)
  imputer_transform : imputer -> DataFrame -> result ndarray;
  (** [pd.to_datetime(s)]; the flag is [errors='coerce'] *)
  to_datetime : bool -> Series -> result Series;
  (** [s.dt.year] and the like *)
  dt_accessor : dt_field -> Series -> result Series;
  (** [s.dt.dayofweek.isin([5, 6]).astype(int)] *)
  dt_is_weekend : Series -> result Series;
  (** [np.sin(2 * np.pi * s / period)] and the cosine (the flag) *)
  np_cyclical : bool -> Z -> Series -> result Series;
  (** [s ** degree] *)
  series_pow : Series -> Z -> result Series
}.

End Library.

(** ** [ModernDataLoader] *)

Module ModernDataLoader.
Import Pandas.

Record DataQualityReport : Type := mkReport {
  total_rows : nat;
  total_columns : nat;
  missing_values : PyDict.dict Z;
  duplicate_rows : Z;
  data_types : PyDict.dict string;
  memory_usage : string;
  quality_score : npfloat
}.

(** The loader object. Its polars frame plays no part in what follows and is
    left out. *)
Record t : Type := mk {
  config : DataConfig.t;
  _data : option DataFrame
}.

Definition __init__ (config : DataConfig.t) : t :=
  {| config := config; _data := None |}.

(** [self._data[col] = s], on the loader's frame. *)
Definition set_column (col : string) (s : Series) : M t unit :=
  self ← get;
  match _data self with
  | None => raise (TypeError "'NoneType' object does not support item assignment")
  | Some df =>
      df' ← lift (setitem df col s);
      put {| config := config self; _data := Some df' |}
  end.

Definition get_column (col : string) : M t Series :=
  self ← get;
  match _data self with
  | None => raise (TypeError "'NoneType' object is not subscriptable")
  | Some df => lift (getitem df col)
  end.

(** The dtype the integer loop picks for a column with the given extremes,
    if any. *)
Definition downcast_target (col_min col_max : Z) : option np_dtype :=
  if (col_min >=? 0)%Z then
    if (col_max <? iinfo_max uint8)%Z then Some uint8
    else if (col_max <? iinfo_max uint16)%Z then Some uint16
    else if (col_max <? iinfo_max uint32)%Z then Some uint32
    else None
  else
    if (col_min >? iinfo_min int8)%Z && (col_max <? iinfo_max int8)%Z then Some int8
    else if (col_min >? iinfo_min int16)%Z && (col_max <? iinfo_max int16)%Z then Some int16
    else if (col_min >? iinfo_min int32)%Z && (col_max <? iinfo_max int32)%Z then Some int32
    else None.

(** The body of the integer loop. The extremes of a column with no row are
    NaN, every comparison with them is false, and no branch is taken. *)
Definition optimize_int_column (col : string) : M t unit :=
  s ← get_column col;
  match list_min (int_values s), list_max (int_values s) with
  | Some col_min, Some col_max =>
      match downcast_target col_min col_max with
      | Some dt => set_column col (astype_int dt s)
      | None => mret tt
      end
  | _, _ => mret tt
  end.

Definition optimize_float_column `{Library.t} (col : string) : M t unit :=
  s ← get_column col;
  set_column col (Library.to_numeric_downcast_float s).

(** [nunique() / len(self._data)] divides two Python integers. *)
Definition optimize_object_column (col : string) : M t unit :=
  self ← get;
  s ← get_column col;
  match _data self with
  | None => mret tt
  | Some df =>
      if Nat.eqb (index_len df) 0 then raise ZeroDivisionError
      else if Qle_bool (1 # 2) (Z.of_nat (nunique s) # Pos.of_nat (index_len df))
           then mret tt
           else set_column col (astype_category s)
  end.

(** Each loop runs over the columns that have the dtype when the loop starts. *)
Definition columns_of_dtype (dt : np_dtype) : M t (list string) :=
  self ← get;
  match _data self with
  | None => mret []
  | Some df => mret (select_dtypes (fun d => bool_decide (d = dt)) df)
  end.

Definition _optimize_dtypes `{Library.t} : M t unit :=
  self ← get;
  match _data self with
  | None => mret tt
  | Some _ =>
      int_cols ← columns_of_dtype int64;
      for_each int_cols optimize_int_column;;
      float_cols ← columns_of_dtype float64;
      for_each float_cols optimize_float_column;;
      object_cols ← columns_of_dtype object_;
      for_each object_cols optimize_object_column
  end.

(** [str(dtype)] *)
Definition dtype_name (dt : np_dtype) : string :=
  match dt with
  | int8 => "int8" | int16 => "int16" | int32 => "int32" | int64 => "int64"
  | uint8 => "uint8" | uint16 => "uint16" | uint32 => "uint32" | uint64 => "uint64"
  | float32 => "float32" | float64 => "float64"
  | bool_ => "bool" | object_ => "object" | category => "category"
  | datetime64 => "datetime64[ns]"
  end.

(** Rounding to the nearest integer, ties to even, and the format [:.2f]. *)
Definition round_half_even (q : Q) : Z :=
  let fl := Qfloor q in
  match (q - inject_Z fl ?= 1 # 2)%Q with
  | Lt => fl
  | Gt => (fl + 1)%Z
  | Eq => if Z.even fl then fl else (fl + 1)%Z
  end.

Definition format_2f (q : Q) : string :=
  let n := round_half_even (q * 100) in
  let a := Z.abs n in
  (if (n <? 0)%Z then "-" else "") +:+ pretty (a / 100)%Z +:+ "."
  +:+ pretty (a mod 100 / 10)%Z +:+ pretty (a mod 10)%Z.

(** [sum(missing_values.values()) / (rows * columns)]. Python's [sum] starts
    from its own integer 0: over an empty dict the quotient is Python's and a
    zero divisor raises; otherwise the total is a NumPy integer and the
    quotient is NumPy's. *)
Definition missing_ratio_of (missing : PyDict.dict Z) (cells : Z) : result npfloat :=
  match missing with
  | [] =>
      if (cells =? 0)%Z then Raise ZeroDivisionError
      else Ok (Fin (Qred (0 / inject_Z cells)))
  | _ =>
      Ok (fdiv (Fin (inject_Z (fold_right Z.add 0%Z (PyDict.values missing))))
               (Fin (inject_Z cells)))
  end.

Definition generate_quality_report `{Library.t} (self : t) : result DataQualityReport :=
  match _data self with
  | None => Raise (ValueError "Data not loaded. Call load_pandas() first.")
  | Some df =>
      let missing_values :=
        PyDict.of_items (map (fun c => (fst c, Z.of_nat (null_count (snd c)))) (columns df)) in
      let duplicate_rows := Z.of_nat (duplicated_sum df) in
      let data_types :=
        PyDict.of_items (map (fun c => (fst c, dtype_name (dtype (snd c)))) (columns df)) in
      let memory_usage :=
        format_2f (inject_Z (Library.memory_usage_deep df) / inject_Z (1024 ^ 2)) +:+ " MB" in
      missing_ratio ←
        missing_ratio_of missing_values
          (Z.of_nat (index_len df) * Z.of_nat (length (columns df)));
      let duplicate_ratio :=
        fdiv (Fin (inject_Z duplicate_rows)) (Fin (inject_Z (Z.of_nat (index_len df)))) in
      let quality_score :=
        fsub (Fin 1) (fadd (fmul missing_ratio (Fin (1 # 2)))
                           (fmul duplicate_ratio (Fin (1 # 2)))) in
      Ok {| total_rows := index_len df;
            total_columns := length (columns df);
            missing_values := missing_values;
            duplicate_rows := duplicate_rows;
            data_types := data_types;
            memory_usage := memory_usage;
            quality_score := quality_score |}
  end.

End ModernDataLoader.

(** ** The store of frames

    A frame a method receives or builds is reached through a reference; the
    store maps the references in use to their frames. [divisors] keeps, for
    the proofs, the right operand of every true division that was carried out
    on columns, the latest first. *)

Module Store.
Import Pandas SeriesOps.

Definition loc := positive.

Record t : Type := mk {
  frames : gmap loc DataFrame;
  divisors : list Series
}.

(** The frame behind a reference. Python has no reference that leads
    nowhere; the model answers one with [NameError]. *)
Definition deref (x : loc) : M t DataFrame := fun st =>
  match frames st !! x with
  | Some df => (Ok df, st)
  | None => (Raise (NameError "frame"), st)
  end.

Definition assign (x : loc) (df : DataFrame) : M t unit := fun st =>
  (Ok tt, {| frames := <[x := df]> (frames st); divisors := divisors st |}).

(** The reference of a new object is one that is not in use. *)
Definition alloc (df : DataFrame) : M t loc := fun st =>
  let x := fresh (dom (frames st)) in
  (Ok x, {| frames := <[x := df]> (frames st); divisors := divisors st |}).

(** [X.copy()] *)
Definition copy (x : loc) : M t loc :=
  df ← deref x;
  alloc df.

(** [X.columns] *)
Definition columns_of (x : loc) : M t (list string) :=
  df ← deref x;
  mret (labels df).

(** [X[name]] *)
Definition frame_getitem (x : loc) (name : string) : M t Series :=
  df ← deref x;
  lift (getitem df name).

(** [X[name] = s] *)
Definition frame_setitem (x : loc) (name : string) (s : Series) : M t unit :=
  df ← deref x;
  df' ← lift (setitem df name s);
  assign x df'.

(** [a / b] on two series. *)
Definition truediv (a b : Series) : M t Series := fun st =>
  (series_truediv a b, {| frames := frames st; divisors := b :: divisors st |}).

(** [X[names] = a] for a two-dimensional array [a]: one column of the array
    for each name, all of the frame's length, or nothing is assigned. *)
Definition frame_setitem_array (x : loc) (names : list string) (a : Library.ndarray)
  : M t unit :=
  df ← deref x;
  if negb (Nat.eqb (length names) (length (Library.arr_columns a)))
     || negb (forallb (fun c => Nat.eqb (length c) (index_len df)) (Library.arr_columns a))
  then raise (ValueError "shape mismatch")
  else
    for_each (zip names (Library.arr_columns a))
      (fun nc => frame_setitem x (fst nc) {| dtype := Library.arr_dtype a; values := snd nc |}).

(** What a caller may pass where a frame is expected. *)
Inductive pyobj : Type :=
| PFrame (x : loc)
| PArray (a : Library.ndarray)
| PList (l : list cell)
| PNone.

End Store.

(** ** [TypeSafeFeatureTransformer] *)

Module TypeSafeFeatureTransformer.
Import Pandas Store.

Record t : Type := mk {
  feature_names_ : option (list string);
  is_fitted_ : bool
}.

Definition __init__ : t := {| feature_names_ := None; is_fitted_ := false |}.

(** The text of a set of strings in an f-string; the order Python prints the
    elements in is not modelled. *)
Definition repr_set (s : gset string) : string :=
  "{" +:+ repr_items (elements s) +:+ "}".

(** [_validate_input] changes nothing: it reads the object and the store. *)
Definition _validate_input (self : t) (X : pyobj) (st : Store.t) : result loc :=
  match X with
  | PFrame x =>
      match frames st !! x with
      | None => Raise (NameError "frame")
      | Some df =>
          match is_fitted_ self, feature_names_ self with
          | true, Some names =>
              let missing_features : gset string :=
                list_to_set names ∖ list_to_set (labels df) in
              if bool_decide (missing_features = ∅) then Ok x
              else Raise (ValueError ("Missing features: " +:+ repr_set missing_features))
          | _, _ => Ok x
          end
      end
  | _ => Raise (TypeError "Input must be a pandas DataFrame")
  end.

(** [fit] changes the transformer and reads the store. *)
Definition fit (X : pyobj) (st : Store.t) : M t unit :=
  self ← get;
  x ← lift (_validate_input self X st);
  match frames st !! x with
  | None => raise (NameError "frame")
  | Some df => put {| feature_names_ := Some (labels df); is_fitted_ := true |}
  end.

(** The subclasses: each holds the base object's fields and gives its own
    [_transform_impl]; [transform] itself is inherited. *)
Class Transformer (T : Type) : Type := {
  base : T -> t;
  with_base : t -> T -> T;
  _transform_impl : T -> loc -> M Store.t loc
}.

(** [super().m(...)] from inside a subclass. *)
Definition super {T} `{Transformer T} {A} (m : M t A) : M T A := fun self =>
  let '(r, b) := m (base self) in (r, with_base b self).

(** [transform] changes the store and reads the transformer. *)
Definition transform {T} `{Transformer T} (self : T) (X : pyobj) : M Store.t loc :=
  if negb (is_fitted_ (base self))
  then raise (ValueError "Transformer not fitted. Call fit() first.")
  else
    st ← get;
    x ← lift (_validate_input (base self) X st);
    _transform_impl self x.

(** The base class is a transformer whose [_transform_impl] is not given. *)
#[global] Instance base_transformer : Transformer t := {|
  base := fun self => self;
  with_base := fun b _ => b;
  _transform_impl := fun _ _ => raise NotImplementedError
|}.

End TypeSafeFeatureTransformer.

(** ** [SmartMissingValueImputer] *)

Module SmartMissingValueImputer.
Import Pandas Store TypeSafeFeatureTransformer.

Record t : Type := mk {
  parent : TypeSafeFeatureTransformer.t;
  strategy : string;
  n_neighbors : Z;
  imputers_ : PyDict.dict Library.imputer;
  strategies_ : PyDict.dict string
}.

Definition __init__ (strategy : string) (n_neighbors : Z) : t :=
  {| parent := TypeSafeFeatureTransformer.__init__;
     strategy := strategy; n_neighbors := n_neighbors;
     imputers_ := []; strategies_ := [] |}.

Definition set_parent (b : TypeSafeFeatureTransformer.t) (self : t) : t :=
  {| parent := b; strategy := strategy self; n_neighbors := n_neighbors self;
     imputers_ := imputers_ self; strategies_ := strategies_ self |}.

(** [self.strategies_[column] = s] and [self.imputers_[column] = i] *)
Definition set_strategy (column s : string) : M t unit := fun self =>
  (Ok tt, {| parent := parent self; strategy := strategy self;
             n_neighbors := n_neighbors self; imputers_ := imputers_ self;
             strategies_ := PyDict.set (strategies_ self) column s |}).

Definition set_imputer (column : string) (i : Library.imputer) : M t unit := fun self =>
  (Ok tt, {| parent := parent self; strategy := strategy self;
             n_neighbors := n_neighbors self;
             imputers_ := PyDict.set (imputers_ self) column i;
             strategies_ := strategies_ self |}).

(** [x < y] on floats: false when either is NaN. *)
Definition flt (x y : npfloat) : bool :=
  match x, y with
  | NaN, _ | _, NaN => false
  | Fin a, Fin b => negb (Qle_bool b a)
  | PInf, _ | _, NInf => false
  | NInf, _ | _, PInf => true
  end.

(** The strategy the ['auto'] setting picks for a column with missing values. *)
Definition auto_strategy (dt : np_dtype) (missing_ratio : npfloat) : string :=
  if bool_decide (dt ∈ [object_; category]) then "most_frequent"
  else if flt missing_ratio (Fin (1 # 10))
       then (if bool_decide (dt ∈ [float64; int64]) then "mean" else "most_frequent")
       else "knn".

(** The body of the loop of [fit], for one column of the frame [X]. The new
    imputer is stored before it is fitted, as in the source. *)
Definition fit_column (X : DataFrame) (column : string) : M t unit :=
  s ← lift (getitem X column);
  let missing_ratio := null_mean s in
  if fis_zero missing_ratio then mret tt
  else
    self ← get;
    let strategy :=
      if bool_decide (strategy self = "auto")
      then auto_strategy (dtype s) missing_ratio
      else strategy self in
    set_strategy column strategy;;
    if bool_decide (strategy = "knn") then
      let numeric_columns := select_dtypes is_number X in
      set_imputer column (Library.KNNImputer (n_neighbors self) None);;
      sub ← lift (subframe X numeric_columns);
      fitted ← lift (Library.imputer_fit (Library.KNNImputer (n_neighbors self) None) sub);
      set_imputer column fitted
    else
      set_imputer column (Library.SimpleImputer strategy None);;
      sub ← lift (subframe X [column]);
      fitted ← lift (Library.imputer_fit (Library.SimpleImputer strategy None) sub);
      set_imputer column fitted.

Definition _transform_column `{Library.t} (self : t) (X_transformed : loc)
    (item : string * Library.imputer) : M Store.t unit :=
  let '(column, imputer) := item in
  cols ← columns_of X_transformed;
  if bool_decide (column ∉ cols) then mret tt
  else
    s ← lift (PyDict.item (strategies_ self) column);
    df ← deref X_transformed;
    if bool_decide (s = "knn") then
      let numeric_columns := select_dtypes is_number df in
      sub ← lift (subframe df numeric_columns);
      a ← lift (Library.imputer_transform imputer sub);
      frame_setitem_array X_transformed numeric_columns a
    else
      sub ← lift (subframe df [column]);
      a ← lift (Library.imputer_transform imputer sub);
      frame_setitem_array X_transformed [column] a.

Definition transform_impl `{Library.t} (self : t) (X : loc) : M Store.t loc :=
  X_transformed ← copy X;
  for_each (imputers_ self) (_transform_column self X_transformed);;
  mret X_transformed.

#[global] Instance transformer `{Library.t} : Transformer t := {|
  base := parent;
  with_base := set_parent;
  _transform_impl := transform_impl
|}.

(** [fit]: the inherited part first, then one imputer for each column with
    missing values. *)
Definition fit `{Library.t} (X : pyobj) (st : Store.t) : M t unit :=
  super (TypeSafeFeatureTransformer.fit X st);;
  match X with
  | PFrame x =>
      match frames st !! x with
      | Some df => for_each (labels df) (fit_column df)
      | None => raise (NameError "frame")
      end
  | _ => raise (TypeError "Input must be a pandas DataFrame")
  end.

End SmartMissingValueImputer.

(** ** [AdvancedFeatureEngineer] *)

Module AdvancedFeatureEngineer.
Import Pandas SeriesOps Store TypeSafeFeatureTransformer.

Record t : Type := mk {
  parent : TypeSafeFeatureTransformer.t;
  create_interactions : bool;
  create_polynomials : bool;
  polynomial_degree : Z;
  create_date_features : bool;
  numeric_columns_ : list string;
  date_columns_ : list string
}.

Definition __init__ (create_interactions create_polynomials : bool)
    (polynomial_degree : Z) (create_date_features : bool) : t :=
  {| parent := TypeSafeFeatureTransformer.__init__;
     create_interactions := create_interactions;
     create_polynomials := create_polynomials;
     polynomial_degree := polynomial_degree;
     create_date_features := create_date_features;
     numeric_columns_ := []; date_columns_ := [] |}.

Definition set_parent (b : TypeSafeFeatureTransformer.t) (self : t) : t :=
  {| parent := b;
     create_interactions := create_interactions self;
     create_polynomials := create_polynomials self;
     polynomial_degree := polynomial_degree self;
     create_date_features := create_date_features self;
     numeric_columns_ := numeric_columns_ self; date_columns_ := date_columns_ self |}.

Definition set_column_lists (numeric dates : list string) : M t unit := fun self =>
  (Ok tt, {| parent := parent self;
             create_interactions := create_interactions self;
             create_polynomials := create_polynomials self;
             polynomial_degree := polynomial_degree self;
             create_date_features := create_date_features self;
             numeric_columns_ := numeric; date_columns_ := dates |}).

(** [s.dropna().head(100)] *)
Definition dropna_head (s : Series) : Series :=
  {| dtype := dtype s; values := firstn 100 (filter (fun c => negb (isnull c)) (values s)) |}.

(** The body of the detection loop of [fit]: a column of strings that
    [pd.to_datetime] accepts is taken for a date column. *)
Definition detect_date_column `{Library.t} (X : DataFrame) (col : string) : M t unit :=
  try_except
    (s ← lift (getitem X col);
     lift (Library.to_datetime false (dropna_head s));;
     self ← get;
     set_column_lists (numeric_columns_ self) (date_columns_ self ++ [col]))
    (mret tt).

(** [X[name] = f(X[source])] for a library function [f]. *)
Definition derive (X : loc) (name source : string) (f : Series -> result Series)
  : M Store.t unit :=
  s ← frame_getitem X source;
  s' ← lift (f s);
  frame_setitem X name s'.

(** The body of the loop of [_create_date_features]. *)
Definition date_features_of `{Library.t} (X : loc) (col : string) : M Store.t unit :=
  cols ← columns_of X;
  if bool_decide (col ∉ cols) then mret tt
  else
    s ← frame_getitem X col;
    (if bool_decide (dtype s = object_)
     then derive X col col (Library.to_datetime true)
     else mret tt);;
    derive X (col +:+ "_year") col (Library.dt_accessor Library.year);;
    derive X (col +:+ "_month") col (Library.dt_accessor Library.month);;
    derive X (col +:+ "_day") col (Library.dt_accessor Library.day);;
    derive X (col +:+ "_dayofweek") col (Library.dt_accessor Library.dayofweek);;
    derive X (col +:+ "_quarter") col (Library.dt_accessor Library.quarter);;
    derive X (col +:+ "_is_weekend") col Library.dt_is_weekend;;
    derive X (col +:+ "_month_sin") (col +:+ "_month") (Library.np_cyclical false 12);;
    derive X (col +:+ "_month_cos") (col +:+ "_month") (Library.np_cyclical true 12);;
    derive X (col +:+ "_day_sin") (col +:+ "_day") (Library.np_cyclical false 31);;
    derive X (col +:+ "_day_cos") (col +:+ "_day") (Library.np_cyclical true 31).

Definition _create_date_features `{Library.t} (self : t) (X : loc) : M Store.t loc :=
  for_each (date_columns_ self) (date_features_of X);;
  mret X.

(** [range(2, n + 1)] *)
Definition degrees (n : Z) : list Z :=
  map (fun k => 2 + Z.of_nat k)%Z (seq 0 (Z.to_nat (n - 1))).

Definition polynomial_features_of `{Library.t} (self : t) (X : loc) (col : string)
  : M Store.t unit :=
  cols ← columns_of X;
  if bool_decide (col ∉ cols) then mret tt
  else
    for_each (degrees (polynomial_degree self))
      (fun degree =>
         derive X (col +:+ "_pow_" +:+ pretty degree) col
                (fun s => Library.series_pow s degree)).

Definition _create_polynomial_features `{Library.t} (self : t) (X : loc) : M Store.t loc :=
  for_each (firstn 5 (numeric_columns_ self)) (polynomial_features_of self X);;
  mret X.

(** [itertools.combinations(l, 2)] *)
Fixpoint combinations2 (l : list string) : list (string * string) :=
  match l with
  | [] => []
  | a :: rest => map (fun b => (a, b)) rest ++ combinations2 rest
  end.

(** The body of the loop of [_create_interaction_features]. *)
Definition interaction_features_of (X : loc) (pair : string * string) : M Store.t unit :=
  let '(col1, col2) := pair in
  cols ← columns_of X;
  if bool_decide (col1 ∉ cols) || bool_decide (col2 ∉ cols) then mret tt
  else
    a ← frame_getitem X col1;
    b ← frame_getitem X col2;
    product ← lift (series_mul a b);
    frame_setitem X (col1 +:+ "_x_" +:+ col2) product;;
    a ← frame_getitem X col1;
    b ← frame_getitem X col2;
    divisor ← lift (series_add_float b 1e-8%Q);
    ratio ← truediv a divisor;
    frame_setitem X (col1 +:+ "_div_" +:+ col2) ratio.

Definition _create_interaction_features (self : t) (X : loc) : M Store.t loc :=
  let columns_to_combine := firstn 10 (numeric_columns_ self) in
  for_each (combinations2 columns_to_combine) (interaction_features_of X);;
  mret X.

Definition transform_impl `{Library.t} (self : t) (X : loc) : M Store.t loc :=
  X_transformed ← copy X;
  X_transformed ←
    (if create_date_features self
     then _create_date_features self X_transformed
     else mret X_transformed);
  X_transformed ←
    (if create_polynomials self && (0 <? length (numeric_columns_ self))%nat
     then _create_polynomial_features self X_transformed
     else mret X_transformed);
  X_transformed ←
    (if create_interactions self && (1 <? length (numeric_columns_ self))%nat
     then _create_interaction_features self X_transformed
     else mret X_transformed);
  mret X_transformed.

#[global] Instance transformer `{Library.t} : Transformer t := {|
  base := parent;
  with_base := set_parent;
  _transform_impl := transform_impl
|}.

(** [fit]: the inherited part first, then the column lists. *)
Definition fit `{Library.t} (X : pyobj) (st : Store.t) : M t unit :=
  super (TypeSafeFeatureTransformer.fit X st);;
  match X with
  | PFrame x =>
      match frames st !! x with
      | Some df =>
          set_column_lists (select_dtypes is_number df)
                           (select_dtypes (fun d => bool_decide (d = datetime64)) df);;
          for_each (select_dtypes (fun d => bool_decide (d = object_)) df)
                   (detect_date_column df)
      | None => raise (NameError "frame")
      end
  | _ => raise (TypeError "Input must be a pandas DataFrame")
  end.

End AdvancedFeatureEngineer.

(** ** Calls into scikit-learn and MLflow

    The trainer's effects are its calls into the libraries: each is recorded
    with its arguments, in the order made. What a call returns comes from the
    interface [Sklearn.t]. Console output is left out. *)

Module Trace.

(** A Python value passed to a library: a number, a string, a dict, a list,
    or an object known by its name only (a frame, a series). *)
Inductive pyval : Type :=
| VI (z : Z)
| VF (r : R)
| VS (s : string)
| VB (b : bool)
| VObj (name : string)
| VList (l : list pyval)
| VDict (items : list (string * pyval)).

Record call : Type := mkCall {
  callee : string;
  args : list pyval;
  kwargs : list (string * pyval)
}.

Definition W (A : Type) : Type := result A * list call.

#[global] Instance W_ret : MRet W := fun A a => (Ok a, []).
#[global] Instance W_bind : MBind W := fun A B k m =>
  match m with
  | (Ok a, l1) => let '(r, l2) := k a in (r, l1 ++ l2)
  | (Raise e, l1) => (Raise e, l1)
  end.

Definition invoke (callee : string) (args : list pyval) (kwargs : list (string * pyval))
  : W unit :=
  (Ok tt, [{| callee := callee; args := args; kwargs := kwargs |}]).

Definition raiseW {A} (e : exn) : W A := (Raise e, []).
Definition liftW {A} (r : result A) : W A := (r, []).

End Trace.

Module Sklearn.
Import Trace.

(** An estimator object: its class, the parameters it was built with, and
    whether [fit] has run. *)
Record estimator : Type := mkEstimator {
  est_class : string;
  est_params : list (string * pyval);
  est_fitted : bool
}.

Class t : Type := {
  (** whether the class's constructor has a parameter of that name *)
  accepts_param : string -> string -> bool;
  (** [train_test_split(X, y, ...)]: the names of the four parts *)
  split_parts : string -> string -> result (string * string * string * string);
  (** [model.fit(X, y)] may refuse its data or parameters *)
  fit_check : estimator -> string -> string -> result unit;
  (** [len(X)] *)
  n_samples : string -> nat;
  (** the accuracy on one fold of [cv] folds *)
  fold_score : estimator -> string -> string -> nat -> nat -> R;
  (** [model.predict(X)]: the name of the predictions *)
  predict : estimator -> string -> result string;
  accuracy_score : string -> string -> R;
  (** [precision_recall_fscore_support(..., average='weighted')] *)
  precision_recall_fscore : string -> string -> R * R * R;
  (** [hasattr(model, 'feature_importances_')] *)
  has_feature_importances : estimator -> bool
}.

(** [cross_val_score(model, X, y, cv=k, scoring='accuracy')] for an integer
    [k]: one score for each of the [k] folds; fewer than two folds, or more
    folds than samples, are refused. *)
Definition cross_val_score `{t} (model : estimator) (X y : string) (cv : Z)
  : result (list R) :=
  if (cv <? 2)%Z
  then Raise (ValueError "k-fold cross-validation requires at least one train/test split")
  else if (Z.of_nat (n_samples X) <? cv)%Z
  then Raise (ValueError "Cannot have number of splits greater than the number of samples")
  else Ok (map (fold_score model X y (Z.to_nat cv)) (seq 0 (Z.to_nat cv))).

End Sklearn.

(** NumPy's reductions on an array of floats. *)

Module NumPy.

Definition np_sum (a : list R) : R := fold_right Rplus 0%R a.

(** [a.mean()] *)
Definition mean (a : list R) : R := (np_sum a / INR (length a))%R.

(** [a.var(ddof)]: the mean is taken off, the differences are squared and
    added up, and the sum is divided by the count less [ddof]. *)
Definition var (ddof : nat) (a : list R) : R :=
  let arrmean := (np_sum a / INR (length a))%R in
  let x := map (fun v => (v - arrmean)%R) a in
  let x := map (fun v => (v * v)%R) x in
  (np_sum x / INR (length a - ddof))%R.

(** [a.std()]: the default [ddof] is 0. *)
Definition std (a : list R) : R := sqrt (var 0 a).

End NumPy.

(** ** [MLOpsModelTrainer] *)

Module MLOpsModelTrainer.
Import Trace Sklearn.

Record ModelConfig : Type := mkConfig {
  model_type : string;
  hyperparameters : PyDict.dict pyval;
  cross_validation_folds : Z;
  random_state : Z;
  test_size : R
}.

(** [ModelConfig(model_type=..., hyperparameters=...)]: the other fields at
    their defaults. *)
Definition default_config (model_type : string) (hyperparameters : PyDict.dict pyval)
  : ModelConfig :=
  {| model_type := model_type; hyperparameters := hyperparameters;
     cross_validation_folds := 5; random_state := 42; test_size := 0.2%R |}.

Definition config_to_dict (c : ModelConfig) : list (string * pyval) :=
  [("model_type", VS (model_type c));
   ("hyperparameters", VDict (hyperparameters c));
   ("cross_validation_folds", VI (cross_validation_folds c));
   ("random_state", VI (random_state c));
   ("test_size", VF (test_size c))].

Record ModelMetrics : Type := mkMetrics {
  accuracy : R;
  precision : R;
  recall : R;
  f1_score : R;
  cv_scores : list R;
  cv_mean : R;
  cv_std : R
}.

Definition metrics_to_dict (m : ModelMetrics) : list (string * pyval) :=
  [("accuracy", VF (accuracy m));
   ("precision", VF (precision m));
   ("recall", VF (recall m));
   ("f1_score", VF (f1_score m));
   ("cv_scores", VList (map VF (cv_scores m)));
   ("cv_mean", VF (cv_mean m));
   ("cv_std", VF (cv_std m))].

Record t : Type := mk {
  experiment_name : string;
  models : PyDict.dict string
}.

Definition __init__ (experiment_name : string) : W t :=
  invoke "mlflow.set_experiment" [VS experiment_name] [];;
  mret {| experiment_name := experiment_name;
          models := [("random_forest", "RandomForestClassifier");
                     ("gradient_boosting", "GradientBoostingClassifier");
                     ("logistic_regression", "LogisticRegression")] |}.

(** The call of a model class with keyword arguments: Python refuses a
    keyword given twice, the class refuses one it does not know. *)
Definition construct `{Sklearn.t} (model_class : string) (kwargs : list (string * pyval))
  : W estimator :=
  if negb (bool_decide (NoDup (map fst kwargs)))
  then raiseW (TypeError "got multiple values for keyword argument")
  else
    invoke model_class [] kwargs;;
    if forallb (fun kw => accepts_param model_class (fst kw)) kwargs
    then mret {| est_class := model_class; est_params := kwargs; est_fitted := false |}
    else raiseW (TypeError "got an unexpected keyword argument").

(** [model.fit(X, y)] *)
Definition estimator_fit `{Sklearn.t} (model : estimator) (X y : string) : W estimator :=
  invoke (est_class model +:+ ".fit") [VObj X; VObj y] [];;
  liftW (fit_check model X y);;
  mret {| est_class := est_class model; est_params := est_params model;
          est_fitted := true |}.

Definition _evaluate_model `{Sklearn.t} (self : t) (model : estimator)
    (X_train y_train X_test y_test : string) (config : ModelConfig) : W ModelMetrics :=
  invoke "cross_val_score" [VObj X_train; VObj y_train]
         [("cv", VI (cross_validation_folds config)); ("scoring", VS "accuracy")];;
  cv_scores ← liftW (cross_val_score model X_train y_train (cross_validation_folds config));
  invoke (est_class model +:+ ".predict") [VObj X_test] [];;
  y_pred ← liftW (predict model X_test);
  invoke "accuracy_score" [VObj y_test; VObj y_pred] [];;
  let accuracy := accuracy_score y_test y_pred in
  invoke "precision_recall_fscore_support" [VObj y_test; VObj y_pred]
         [("average", VS "weighted")];;
  let '(precision, recall, f1) := precision_recall_fscore y_test y_pred in
  mret {| accuracy := accuracy;
          precision := precision;
          recall := recall;
          f1_score := f1;
          cv_scores := cv_scores;
          cv_mean := NumPy.mean cv_scores;
          cv_std := NumPy.std cv_scores |}.

Definition train_model `{Sklearn.t} (self : t)
    (X_train y_train X_test y_test : string) (config : ModelConfig)
  : W (estimator * ModelMetrics) :=
  invoke "mlflow.start_run" [] [];;
  invoke "mlflow.log_params" [VDict (config_to_dict config)] [];;
  model_class ← liftW (PyDict.item (models self) (model_type config));
  model ← construct model_class
            (("random_state", VI (random_state config)) :: hyperparameters config);
  model ← estimator_fit model X_train y_train;
  metrics ← _evaluate_model self model X_train y_train X_test y_test config;
  invoke "mlflow.log_metrics" [VDict (metrics_to_dict metrics)] [];;
  invoke "mlflow.sklearn.log_model" [VObj "model"; VS "model"] [];;
  (if has_feature_importances model
   then
     invoke "DataFrame.to_csv" [VS "feature_importance.csv"] [("index", VB false)];;
     invoke "mlflow.log_artifact" [VS "feature_importance.csv"] []
   else mret tt);;
  mret (model, metrics).

(** *** Saving and loading a model

    [joblib.dump] opens the file for writing and pickles the object into it;
    [joblib.load] reads it back. How an object is pickled is the library's. *)

Class Pickle (Obj : Type) : Type := {
  dumps : Obj -> result (list Byte.byte);
  loads : list Byte.byte -> result Obj
}.

Definition joblib_dump {Obj} `{Pickle Obj} (value : Obj) (filename : FileSystem.Path)
  : M (gmap FileSystem.Path FileSystem.node) unit :=
  fs ← get;
  match fs !! filename with
  | Some FileSystem.Directory => raise (IsADirectoryError filename)
  | _ =>
      put (<[filename := FileSystem.File []]> fs);;
      bytes ← lift (dumps value);
      put (<[filename := FileSystem.File bytes]> fs)
  end.

Definition joblib_load {Obj} `{Pickle Obj} (filename : FileSystem.Path)
  : M (gmap FileSystem.Path FileSystem.node) Obj :=
  fs ← get;
  match fs !! filename with
  | Some (FileSystem.File bytes) => lift (loads bytes)
  | Some FileSystem.Directory => raise (IsADirectoryError filename)
  | None => raise (FileNotFoundError filename)
  end.

Definition save_model {Obj} `{Pickle Obj} (self : t) (model : Obj)
    (model_path : FileSystem.Path) : M (gmap FileSystem.Path FileSystem.node) unit :=
  joblib_dump model model_path.

Definition load_model {Obj} `{Pickle Obj} (self : t) (model_path : FileSystem.Path)
  : M (gmap FileSystem.Path FileSystem.node) Obj :=
  joblib_load model_path.

End MLOpsModelTrainer.

(** ** [DataSciencePipeline] *)

Module DataSciencePipeline.
Import Trace Sklearn MLOpsModelTrainer.

(** The table [configs] of [train_models], rebuilt for each model type. *)
Definition configs (model_type : string) : PyDict.dict ModelConfig :=
  [("random_forest",
    default_config model_type [("n_estimators", VI 100); ("max_depth", VI 10)]);
   ("gradient_boosting",
    default_config model_type [("n_estimators", VI 100); ("learning_rate", VF 0.1%R)]);
   ("logistic_regression",
    default_config model_type [("max_iter", VI 1000)])].

Definition default_models : list string :=
  ["random_forest"; "gradient_boosting"; "logistic_regression"].

(** The loop of [train_models]: [results] is the dict built so far. *)
Fixpoint train_each `{Sklearn.t} (trainer : MLOpsModelTrainer.t)
    (X_train y_train X_test y_test : string) (models_to_train : list string)
    (results : PyDict.dict (estimator * ModelMetrics))
  : W (PyDict.dict (estimator * ModelMetrics)) :=
  match models_to_train with
  | [] => mret results
  | model_type :: rest =>
      config ← liftW (PyDict.item (configs model_type) model_type);
      trained ← train_model trainer X_train y_train X_test y_test config;
      train_each trainer X_train y_train X_test y_test rest
                 (PyDict.set results model_type trained)
  end.

Definition train_models `{Sklearn.t} (X y : string) (models_to_train : option (list string))
  : W (PyDict.dict (estimator * ModelMetrics)) :=
  let models_to_train :=
    match models_to_train with
    | None => default_models
    | Some l => l
    end in
  invoke "train_test_split" [VObj X; VObj y]
         [("test_size", VF 0.2%R); ("random_state", VI 42); ("stratify", VObj y)];;
  '(X_train, X_test, y_train, y_test) ← liftW (split_parts X y);
  trainer ← MLOpsModelTrainer.__init__ "data_science_pipeline";
  train_each trainer X_train y_train X_test y_test models_to_train [].

End DataSciencePipeline.

(** ** Reading a file into a frame

    [pd.read_csv] and the other readers are pandas's: each is taken as a
    function of the file system, the path and the keyword arguments it is
    given. *)

Module PandasIO.
Import Pandas FileSystem.

(** A value passed to a reader by keyword. *)
Inductive kwarg : Type :=
| KStr (s : string)
| KInt (z : Z)
| KBool (b : bool)
| KList (l : list string)
| KNone.

Class t : Type := {
  read_csv : gmap Path node -> Path -> PyDict.dict kwarg -> result DataFrame;
  read_parquet : gmap Path node -> Path -> result DataFrame;
  read_json : gmap Path node -> Path -> result DataFrame;
  read_excel : gmap Path node -> Path -> PyDict.dict kwarg -> result DataFrame
}.

End PandasIO.

(** ** [ModernDataLoader.load_pandas] *)

Module DataLoading.
Import Pandas FileSystem PandasIO ModernDataLoader.

(** [self._data = df] *)
Definition set_data (df : DataFrame) : M ModernDataLoader.t unit := fun self =>
  (Ok tt, {| config := config self; _data := Some df |}).

(** The dict [load_kwargs] as it is first built. *)
Definition base_kwargs (cfg : DataConfig.t) : PyDict.dict kwarg :=
  [("encoding", KStr (DataConfig.encoding cfg));
   ("nrows", match DataConfig.max_rows cfg with Some n => KInt n | None => KNone end);
   ("skiprows", KInt (DataConfig.skip_rows cfg))].

(** [load_kwargs] as the CSV branch completes it: [usecols] is passed only
    for a list of columns that is not empty. *)
Definition csv_kwargs (cfg : DataConfig.t) : PyDict.dict kwarg :=
  let load_kwargs := PyDict.set (base_kwargs cfg) "sep" (KStr (DataConfig.delimiter cfg)) in
  let load_kwargs :=
    match DataConfig.columns cfg with
    | Some (c :: cs) => PyDict.set load_kwargs "usecols" (KList (c :: cs))
    | _ => load_kwargs
    end in
  PyDict.set load_kwargs "low_memory" (KBool false).

(** For a file type that is none of the four nothing is read, and the frame
    the loader had is optimised again and returned. *)
Definition load_pandas `{Library.t} `{PandasIO.t} (fs : gmap Path node)
  : M ModernDataLoader.t (option DataFrame) :=
  self ← get;
  let cfg := config self in
  (if bool_decide (DataConfig.file_type cfg = "csv") then
     df ← lift (read_csv fs (DataConfig.file_path cfg) (csv_kwargs cfg));
     set_data df
   else if bool_decide (DataConfig.file_type cfg = "parquet") then
     df ← lift (read_parquet fs (DataConfig.file_path cfg));
     set_data df
   else if bool_decide (DataConfig.file_type cfg = "json") then
     df ← lift (read_json fs (DataConfig.file_path cfg));
     set_data df
   else if bool_decide (DataConfig.file_type cfg = "excel") then
     df ← lift (read_excel fs (DataConfig.file_path cfg) (base_kwargs cfg));
     set_data df
   else mret tt);;
  _optimize_dtypes;;
  self ← get;
  mret (_data self).

End DataLoading.

(** ** scikit-learn's [TransformerMixin] *)

Module TransformerMixin.
Import Store TypeSafeFeatureTransformer.

(** [fit_transform(X)] is [self.fit(X).transform(X)]: the state is the
    transformer and the store. *)
Definition fit_transform {T} `{Transformer T} (fit : pyobj -> Store.t -> M T unit)
    (X : pyobj) : M (T * Store.t) loc := fun '(self, st) =>
  match fit X st self with
  | (Ok _, self') => let '(r, st') := transform self' X st in (r, (self', st'))
  | (Raise e, self') => (Raise e, (self', st))
  end.

End TransformerMixin.

(** ** [DataSciencePipeline]: loading, preprocessing and the whole run

    The pipeline object holds its loader and its two transformers. Its
    [config] dict, which no method reads, and its [trainer], which
    [train_models] sets and nothing reads, are left out. *)

Module Pipeline.
Import Pandas FileSystem Store TypeSafeFeatureTransformer TransformerMixin.

Record t : Type := mk {
  data_loader : option ModernDataLoader.t;
  feature_engineer : option AdvancedFeatureEngineer.t;
  imputer : option SmartMissingValueImputer.t
}.

(** [DataSciencePipeline()] *)
Definition __init__ : t :=
  {| data_loader := None; feature_engineer := None; imputer := None |}.

Definition set_data_loader (l : ModernDataLoader.t) : M t unit := fun self =>
  (Ok tt, {| data_loader := Some l; feature_engineer := feature_engineer self;
             imputer := imputer self |}).

(** A method call on [self.data_loader]. *)
Definition on_data_loader {A} (m : M ModernDataLoader.t A) : M t A := fun self =>
  match data_loader self with
  | None => (Raise (AttributeError "'NoneType' object has no attribute"), self)
  | Some l =>
      let '(r, l') := m l in
      (r, {| data_loader := Some l'; feature_engineer := feature_engineer self;
             imputer := imputer self |})
  end.

Definition load_data `{Library.t} `{PandasIO.t} (fs : gmap Path node) (file_path : Path)
    (file_type : string) : M t (option DataFrame) :=
  data_config ← lift (DataConfig.of_path fs file_path file_type);
  set_data_loader (ModernDataLoader.__init__ data_config);;
  data ← on_data_loader (DataLoading.load_pandas fs);
  quality_report ←
    on_data_loader (fun l => (ModernDataLoader.generate_quality_report l, l));
  mret data.

Definition set_imputer (i : SmartMissingValueImputer.t) : M (t * Store.t) unit :=
  fun '(self, st) =>
    (Ok tt, ({| data_loader := data_loader self; feature_engineer := feature_engineer self;
                imputer := Some i |}, st)).

Definition set_feature_engineer (e : AdvancedFeatureEngineer.t) : M (t * Store.t) unit :=
  fun '(self, st) =>
    (Ok tt, ({| data_loader := data_loader self; feature_engineer := Some e;
                imputer := imputer self |}, st)).

(** A method call on [self.imputer] and on [self.feature_engineer]. *)
Definition on_imputer {A} (m : M (SmartMissingValueImputer.t * Store.t) A)
  : M (t * Store.t) A := fun '(self, st) =>
  match imputer self with
  | None => (Raise (AttributeError "'NoneType' object has no attribute"), (self, st))
  | Some i =>
      let '(r, (i', st')) := m (i, st) in
      (r, ({| data_loader := data_loader self; feature_engineer := feature_engineer self;
              imputer := Some i' |}, st'))
  end.

Definition on_feature_engineer {A} (m : M (AdvancedFeatureEngineer.t * Store.t) A)
  : M (t * Store.t) A := fun '(self, st) =>
  match feature_engineer self with
  | None => (Raise (AttributeError "'NoneType' object has no attribute"), (self, st))
  | Some e =>
      let '(r, (e', st')) := m (e, st) in
      (r, ({| data_loader := data_loader self; feature_engineer := Some e';
              imputer := imputer self |}, st'))
  end.

Definition preprocess_data `{Library.t} (data : pyobj) : M (t * Store.t) loc :=
  set_imputer (SmartMissingValueImputer.__init__ "auto" 5);;
  data ← on_imputer (fit_transform SmartMissingValueImputer.fit data);
  set_feature_engineer (AdvancedFeatureEngineer.__init__ true true 2 true);;
  data ← on_feature_engineer (fit_transform AdvancedFeatureEngineer.fit (PFrame data));
  mret data.

(** [data.drop(columns=[name])]: the frame without the columns of that
    label; a label that is no column raises [KeyError]. *)
Definition drop_column (df : DataFrame) (name : string) : result DataFrame :=
  if bool_decide (name ∈ labels df)
  then Ok {| index_len := index_len df;
             columns := filter (fun c => negb (bool_decide (fst c = name))) (columns df) |}
  else Raise (KeyError (repr_list [name] +:+ " not found in axis")).

(** The state of a whole run: the pipeline, the store of frames, and the
    calls into scikit-learn and MLflow. *)
Record world : Type := mkWorld {
  pipeline : t;
  store : Store.t;
  calls : list Trace.call
}.

Definition in_pipeline {A} (m : M t A) : M world A := fun w =>
  let '(r, p) := m (pipeline w) in
  (r, {| pipeline := p; store := store w; calls := calls w |}).

Definition in_store {A} (m : M Store.t A) : M world A := fun w =>
  let '(r, st) := m (store w) in
  (r, {| pipeline := pipeline w; store := st; calls := calls w |}).

Definition in_pipeline_store {A} (m : M (t * Store.t) A) : M world A := fun w =>
  let '(r, (p, st)) := m (pipeline w, store w) in
  (r, {| pipeline := p; store := st; calls := calls w |}).

Definition in_trace {A} (m : Trace.W A) : M world A := fun w =>
  (fst m, {| pipeline := pipeline w; store := store w; calls := calls w ++ snd m |}).

(** The frames the run builds are new objects of the store; the trainer
    knows the features and the target by the names of the variables that
    hold them. *)
Definition run_complete_pipeline `{Library.t} `{PandasIO.t} `{Sklearn.t}
    (fs : gmap Path node) (data_path : Path) (target_column : string)
  : M world (PyDict.dict (Sklearn.estimator * MLOpsModelTrainer.ModelMetrics)) :=
  data ← in_pipeline (load_data fs data_path "csv");
  match data with
  | None => raise (AttributeError "'NoneType' object has no attribute 'drop'")
  | Some data =>
      X ← lift (drop_column data target_column);
      y ← lift (getitem data target_column);
      X ← in_store (alloc X);
      X_processed ← in_pipeline_store (preprocess_data (PFrame X));
      in_trace (DataSciencePipeline.train_models "X_processed" "y" None)
  end.

End Pipeline.

(** ** Notions used in the statements *)

Module Statements.
Import Pandas.

(** The missing cells of a frame, over all its columns. *)
Definition total_missing (df : DataFrame) : Z :=
  fold_right Z.add 0%Z (map (fun c => Z.of_nat (null_count (snd c))) (columns df)).

(** Both extremes of a column lie strictly inside the range of a dtype. *)
Definition strictly_inside (dt : np_dtype) (lo hi : Z) : bool :=
  (iinfo_min dt <? lo)%Z && (hi <? iinfo_max dt)%Z.

(** What the integer loop of [_optimize_dtypes] has checked of a column's
    extremes when it casts to [dt]: an unsigned target is taken for a
    minimum of at least 0, a signed one for a negative minimum strictly above
    the target's least value; the maximum is strictly below the target's
    greatest value. *)
Definition within_target (dt : np_dtype) (lo hi : Z) : Prop :=
  match dt with
  | uint8 | uint16 | uint32 => (0 <= lo /\ hi < iinfo_max dt)%Z
  | int8 | int16 | int32 => (lo < 0 /\ iinfo_min dt < lo /\ hi < iinfo_max dt)%Z
  | _ => False
  end.

(** Every [int64] column of [df] is found in [df'] with the same cells, and
    with its dtype either unchanged or a target the extremes were checked
    against. *)
Definition int64_columns_kept (df df' : DataFrame) : Prop :=
  forall name s,
    getitem df name = Ok s -> dtype s = int64 ->
    exists s',
      getitem df' name = Ok s'
      /\ values s' = values s
      /\ (dtype s' = int64
          \/ exists lo hi,
               list_min (int_values s) = Some lo
               /\ list_max (int_values s) = Some hi
               /\ within_target (dtype s') lo hi).

(** The share of missing cells in a column with at least one row. *)
Definition missing_share (s : Series) : Q :=
  Z.of_nat (null_count s) # Pos.of_nat (length (values s)).

(** Every frame of the store [st] is still there in [st'], as it was. *)
Definition frames_unchanged (st st' : Store.t) : Prop :=
  forall y df, Store.frames st !! y = Some df -> Store.frames st' !! y = Some df.

(** No name that [_create_interaction_features] writes to is one of the
    columns it combines. *)
Definition no_clash (cols : list string) : bool :=
  forallb (fun pair =>
             negb (bool_decide (fst pair +:+ "_x_" +:+ snd pair ∈ cols))
             && negb (bool_decide (fst pair +:+ "_div_" +:+ snd pair ∈ cols)))
          (AdvancedFeatureEngineer.combinations2 cols).

(** The cell is the number -1e-8. *)
Definition is_minus_epsilon (c : cell) : bool :=
  match SeriesOps.to_float c with
  | Some (Fin q) => Qeq_bool q (- 1e-8)
  | _ => false
  end.

(** The cell, if it is a number, is not negative. *)
Definition nonnegative (c : cell) : bool :=
  match SeriesOps.to_float c with
  | Some (Fin q) => Qle_bool 0 q
  | Some NInf => false
  | _ => true
  end.

(** Every cell of every second column of a pair satisfies [p], in the
    frame [df]. *)
Definition second_columns (p : cell -> bool) (df : DataFrame) (cols : list string) : bool :=
  forallb (fun pair =>
             match getitem df (snd pair) with
             | Ok b => forallb p (values b)
             | Raise _ => true
             end)
          (AdvancedFeatureEngineer.combinations2 cols).

(** The divisor [d] is the second column of a pair, as the frame [df] has
    it, plus 1e-8. *)
Definition divisor_of_input (df : DataFrame) (cols : list string) (d : Series) : Prop :=
  exists col1 col2 b,
    (col1, col2) ∈ AdvancedFeatureEngineer.combinations2 cols
    /\ getitem df col2 = Ok b
    /\ SeriesOps.series_add_float b 1e-8 = Ok d.

(** The fit/transform contract of a transformer fitted on the columns [C]:
    anything but a frame is refused with [TypeError], a frame that lacks a
    column of [C] with [ValueError], and any other frame is handed to
    [_transform_impl]. *)
Definition obeys_contract {T} `{TypeSafeFeatureTransformer.Transformer T}
    (self : T) (C : list string) : Prop :=
  (forall X st, (forall x, X <> Store.PFrame x) ->
     TypeSafeFeatureTransformer.transform self X st
     = (Raise (TypeError "Input must be a pandas DataFrame"), st))
  /\ (forall x st df, Store.frames st !! x = Some df ->
        (exists c, c ∈ C /\ c ∉ labels df) ->
        exists msg,
          TypeSafeFeatureTransformer.transform self (Store.PFrame x) st
          = (Raise (ValueError msg), st))
  /\ (forall x st df, Store.frames st !! x = Some df ->
        (forall c, c ∈ C -> c ∈ labels df) ->
        TypeSafeFeatureTransformer.transform self (Store.PFrame x) st
        = TypeSafeFeatureTransformer._transform_impl self x st).

(** [fit] returned, on the frame [df] behind [X]. *)
Definition fitted_on {T} (fit : Store.pyobj -> Store.t -> M T unit)
    (self0 : T) (X : Store.pyobj) (st : Store.t) (self1 : T) (df : DataFrame) : Prop :=
  fit X st self0 = (Ok tt, self1)
  /\ exists x, X = Store.PFrame x /\ Store.frames st !! x = Some df.

(** *** The calls of [train_models] *)

Definition constructor_names : list string :=
  ["RandomForestClassifier"; "GradientBoostingClassifier"; "LogisticRegression"].

Definition is_constructor (c : Trace.call) : bool :=
  bool_decide (Trace.callee c ∈ constructor_names).

Definition is_split (c : Trace.call) : bool :=
  bool_decide (Trace.callee c = "train_test_split").

(** No call of a model constructor or of the split passes a keyword
    argument: all their parameters are left to the libraries' defaults. *)
Definition default_parameters_only (log : list Trace.call) : bool :=
  forallb (fun c =>
             if is_constructor c || is_split c
             then match Trace.kwargs c with [] => true | _ => false end
             else true)
          log.

(** The call of the split that passes the pipeline's settings. *)
Definition split_call (X y : string) : Trace.call :=
  {| Trace.callee := "train_test_split";
     Trace.args := [Trace.VObj X; Trace.VObj y];
     Trace.kwargs := [("test_size", Trace.VF 0.2%R); ("random_state", Trace.VI 42);
                      ("stratify", Trace.VObj y)] |}.

(** The call of a model type's constructor that passes the pipeline's
    settings for it; there is none for a model type the pipeline does not
    know. *)
Definition constructor_call (model_type : string) : option Trace.call :=
  if bool_decide (model_type = "random_forest") then
    Some {| Trace.callee := "RandomForestClassifier"; Trace.args := [];
            Trace.kwargs := [("random_state", Trace.VI 42); ("n_estimators", Trace.VI 100);
                             ("max_depth", Trace.VI 10)] |}
  else if bool_decide (model_type = "gradient_boosting") then
    Some {| Trace.callee := "GradientBoostingClassifier"; Trace.args := [];
            Trace.kwargs := [("random_state", Trace.VI 42); ("n_estimators", Trace.VI 100);
                             ("learning_rate", Trace.VF 0.1%R)] |}
  else if bool_decide (model_type = "logistic_regression") then
    Some {| Trace.callee := "LogisticRegression"; Trace.args := [];
            Trace.kwargs := [("random_state", Trace.VI 42); ("max_iter", Trace.VI 1000)] |}
  else None.

(** *** Mean and standard deviation *)

Definition sum_of (l : list R) : R := fold_left Rplus l 0%R.

(** The arithmetic mean: the sum over the count. *)
Definition arithmetic_mean (l : list R) : R := (sum_of l / INR (length l))%R.

(** The population standard deviation: the root of the mean squared
    deviation from the mean, the divisor being the count. *)
Definition population_std (l : list R) : R :=
  sqrt (sum_of (map (fun x => (x - arithmetic_mean l) ^ 2)%R l) / INR (length l)).

(** What the metrics say of the cross-validation scores. *)
Definition cv_summary_ok (config : MLOpsModelTrainer.ModelConfig)
    (m : MLOpsModelTrainer.ModelMetrics) : Prop :=
  Z.of_nat (length (MLOpsModelTrainer.cv_scores m))
  = MLOpsModelTrainer.cross_validation_folds config
  /\ MLOpsModelTrainer.cv_mean m = arithmetic_mean (MLOpsModelTrainer.cv_scores m)
  /\ MLOpsModelTrainer.cv_std m = population_std (MLOpsModelTrainer.cv_scores m).

(** *** Pickling *)

(** Unpickling what was pickled gives the object back. *)
Definition pickle_round_trip (Obj : Type) `{MLOpsModelTrainer.Pickle Obj} : Prop :=
  forall (m : Obj) bytes,
    MLOpsModelTrainer.dumps m = Ok bytes -> MLOpsModelTrainer.loads bytes = Ok m.

(** *** More on the loader's frame *)

(** The two frames have the same columns, in the same order, and the same
    number of rows. *)
Definition same_shape (df df' : DataFrame) : Prop :=
  labels df' = labels df /\ index_len df' = index_len df.

(** What [_optimize_dtypes] may make of a column [s]: a [float64] column is
    pandas's to downcast; any other column keeps its cells, an [int64] column
    with an integer dtype, an [object_] column as [object_] or [category],
    and a column of another dtype with the dtype it had. *)
Definition column_kept (s s' : Series) : Prop :=
  dtype s = float64
  \/ (values s' = values s
      /\ match dtype s with
         | int64 => is_Some (int_kind (dtype s'))
         | object_ => dtype s' = object_ \/ dtype s' = category
         | _ => dtype s' = dtype s
         end).

(** Every column of [df] is found in [df'], related to it by [R]. *)
Definition columns_related (R : Series -> Series -> Prop) (df df' : DataFrame) : Prop :=
  forall name s, getitem df name = Ok s -> exists s', getitem df' name = Ok s' /\ R s s'.

(** pandas's downcast of a float column gives a column of the same length. *)
Definition downcast_keeps_length `{Library.t} : Prop :=
  forall s, length (values (Library.to_numeric_downcast_float s)) = length (values s).

(** *** More on the transformers *)

(** [df'] is [df] with at most [c] columns added after its own, over the
    same rows. *)
Definition extends_by (c : nat) (df df' : DataFrame) : Prop :=
  exists added,
    labels df' = labels df ++ added
    /\ index_len df' = index_len df
    /\ (length added <= c)%nat.

(** The columns the engineer's [_transform_impl] can add: ten for each date
    column, one for each degree from 2 on for each of five numeric columns,
    and two for each pair out of ten numeric columns. *)
Definition feature_budget (self : AdvancedFeatureEngineer.t) : nat :=
  10 * length (AdvancedFeatureEngineer.date_columns_ self)
  + 5 * Z.to_nat (AdvancedFeatureEngineer.polynomial_degree self - 1)
  + 90.

(** The two dicts of the imputer have the same keys, in the same order. *)
Definition dicts_agree (self : SmartMissingValueImputer.t) : Prop :=
  PyDict.keys (SmartMissingValueImputer.strategies_ self)
  = PyDict.keys (SmartMissingValueImputer.imputers_ self).

(** *** More on the trainer *)

(** The two calls [train_model] makes before it builds a model. *)
Definition calls_before_model (config : MLOpsModelTrainer.ModelConfig) : list Trace.call :=
  [{| Trace.callee := "mlflow.start_run"; Trace.args := []; Trace.kwargs := [] |};
   {| Trace.callee := "mlflow.log_params";
      Trace.args := [Trace.VDict (MLOpsModelTrainer.config_to_dict config)];
      Trace.kwargs := [] |}].

(** The entry of [results] is a fitted model of the class the trainer keeps
    for the model type. *)
Definition trained_as (trainer : MLOpsModelTrainer.t) (model_type : string)
    (entry : Sklearn.estimator * MLOpsModelTrainer.ModelMetrics) : Prop :=
  PyDict.get (MLOpsModelTrainer.models trainer) model_type
  = Some (Sklearn.est_class (fst entry))
  /\ Sklearn.est_fitted (fst entry) = true.

(** *** Loading *)

(** What pandas reads for a configuration; nothing for a file type that has
    no reader. *)
Definition frame_read `{PandasIO.t} (fs : gmap FileSystem.Path FileSystem.node)
    (cfg : DataConfig.t) : option (result DataFrame) :=
  if bool_decide (DataConfig.file_type cfg = "csv")
  then Some (PandasIO.read_csv fs (DataConfig.file_path cfg) (DataLoading.csv_kwargs cfg))
  else if bool_decide (DataConfig.file_type cfg = "parquet")
  then Some (PandasIO.read_parquet fs (DataConfig.file_path cfg))
  else if bool_decide (DataConfig.file_type cfg = "json")
  then Some (PandasIO.read_json fs (DataConfig.file_path cfg))
  else if bool_decide (DataConfig.file_type cfg = "excel")
  then Some (PandasIO.read_excel fs (DataConfig.file_path cfg) (DataLoading.base_kwargs cfg))
  else None.

(** The base part of a transformer that was fitted on the given columns. *)
Definition fitted_with (names : list string) : TypeSafeFeatureTransformer.t :=
  {| TypeSafeFeatureTransformer.feature_names_ := Some names;
     TypeSafeFeatureTransformer.is_fitted_ := true |}.

(** The labels that are left when the column [name] is dropped. *)
Definition labels_without (name : string) (df : DataFrame) : list string :=
  filter (fun c => c <> name) (labels df).

(** The suffixes of the columns [_create_date_features] writes for a date
    column. *)
Definition date_suffixes : list string :=
  ["_year"; "_month"; "_day"; "_dayofweek"; "_quarter"; "_is_weekend";
   "_month_sin"; "_month_cos"; "_day_sin"; "_day_cos"].

(** The names of the columns the engineer's [_transform_impl] can write,
    apart from the date columns themselves. *)
Definition generated_names (self : AdvancedFeatureEngineer.t) : list string :=
  (col ← AdvancedFeatureEngineer.date_columns_ self;
   map (fun suffix => col +:+ suffix) date_suffixes)
  ++ (col ← firstn 5 (AdvancedFeatureEngineer.numeric_columns_ self);
      map (fun degree => col +:+ "_pow_" +:+ pretty degree)
          (AdvancedFeatureEngineer.degrees (AdvancedFeatureEngineer.polynomial_degree self)))
  ++ (pair ← AdvancedFeatureEngineer.combinations2
               (firstn 10 (AdvancedFeatureEngineer.numeric_columns_ self));
      [fst pair +:+ "_x_" +:+ snd pair; fst pair +:+ "_div_" +:+ snd pair]).

(** The base part [b] lets a frame through [_validate_input]: it is not
    fitted, or the frame has every column it was fitted on. *)
Definition accepts_frame (b : TypeSafeFeatureTransformer.t) (df : DataFrame) : Prop :=
  TypeSafeFeatureTransformer.is_fitted_ b = true ->
  forall names, TypeSafeFeatureTransformer.feature_names_ b = Some names ->
    forall c, c ∈ names -> c ∈ labels df.

(** [pd.to_datetime] accepts the first hundred values of the column that
    are not missing. *)
Definition detected `{Library.t} (df : DataFrame) (col : string) : bool :=
  match getitem df col with
  | Ok s =>
      match Library.to_datetime false (AdvancedFeatureEngineer.dropna_head s) with
      | Ok _ => true
      | Raise _ => false
      end
  | Raise _ => false
  end.

End Statements.

(** ** Invariants

    What holds of the state all through a method, as the proofs below carry
    it along. *)

Module Invariants.
Import Pandas.

(** [keeps R m]: running [m] takes a state to one related to it by [R],
    however [m] ends. For a preorder [R] this passes through sequencing,
    loops and handlers. *)
Definition keeps {S A} (R : relation S) (m : M S A) : Prop :=
  forall s, R s (snd (m s)).

(** The inherited fields of a transformer are the same. *)
Definition same_parent_imputer : relation SmartMissingValueImputer.t :=
  fun s s' => SmartMissingValueImputer.parent s' = SmartMissingValueImputer.parent s.

Definition same_parent_engineer : relation AdvancedFeatureEngineer.t :=
  fun s s' => AdvancedFeatureEngineer.parent s' = AdvancedFeatureEngineer.parent s.

(** The state of the loader all through [_optimize_dtypes], for a frame
    [df] it started with. *)
Definition optimize_inv (df : DataFrame) (self : ModernDataLoader.t) : Prop :=
  exists df',
    ModernDataLoader._data self = Some df'
    /\ labels df' = labels df
    /\ Statements.int64_columns_kept df df'.

(** The loader with one column of its frame set. *)
Definition with_column (self : ModernDataLoader.t) (df' : DataFrame) (col : string)
    (s : Series) : ModernDataLoader.t :=
  {| ModernDataLoader.config := ModernDataLoader.config self;
     ModernDataLoader._data :=
       Some {| index_len := index_len df';
               columns := PyDict.set (columns df') col s |} |}.

(** A body that changes at most the column [col], which is then one of the
    frame's. *)
Definition sets_only (col : string) (m : M ModernDataLoader.t unit) : Prop :=
  forall self df', ModernDataLoader._data self = Some df' ->
    snd (m self) = self
    \/ (col ∈ labels df' /\ exists s', snd (m self) = with_column self df' col s').

(** The strategy [fit_column] settles on. *)
Definition chosen (s : Series) (self : SmartMissingValueImputer.t) : string :=
  if bool_decide (SmartMissingValueImputer.strategy self = "auto")
  then SmartMissingValueImputer.auto_strategy (dtype s) (null_mean s)
  else SmartMissingValueImputer.strategy self.

(** What the loop of [fit] has recorded for a column, against the dicts
    [self0] had before the loop. *)
Definition assigned (X : DataFrame) (s : Series) (self0 self' : SmartMissingValueImputer.t)
    (name : string) : Prop :=
  if fis_zero (null_mean s)
  then PyDict.get (SmartMissingValueImputer.strategies_ self') name
       = PyDict.get (SmartMissingValueImputer.strategies_ self0) name
       /\ PyDict.get (SmartMissingValueImputer.imputers_ self') name
          = PyDict.get (SmartMissingValueImputer.imputers_ self0) name
  else index_len X <> 0%nat
       /\ PyDict.get (SmartMissingValueImputer.strategies_ self') name = Some (chosen s self0)
       /\ is_Some (PyDict.get (SmartMissingValueImputer.imputers_ self') name).

(** The stores that agree on every frame but the one behind [x']. *)
Definition off (x' : Store.loc) : relation Store.t :=
  fun st st' => forall y, y <> x' -> Store.frames st' !! y = Store.frames st !! y.

(** The state of the store all through the loop of
    [_create_interaction_features]: the columns that are combined are as the
    frame [df] has them, and every divisor recorded since the store [st0] is a
    second column of [df] plus 1e-8. *)
Definition interaction_inv (X : Store.loc) (df : DataFrame) (cols : list string)
    (st0 st : Store.t) : Prop :=
  exists df' new,
    Store.frames st !! X = Some df'
    /\ (forall c, c ∈ cols -> getitem df' c = getitem df c)
    /\ Store.divisors st = new ++ Store.divisors st0
    /\ Forall (Statements.divisor_of_input df cols) new.

(** [quiet p m]: no call that [m] makes satisfies [p]. *)
Definition quiet (p : Trace.call -> bool) {A} (m : Trace.W A) : Prop :=
  filter (fun c => p c) (snd m) = [].

(** [once p c m]: the calls of [m] that satisfy [p] are the call [c], once,
    if [m] returns, and at most that if it raises. *)
Definition once (p : Trace.call -> bool) (c : Trace.call) {A} (m : Trace.W A) : Prop :=
  match fst m with
  | Ok _ => filter (fun c => p c) (snd m) = [c]
  | Raise _ => filter (fun c => p c) (snd m) = [] \/ filter (fun c => p c) (snd m) = [c]
  end.

(** What the first two loops of [_optimize_dtypes] may make of a column:
    only [int64] and [float64] columns are touched. *)
Definition numeric_kept (s s' : Series) : Prop :=
  dtype s = float64
  \/ (dtype s = int64 /\ values s' = values s /\ is_Some (int_kind (dtype s')))
  \/ s' = s.

(** The state of the loader all through [_optimize_dtypes], for a frame
    [df] it started with and a relation [R] of the columns. *)
Definition optimize_rel (R : Series -> Series -> Prop) (df : DataFrame)
    (self : ModernDataLoader.t) : Prop :=
  exists df',
    ModernDataLoader._data self = Some df'
    /\ Statements.same_shape df df'
    /\ Statements.columns_related R df df'.

(** The loader holds a frame of the given labels and length, each of whose
    columns is as long as the index. *)
Definition loaded (names : list string) (n : nat) (self : ModernDataLoader.t) : Prop :=
  exists df',
    ModernDataLoader._data self = Some df'
    /\ labels df' = names
    /\ index_len df' = n
    /\ Forall (fun c => length (values (snd c)) = n) (columns df').

(** The frame behind [x'] has the given labels and number of rows. *)
Definition shaped (x' : Store.loc) (names : list string) (n : nat) (st : Store.t) : Prop :=
  exists df', Store.frames st !! x' = Some df' /\ labels df' = names /\ index_len df' = n.

(** From [st] to [st'] the frame behind [x'] has gained at most [c] columns,
    after those it had. *)
Definition grows_by (x' : Store.loc) (c : nat) : relation Store.t :=
  fun st st' => forall df, Store.frames st !! x' = Some df ->
    exists df', Store.frames st' !! x' = Some df' /\ Statements.extends_by c df df'.

(** [appends x' c m]: running [m] adds at most [c] columns to the frame
    behind [x'], however [m] ends. *)
Definition appends (x' : Store.loc) (c : nat) {A} (m : M Store.t A) : Prop :=
  forall st, grows_by x' c st (snd (m st)).

(** The loader with another configuration. *)
Definition with_config (cfg : DataConfig.t) (self : ModernDataLoader.t)
  : ModernDataLoader.t :=
  {| ModernDataLoader.config := cfg; ModernDataLoader._data := ModernDataLoader._data self |}.

(** [config_free m]: [m] neither reads nor changes the loader's
    configuration. *)
Definition config_free {A} (m : M ModernDataLoader.t A) : Prop :=
  forall cfg self, m (with_config cfg self) = (fst (m self), with_config cfg (snd (m self))).

(** From [st] to [st'] the frame behind [x'] has kept its column [name],
    or its lack of one. *)
Definition same_at (x' : Store.loc) (name : string) : relation Store.t :=
  fun st st' => forall df, Store.frames st !! x' = Some df ->
    exists df', Store.frames st' !! x' = Some df' /\ getitem df' name = getitem df name.

End Invariants.

(** ** Sample data

    Concrete frames, objects and library behaviour, on which the statements
    are instantiated. *)

Module Examples.
Import Pandas Store.

(** A library that leaves the data as it is. *)
Definition plain_library : Library.t := {|
  Library.to_numeric_downcast_float := fun s => s;
  Library.memory_usage_deep := fun df =>
    (8 * Z.of_nat (index_len df) * Z.of_nat (length (columns df)))%Z;
  Library.imputer_transform := fun _ df =>
    Ok {| Library.arr_dtype := float64;
          Library.arr_columns := map (fun c => values (snd c)) (columns df) |};
  Library.to_datetime := fun _ s => Ok {| dtype := datetime64; values := values s |};
  Library.dt_accessor := fun _ s => Ok {| dtype := int32; values := values s |};
  Library.dt_is_weekend := fun s => Ok {| dtype := int64; values := values s |};
  Library.np_cyclical := fun _ _ s => Ok {| dtype := float64; values := values s |};
  Library.series_pow := fun s _ => Ok s
|}.

(** Three rows, the last repeating the first; one value is missing. *)
Definition people : DataFrame := {|
  index_len := 3;
  columns :=
    [("age", {| dtype := int64; values := [VInt 31; VInt 45; VInt 31] |});
     ("income", {| dtype := float64;
                   values := [VFloat (Fin 1200); VFloat NaN; VFloat (Fin 1200)] |});
     ("city", {| dtype := object_; values := [VStr "Oslo"; VStr "Rome"; VStr "Oslo"] |})]
|}.

Definition people_config : DataConfig.t :=
  DataConfig.mk "people.csv" "csv" "utf-8" "," 0 None None.

Definition people_loader : ModernDataLoader.t :=
  {| ModernDataLoader.config := people_config; ModernDataLoader._data := Some people |}.

(** A store that holds the frame under the reference 1. *)
Definition store : Store.t :=
  {| frames := <[1%positive := people]> ∅; divisors := [] |}.

(** The imputer after [fit] on that frame. *)
Definition fitted_imputer : SmartMissingValueImputer.t :=
  snd (@SmartMissingValueImputer.fit plain_library (PFrame 1%positive) store
         (SmartMissingValueImputer.__init__ "auto" 5)).

(** A column of integers whose least value is 0. *)
Definition counts : DataFrame := {|
  index_len := 2;
  columns := [("n", {| dtype := int64; values := [VInt 0; VInt 1] |})]
|}.

Definition counts_loader : ModernDataLoader.t :=
  {| ModernDataLoader.config := people_config; ModernDataLoader._data := Some counts |}.

(** A frame with a numeric column named like a ratio feature. No cell of the
    columns [b] and [a_div_b] is -1e-8. *)
Definition ratios : DataFrame := {|
  index_len := 1;
  columns :=
    [("a", {| dtype := float64; values := [VFloat (Fin (- 1e-8))] |});
     ("b", {| dtype := float64; values := [VFloat (Fin (1 - 1e-8))] |});
     ("a_div_b", {| dtype := float64; values := [VFloat (Fin 5)] |})]
|}.

Definition ratios_store : Store.t :=
  {| frames := <[1%positive := ratios]> ∅; divisors := [] |}.

(** An engineer fitted on a frame with these three numeric columns. *)
Definition ratios_engineer : AdvancedFeatureEngineer.t :=
  snd (@AdvancedFeatureEngineer.fit plain_library (PFrame 1%positive) ratios_store
         (AdvancedFeatureEngineer.__init__ true true 2 true)).

(** An engineer fitted on the frame [people]. *)
Definition people_engineer : AdvancedFeatureEngineer.t :=
  snd (@AdvancedFeatureEngineer.fit plain_library (PFrame 1%positive) store
         (AdvancedFeatureEngineer.__init__ true true 2 true)).

(** A scikit-learn that accepts everything and scores fold [k] of [cv] as
    [k / cv]. *)
Definition plain_sklearn : Sklearn.t := {|
  Sklearn.accepts_param := fun _ _ => true;
  Sklearn.split_parts := fun X y =>
    Ok (X +:+ "_train", X +:+ "_test", y +:+ "_train", y +:+ "_test");
  Sklearn.fit_check := fun _ _ _ => Ok tt;
  Sklearn.n_samples := fun _ => 100%nat;
  Sklearn.fold_score := fun _ _ _ cv k => (INR k / INR cv)%R;
  Sklearn.predict := fun _ X => Ok (X +:+ "_pred");
  Sklearn.accuracy_score := fun _ _ => 1%R;
  Sklearn.precision_recall_fscore := fun _ _ => (1%R, 1%R, 1%R);
  Sklearn.has_feature_importances := fun m =>
    negb (bool_decide (Sklearn.est_class m = "LogisticRegression"))
|}.

(** Objects that are texts, pickled as their bytes. *)
Definition text_pickle : MLOpsModelTrainer.Pickle string := {|
  MLOpsModelTrainer.dumps := fun s => Ok (list_byte_of_string s);
  MLOpsModelTrainer.loads := fun b => Ok (string_of_list_byte b)
|}.

Definition trainer : MLOpsModelTrainer.t :=
  {| MLOpsModelTrainer.experiment_name := "data_science_pipeline";
     MLOpsModelTrainer.models :=
       [("random_forest", "RandomForestClassifier");
        ("gradient_boosting", "GradientBoostingClassifier");
        ("logistic_regression", "LogisticRegression")] |}.

Definition disk : gmap FileSystem.Path FileSystem.node :=
  <["people.csv" := FileSystem.File []]> ∅.

(** A file with a header and no line of data: every column is read as
    [object_]. *)
Definition headers : DataFrame := {|
  index_len := 0;
  columns := [("name", {| dtype := object_; values := [] |});
              ("age", {| dtype := object_; values := [] |})]
|}.

Definition headers_loader : ModernDataLoader.t :=
  {| ModernDataLoader.config := people_config; ModernDataLoader._data := Some headers |}.

(** An imputer with a fixed strategy, after [fit] on the frame [people]. *)
Definition fixed_imputer : SmartMissingValueImputer.t :=
  snd (@SmartMissingValueImputer.fit plain_library (PFrame 1%positive) store
         (SmartMissingValueImputer.__init__ "most_frequent" 5)).

(** A reader that finds the frame [people] in every file. *)
Definition people_reader : PandasIO.t := {|
  PandasIO.read_csv := fun _ _ _ => Ok people;
  PandasIO.read_parquet := fun _ _ => Ok people;
  PandasIO.read_json := fun _ _ => Ok people;
  PandasIO.read_excel := fun _ _ _ => Ok people
|}.

(** The state before a run: a new pipeline, no frame, no call. *)
Definition new_world : Pipeline.world :=
  {| Pipeline.pipeline := Pipeline.__init__;
     Pipeline.store := {| frames := ∅; divisors := [] |};
     Pipeline.calls := [] |}.

(** A store that holds the frame with a header and no data. *)
Definition headers_store : Store.t :=
  {| frames := <[1%positive := headers]> ∅; divisors := [] |}.

End Examples.


(** * Properties *)

Import Invariants.


(** ** The state-and-exception monad *)

Section StateExnFacts.
Context {S : Type}.

Lemma bind_ok {A B} (m : M S A) (k : A -> M S B) s a s' :
  m s = (Ok a, s') -> (m ≫= k) s = k a s'.
Proof. intros Hm. unfold mbind, M_bind. rewrite Hm. reflexivity. Qed.

Lemma bind_raise {A B} (m : M S A) (k : A -> M S B) s e s' :
  m s = (Raise e, s') -> (m ≫= k) s = (Raise e, s').
Proof. intros Hm. unfold mbind, M_bind. rewrite Hm. reflexivity. Qed.

(** A computation that returns went through both of its parts. *)
Lemma bind_inv_ok {A B} (m : M S A) (k : A -> M S B) s b s2 :
  (m ≫= k) s = (Ok b, s2) ->
  exists a s1, m s = (Ok a, s1) /\ k a s1 = (Ok b, s2).
Proof.
  unfold mbind, M_bind. destruct (m s) as [[a|e] s1]; intros Hk.
  - exists a, s1. split; [reflexivity | exact Hk].
  - discriminate.
Qed.

(** What every step of a loop keeps, the loop keeps, however it ends. *)
Lemma for_each_invariant {A} (P : S -> Prop) (l : list A) (body : A -> M S unit) :
  (forall a s, a ∈ l -> P s -> P (snd (body a s))) ->
  forall s, P s -> P (snd (for_each l body s)).
Proof.
  induction l as [|a l IH]; intros Hbody s Hs; simpl; [exact Hs|].
  unfold mbind, M_bind.
  pose proof (Hbody a s (list_elem_of_here _ _) Hs) as Ha.
  destruct (body a s) as [[[]|e] s1]; simpl in *; [|exact Ha].
  apply IH; [|exact Ha].
  intros a' s' Hin. apply Hbody. apply list_elem_of_further. exact Hin.
Qed.

Section Keeps.
Context (R : relation S) `{!PreOrder R}.

Lemma keeps_ret {A} (a : A) : keeps R (mret a).
Proof. intros s. simpl. reflexivity. Qed.

Lemma keeps_lift {A} (r : result A) : keeps R (lift r).
Proof. intros s. simpl. reflexivity. Qed.

Lemma keeps_raise {A} e : keeps R (raise e : M S A).
Proof. intros s. simpl. reflexivity. Qed.

Lemma keeps_get : keeps R (StateExn.get : M S S).
Proof. intros s. simpl. reflexivity. Qed.

(** The second part may rely on what the first is known to return. *)
Lemma keeps_bind_ok {A B} (Q : A -> Prop) (m : M S A) (k : A -> M S B) :
  keeps R m ->
  (forall s a s', m s = (Ok a, s') -> Q a) ->
  (forall a, Q a -> keeps R (k a)) ->
  keeps R (m ≫= k).
Proof.
  intros Hm HQ Hk s. unfold mbind, M_bind.
  pose proof (Hm s) as H1. pose proof (HQ s) as H2.
  destruct (m s) as [[a|e] s1]; simpl in *; [|exact H1].
  etransitivity; [exact H1|]. apply Hk. apply (H2 a s1). reflexivity.
Qed.

Lemma keeps_bind {A B} (m : M S A) (k : A -> M S B) :
  keeps R m -> (forall a, keeps R (k a)) -> keeps R (m ≫= k).
Proof.
  intros Hm Hk. apply (keeps_bind_ok (fun _ => True)); auto.
Qed.

Lemma keeps_for_each {A} (l : list A) (body : A -> M S unit) :
  (forall a, a ∈ l -> keeps R (body a)) -> keeps R (for_each l body).
Proof.
  induction l as [|a l IH]; intros Hbody; simpl.
  - apply keeps_ret.
  - apply keeps_bind.
    + apply Hbody. apply list_elem_of_here.
    + intros _. apply IH. intros a' Hin. apply Hbody. apply list_elem_of_further. exact Hin.
Qed.

Lemma keeps_try_except {A} (m handler : M S A) :
  keeps R m -> keeps R handler -> keeps R (try_except m handler).
Proof.
  intros Hm Hh s. unfold try_except. pose proof (Hm s) as H1.
  destruct (m s) as [[a|e] s1]; simpl in *; [exact H1|].
  etransitivity; [exact H1 | apply Hh].
Qed.

End Keeps.

End StateExnFacts.

(** One step of a proof that a method body keeps a relation: the body is
    taken apart along its sequencing, branches and loops. *)
Ltac keeps_step :=
  lazymatch goal with
  | |- keeps _ (mret _) => apply keeps_ret; exact _
  | |- keeps _ (lift _) => apply keeps_lift; exact _
  | |- keeps _ (raise _) => apply keeps_raise; exact _
  | |- keeps _ StateExn.get => apply keeps_get; exact _
  | |- keeps _ (_ ≫= _) => apply keeps_bind; [exact _ | | intros ?]
  | |- keeps _ (for_each _ _) => apply keeps_for_each; [exact _ | intros ? ?]
  | |- keeps _ (try_except _ _) => apply keeps_try_except; [exact _ | | ]
  | |- keeps _ (if ?b then _ else _) => destruct b
  | |- keeps _ (match ?x with _ => _ end) => destruct x
  end.


(** ** Python dictionaries *)

Section PyDictFacts.
Context {V : Type}.
Implicit Types (d : PyDict.dict V) (k : string) (v : V).

Lemma get_set_eq d k v : PyDict.get (PyDict.set d k v) k = Some v.
Proof.
  induction d as [|[k' v'] d IH]; simpl.
  - rewrite bool_decide_eq_true_2; reflexivity.
  - destruct (bool_decide (k' = k)) eqn:E; simpl.
    + rewrite bool_decide_eq_true_2; reflexivity.
    + rewrite E. exact IH.
Qed.

Lemma get_set_ne d k k' v :
  k ≠ k' -> PyDict.get (PyDict.set d k v) k' = PyDict.get d k'.
Proof.
  intros Hne. induction d as [|[k0 v0] d IH]; simpl.
  - rewrite bool_decide_eq_false_2; [reflexivity | exact Hne].
  - destruct (bool_decide (k0 = k)) eqn:E; simpl.
    + apply bool_decide_eq_true_1 in E. subst k0.
      rewrite !bool_decide_eq_false_2 by exact Hne. reflexivity.
    + destruct (bool_decide (k0 = k')); [reflexivity | exact IH].
Qed.

Lemma set_fresh d k v : k ∉ PyDict.keys d -> PyDict.set d k v = d ++ [(k, v)].
Proof.
  induction d as [|[k0 v0] d IH]; simpl; intros Hn; [reflexivity|].
  rewrite bool_decide_eq_false_2.
  - rewrite IH; [reflexivity|]. intros Hin. apply Hn. apply list_elem_of_further. exact Hin.
  - intros ->. apply Hn. apply list_elem_of_here.
Qed.

Lemma keys_set_present d k v : k ∈ PyDict.keys d -> PyDict.keys (PyDict.set d k v) = PyDict.keys d.
Proof.
  induction d as [|[k0 v0] d IH]; simpl; intros Hin.
  - apply elem_of_nil in Hin. contradiction.
  - destruct (bool_decide (k0 = k)) eqn:E; simpl.
    + apply bool_decide_eq_true_1 in E. subst. reflexivity.
    + apply bool_decide_eq_false_1 in E. f_equal. apply IH.
      apply elem_of_cons in Hin as [->|Hin]; [contradiction | exact Hin].
Qed.

Lemma get_Some_elem d k v : PyDict.get d k = Some v -> (k, v) ∈ d.
Proof.
  induction d as [|[k0 v0] d IH]; simpl; [discriminate|].
  destruct (bool_decide (k0 = k)) eqn:E.
  - apply bool_decide_eq_true_1 in E. subst. intros [= ->]. apply list_elem_of_here.
  - intros Hg. apply list_elem_of_further. apply IH. exact Hg.
Qed.

Lemma get_Some_key d k v : PyDict.get d k = Some v -> k ∈ PyDict.keys d.
Proof.
  intros Hg. apply get_Some_elem in Hg.
  apply (list_elem_of_fmap_2 fst) in Hg. exact Hg.
Qed.

Lemma get_None_key d k : PyDict.get d k = None -> k ∉ PyDict.keys d.
Proof.
  induction d as [|[k0 v0] d IH]; simpl; intros Hg Hin.
  - apply elem_of_nil in Hin. exact Hin.
  - destruct (bool_decide (k0 = k)) eqn:E; [discriminate|].
    apply bool_decide_eq_false_1 in E.
    apply elem_of_cons in Hin as [Heq|Hin]; [congruence | exact (IH Hg Hin)].
Qed.

Lemma elem_get_nodup d k v : NoDup (PyDict.keys d) -> (k, v) ∈ d -> PyDict.get d k = Some v.
Proof.
  induction d as [|[k0 v0] d IH]; simpl; intros Hnd Hin.
  - apply elem_of_nil in Hin. contradiction.
  - apply NoDup_cons in Hnd as [Hk0 Hnd].
    apply elem_of_cons in Hin as [Heq|Hin].
    + injection Heq as -> ->. rewrite bool_decide_eq_true_2; reflexivity.
    + rewrite bool_decide_eq_false_2; [exact (IH Hnd Hin)|].
      intros ->. apply Hk0. apply (list_elem_of_fmap_2 fst) in Hin. exact Hin.
Qed.

Lemma of_items_acc (items acc : list (string * V)) :
  NoDup (map fst (acc ++ items)) ->
  fold_left (fun d kv => PyDict.set d (fst kv) (snd kv)) items acc = acc ++ items.
Proof.
  revert acc. induction items as [|[k v] items IH]; intros acc Hnd; simpl.
  - rewrite app_nil_r. reflexivity.
  - rewrite set_fresh.
    + rewrite IH; rewrite <- app_assoc; [reflexivity | exact Hnd].
    + rewrite map_app in Hnd. simpl in Hnd.
      apply NoDup_app in Hnd as (_ & Hdis & _).
      intros Hin. apply (Hdis k Hin). apply list_elem_of_here.
Qed.

Lemma of_items_nodup (items : list (string * V)) :
  NoDup (map fst items) -> PyDict.of_items items = items.
Proof. intros H. unfold PyDict.of_items. rewrite of_items_acc; [reflexivity | exact H]. Qed.

End PyDictFacts.

(** ** [DataConfig] *)

Section DataConfigFacts.
Import DataConfig.

Lemma validate_file_type_allowed v :
  v ∈ allowed_types -> validate_file_type v = Ok v.
Proof.
  intros Hin. unfold validate_file_type.
  rewrite bool_decide_eq_false_2; [reflexivity|]. intros Hn. exact (Hn Hin).
Qed.

Lemma validate_file_type_refused v :
  v ∉ allowed_types ->
  validate_file_type v =
  Raise (ValueError "File type must be one of ['csv', 'json', 'parquet', 'excel']").
Proof.
  intros Hin. unfold validate_file_type.
  rewrite bool_decide_eq_true_2 by exact Hin. reflexivity.
Qed.

(** C3. Building a [DataConfig] with a file type outside
    ['csv', 'json', 'parquet', 'excel'] raises a validation error that carries
    the validator's message for [file_type]; for a file type of the list the
    validator returns the value as it is, and, the path existing, the
    construction returns the configuration with that file type. *)
Theorem DataConfig_file_type_validation :
  (forall fs path v enc delim skip maxr cols,
      v ∉ allowed_types ->
      exists errors,
        init fs path v enc delim skip maxr cols = Raise (ValidationError errors)
        /\ ("file_type", "File type must be one of ['csv', 'json', 'parquet', 'excel']")
           ∈ errors)
  /\ (forall v, v ∈ allowed_types -> validate_file_type v = Ok v)
  /\ (forall fs path v enc delim skip maxr cols,
      v ∈ allowed_types -> FileSystem.exists_ fs path = true ->
      init fs path v enc delim skip maxr cols =
      Ok {| file_path := path; file_type := v; encoding := enc; delimiter := delim;
            skip_rows := skip; max_rows := maxr; columns := cols |}).
Proof.
  split; [|split].
  - intros fs path v enc delim skip maxr cols Hv.
    unfold init. rewrite (validate_file_type_refused v Hv).
    destruct (validate_file_exists fs path) as [p|e]; eexists; (split; [reflexivity|]).
    + simpl. apply list_elem_of_here.
    + apply elem_of_app. right. apply list_elem_of_here.
  - exact validate_file_type_allowed.
  - intros fs path v enc delim skip maxr cols Hv Hex.
    unfold init, validate_file_exists. rewrite Hex. simpl.
    rewrite (validate_file_type_allowed v Hv). reflexivity.
Qed.

Lemma DataConfig_file_type_validation_witness :
  (exists errors,
      of_path Examples.disk "people.csv" "xml" = Raise (ValidationError errors)
      /\ ("file_type", "File type must be one of ['csv', 'json', 'parquet', 'excel']")
         ∈ errors)
  /\ validate_file_type "parquet" = Ok "parquet"
  /\ of_path Examples.disk "people.csv" "csv" = Ok Examples.people_config.
Proof.
  split; [|split].
  - apply (proj1 DataConfig_file_type_validation).
    apply (bool_decide_unpack _). vm_compute. exact I.
  - apply (proj1 (proj2 DataConfig_file_type_validation)).
    apply (bool_decide_unpack _). vm_compute. exact I.
  - apply (proj2 (proj2 DataConfig_file_type_validation)).
    + apply (bool_decide_unpack _). vm_compute. exact I.
    + vm_compute. reflexivity.
Defined.

End DataConfigFacts.

(** ** The quality report *)

Section QualityReport.
Import Pandas ModernDataLoader Statements.
Context `{Library.t}.

Lemma wf_frame_nodup df : wf_frame df = true -> NoDup (labels df).
Proof.
  unfold wf_frame. intros Hwf. apply andb_prop in Hwf as [Hwf _].
  apply bool_decide_eq_true_1 in Hwf. exact Hwf.
Qed.


End QualityReport.


(** ** The fit/transform contract *)

Section Contract.
Import Pandas Store TypeSafeFeatureTransformer Statements.

Lemma validate_input_not_frame self X st :
  (forall x, X <> PFrame x) ->
  _validate_input self X st = Raise (TypeError "Input must be a pandas DataFrame").
Proof. intros Hx. destruct X; try reflexivity. exfalso. exact (Hx x eq_refl). Qed.

Lemma missing_features_empty (names have : list string) :
  (list_to_set names ∖ list_to_set have : gset string) = ∅
  <-> (forall c, c ∈ names -> c ∈ have).
Proof.
  split.
  - intros He c Hc. destruct (decide (c ∈ have)) as [Hin|Hout]; [exact Hin|].
    exfalso. assert (Hd : c ∈ (list_to_set names ∖ list_to_set have : gset string)).
    { apply elem_of_difference. split.
      - apply elem_of_list_to_set. exact Hc.
      - intros Hh. apply elem_of_list_to_set in Hh. exact (Hout Hh). }
    rewrite He in Hd. apply elem_of_empty in Hd. exact Hd.
  - intros Hall. apply leibniz_equiv. apply elem_of_equiv_empty. intros c Hd.
    apply elem_of_difference in Hd as [Hn Hh].
    apply elem_of_list_to_set in Hn. apply Hh. apply elem_of_list_to_set.
    apply Hall. exact Hn.
Qed.

(** The inherited [transform] of an object that is not fitted. *)
Lemma transform_not_fitted {T} `{Transformer T} (self : T) X st :
  is_fitted_ (base self) = false ->
  transform self X st = (Raise (ValueError "Transformer not fitted. Call fit() first."), st).
Proof. intros Hf. unfold transform. rewrite Hf. reflexivity. Qed.

(** The inherited [transform] of an object whose base part says it was
    fitted on the columns [C]. *)
Lemma transform_fitted {T} `{Transformer T} (self : T) C :
  base self = {| feature_names_ := Some C; is_fitted_ := true |} ->
  obeys_contract self C.
Proof.
  intros Hb. unfold obeys_contract, transform. rewrite Hb.
  cbn [is_fitted_ negb]. unfold mbind, M_bind, StateExn.get, StateExn.lift.
  split; [|split].
  - intros X st Hx. 
    rewrite (validate_input_not_frame _ X st Hx). reflexivity.
  - intros x st df Hdf (c & HcC & Hcdf).
    unfold _validate_input. rewrite Hdf. cbn [is_fitted_ feature_names_].
    rewrite bool_decide_eq_false_2.
    + eexists. reflexivity.
    + intros He. exact (Hcdf (proj1 (missing_features_empty C (labels df)) He c HcC)).
  - intros x st df Hdf Hall.
    unfold _validate_input. rewrite Hdf. cbn [is_fitted_ feature_names_].
    rewrite bool_decide_eq_true_2; [reflexivity|].
    exact (proj2 (missing_features_empty C (labels df)) Hall).
Qed.

(** What the base class's [fit] leaves in the object when it returns. *)
Lemma base_fit_ok X st self0 self1 :
  TypeSafeFeatureTransformer.fit X st self0 = (Ok tt, self1) ->
  exists x df, X = PFrame x /\ frames st !! x = Some df
               /\ self1 = {| feature_names_ := Some (labels df); is_fitted_ := true |}.
Proof.
  unfold TypeSafeFeatureTransformer.fit, mbind, M_bind, StateExn.get, StateExn.lift, StateExn.put, StateExn.raise.
  destruct X as [x| | |]; simpl; try discriminate.
  destruct (frames st !! x) as [df|] eqn:Hdf; simpl; [|discriminate].
  destruct (match is_fitted_ self0 with true => _ | false => _ end) as [x'|e] eqn:Hv;
    [|discriminate].
  assert (x' = x) as Hx.
  { destruct (is_fitted_ self0); [destruct (feature_names_ self0)|];
      [destruct (bool_decide _)| |]; congruence. }
  subst x'. rewrite Hdf. intros [= <-]. exists x, df. repeat split; [exact Hdf].
Qed.

(** *** The subclasses' [fit] leaves the inherited fields as the inherited
    [fit] set them *)

#[local] Instance same_parent_imputer_preorder : PreOrder same_parent_imputer.
Proof. split; [intros s; reflexivity | intros a b c Hab Hbc; unfold same_parent_imputer in *; congruence]. Qed.

Lemma imputer_fit_column_keeps_parent df column :
  keeps same_parent_imputer (SmartMissingValueImputer.fit_column df column).
Proof.
  unfold SmartMissingValueImputer.fit_column.
  repeat first [ keeps_step
               | (intros s; reflexivity) ].
Qed.

Lemma super_ok {T} `{Transformer T} (m : M TypeSafeFeatureTransformer.t unit) self a self1 :
  super m self = (Ok a, self1) ->
  exists b, m (base self) = (Ok a, b) /\ self1 = with_base b self.
Proof.
  unfold super. destruct (m (base self)) as [r b]. intros [= -> <-].
  exists b. split; reflexivity.
Qed.

Lemma imputer_fit_ok `{Library.t} X st self0 self1 :
  SmartMissingValueImputer.fit X st self0 = (Ok tt, self1) ->
  exists x df, X = PFrame x /\ frames st !! x = Some df
    /\ SmartMissingValueImputer.parent self1
       = {| feature_names_ := Some (labels df); is_fitted_ := true |}.
Proof.
  unfold SmartMissingValueImputer.fit. intros Hfit.
  apply bind_inv_ok in Hfit as ([] & s1 & Hsuper & Hloop).
  apply super_ok in Hsuper as (b & Hbase & ->).
  apply base_fit_ok in Hbase as (x & df & -> & Hdf & ->).
  exists x, df. split; [reflexivity|]. split; [exact Hdf|].
  rewrite Hdf in Hloop.
  pose proof (keeps_for_each same_parent_imputer (labels df)
                (SmartMissingValueImputer.fit_column df)
                (fun a _ => imputer_fit_column_keeps_parent df a)
                (with_base {| feature_names_ := Some (labels df); is_fitted_ := true |} self0))
    as Hkeep.
  rewrite Hloop in Hkeep. exact Hkeep.
Qed.

#[local] Instance same_parent_engineer_preorder : PreOrder same_parent_engineer.
Proof. split; [intros s; reflexivity | intros a b c Hab Hbc; unfold same_parent_engineer in *; congruence]. Qed.

Lemma engineer_detect_keeps_parent `{Library.t} df col :
  keeps same_parent_engineer (AdvancedFeatureEngineer.detect_date_column df col).
Proof.
  unfold AdvancedFeatureEngineer.detect_date_column.
  repeat first [ keeps_step
               | (intros s; reflexivity) ].
Qed.

Lemma engineer_fit_ok `{Library.t} X st self0 self1 :
  AdvancedFeatureEngineer.fit X st self0 = (Ok tt, self1) ->
  exists x df, X = PFrame x /\ frames st !! x = Some df
    /\ AdvancedFeatureEngineer.parent self1
       = {| feature_names_ := Some (labels df); is_fitted_ := true |}.
Proof.
  unfold AdvancedFeatureEngineer.fit. intros Hfit.
  apply bind_inv_ok in Hfit as ([] & s1 & Hsuper & Hrest).
  apply super_ok in Hsuper as (b & Hbase & ->).
  apply base_fit_ok in Hbase as (x & df & -> & Hdf & ->).
  exists x, df. split; [reflexivity|]. split; [exact Hdf|].
  rewrite Hdf in Hrest.
  apply bind_inv_ok in Hrest as ([] & s2 & Hset & Hloop).
  injection Hset as <-.
  pose proof (keeps_for_each same_parent_engineer
                (select_dtypes (fun d => bool_decide (d = object_)) df)
                (AdvancedFeatureEngineer.detect_date_column df)
                (fun a _ => engineer_detect_keeps_parent df a)) as Hkeep.
  match type of Hloop with ?f ?l ?b ?s0 = _ => specialize (Hkeep s0) end.
  rewrite Hloop in Hkeep. exact Hkeep.
Qed.

(** C4. Every transformer obeys the fit/transform contract. Before [fit],
    [transform] raises [ValueError]: for any object not marked as fitted, and
    so for a new object of each of the three classes. After [fit] has
    returned on a frame with the columns [C], [transform] raises [TypeError]
    for anything but a frame, raises [ValueError] for a frame that lacks a
    column of [C], and otherwise goes on to [_transform_impl]. *)
Theorem fit_transform_contract `{Library.t} :
  (forall T (HT : Transformer T) (self : T) X st,
      is_fitted_ (base self) = false ->
      transform self X st
      = (Raise (ValueError "Transformer not fitted. Call fit() first."), st))
  /\ (forall X st,
        transform TypeSafeFeatureTransformer.__init__ X st
        = (Raise (ValueError "Transformer not fitted. Call fit() first."), st))
  /\ (forall strategy n X st,
        transform (SmartMissingValueImputer.__init__ strategy n) X st
        = (Raise (ValueError "Transformer not fitted. Call fit() first."), st))
  /\ (forall ci cp deg cd X st,
        transform (AdvancedFeatureEngineer.__init__ ci cp deg cd) X st
        = (Raise (ValueError "Transformer not fitted. Call fit() first."), st))
  /\ (forall self0 X st self1 df,
        fitted_on TypeSafeFeatureTransformer.fit self0 X st self1 df ->
        obeys_contract self1 (labels df))
  /\ (forall self0 X st self1 df,
        fitted_on SmartMissingValueImputer.fit self0 X st self1 df ->
        obeys_contract self1 (labels df))
  /\ (forall self0 X st self1 df,
        fitted_on AdvancedFeatureEngineer.fit self0 X st self1 df ->
        obeys_contract self1 (labels df)).
Proof.
  repeat apply conj.
  - intros T HT self X st Hf. apply transform_not_fitted. exact Hf.
  - intros X st. apply transform_not_fitted. reflexivity.
  - intros strategy n X st. apply transform_not_fitted. reflexivity.
  - intros ci cp deg cd X st. apply transform_not_fitted. reflexivity.
  - intros self0 X st self1 df [Hfit (x & -> & Hdf)].
    apply base_fit_ok in Hfit as (x' & df' & [= <-] & Hdf' & ->).
    apply transform_fitted. simpl. congruence.
  - intros self0 X st self1 df [Hfit (x & -> & Hdf)].
    apply imputer_fit_ok in Hfit as (x' & df' & [= <-] & Hdf' & Hp).
    apply transform_fitted. simpl. rewrite Hp. congruence.
  - intros self0 X st self1 df [Hfit (x & -> & Hdf)].
    apply engineer_fit_ok in Hfit as (x' & df' & [= <-] & Hdf' & Hp).
    apply transform_fitted. simpl. rewrite Hp. congruence.
Qed.

End Contract.

Section ContractWitness.
#[local] Existing Instance Examples.plain_library.

Lemma fit_transform_contract_witness :
  TypeSafeFeatureTransformer.transform
    (SmartMissingValueImputer.__init__ "auto" 5) (Store.PFrame 1%positive) Examples.store
  = (Raise (ValueError "Transformer not fitted. Call fit() first."), Examples.store)
  /\ Statements.obeys_contract Examples.fitted_imputer (Pandas.labels Examples.people).
Proof.
  pose proof (@fit_transform_contract Examples.plain_library) as (Hnot & _ & _ & _ & _ & Himp & _).
  split.
  - apply Hnot. reflexivity.
  - apply (Himp (SmartMissingValueImputer.__init__ "auto" 5) (Store.PFrame 1%positive) Examples.store).
    split.
    + vm_compute. reflexivity.
    + exists 1%positive. split; reflexivity.
Defined.

End ContractWitness.


(** ** Downcasting integer columns *)

Section OptimizeDtypes.
Import Pandas ModernDataLoader Statements.
Context `{Library.t}.

Lemma fold_min_le (l : list Z) (a : Z) :
  (fold_left Z.min l a <= a)%Z /\ forall z, z ∈ l -> (fold_left Z.min l a <= z)%Z.
Proof.
  revert a. induction l as [|b l IH]; intros a; simpl.
  - split; [lia|]. intros z Hz. apply elem_of_nil in Hz. contradiction.
  - destruct (IH (Z.min a b)) as [H1 H2]. split; [lia|].
    intros z Hz. apply elem_of_cons in Hz as [->|Hz]; [lia | exact (H2 z Hz)].
Qed.

Lemma fold_max_ge (l : list Z) (a : Z) :
  (a <= fold_left Z.max l a)%Z /\ forall z, z ∈ l -> (z <= fold_left Z.max l a)%Z.
Proof.
  revert a. induction l as [|b l IH]; intros a; simpl.
  - split; [lia|]. intros z Hz. apply elem_of_nil in Hz. contradiction.
  - destruct (IH (Z.max a b)) as [H1 H2]. split; [lia|].
    intros z Hz. apply elem_of_cons in Hz as [->|Hz]; [lia | exact (H2 z Hz)].
Qed.

Lemma list_min_le l lo z : list_min l = Some lo -> z ∈ l -> (lo <= z)%Z.
Proof.
  destruct l as [|a l]; [discriminate|]. intros [= <-] Hz.
  destruct (fold_min_le l a) as [H1 H2].
  apply elem_of_cons in Hz as [->|Hz]; [exact H1 | exact (H2 z Hz)].
Qed.

Lemma list_max_ge l hi z : list_max l = Some hi -> z ∈ l -> (z <= hi)%Z.
Proof.
  destruct l as [|a l]; [discriminate|]. intros [= <-] Hz.
  destruct (fold_max_ge l a) as [H1 H2].
  apply elem_of_cons in Hz as [->|Hz]; [exact H1 | exact (H2 z Hz)].
Qed.

(** The target the loop picks has been checked against the extremes. *)
Lemma downcast_target_within lo hi dt :
  downcast_target lo hi = Some dt -> within_target dt lo hi.
Proof.
  unfold downcast_target.
  destruct (lo >=? 0)%Z eqn:Hlo.
  - repeat match goal with
           | |- context [if (?a <? ?b)%Z then _ else _] =>
               destruct (Z.ltb_spec a b)
           end; intros [= <-]; simpl; lia.
  - repeat match goal with
           | |- context [(?a >? ?b)%Z && (?c <? ?d)%Z] =>
               destruct (Z.gtb_spec a b); destruct (Z.ltb_spec c d); cbn [andb]
           end; intros [= <-]; simpl in *; lia.
Qed.

(** A value between checked extremes is its own image in the target. *)
Lemma wrap_int_within dt lo hi z :
  within_target dt lo hi -> (lo <= z <= hi)%Z -> wrap_int dt z = z.
Proof.
  destruct dt; simpl; try contradiction; intros Hw Hz;
    unfold wrap_int, iinfo_min, iinfo_max in *; cbn in *.
  all: try (apply Z.mod_small; lia).
  all: try (rewrite Z.mod_small by lia; lia).

Qed.

Lemma elem_of_int_values s z : VInt z ∈ values s -> z ∈ int_values s.
Proof.
  unfold int_values. intros Hin. apply list_elem_of_omap.
  exists (VInt z). split; [exact Hin | reflexivity].
Qed.

(** The cast the loop applies changes no cell. *)
Lemma astype_int_values dt s lo hi :
  list_min (int_values s) = Some lo ->
  list_max (int_values s) = Some hi ->
  within_target dt lo hi ->
  values (astype_int dt s) = values s.
Proof.
  intros Hlo Hhi Hw. unfold astype_int. simpl.
  rewrite <- (map_id (values s)) at 2. apply map_ext_in.
  intros c Hc. destruct c as [z| | | | |]; try reflexivity.
  f_equal. apply (wrap_int_within dt lo hi); [exact Hw|].
  apply list_elem_of_In in Hc. apply elem_of_int_values in Hc.
  split; [exact (list_min_le _ _ _ Hlo Hc) | exact (list_max_ge _ _ _ Hhi Hc)].
Qed.

Lemma getitem_ok df name s :
  getitem df name = Ok s <-> PyDict.get (columns df) name = Some s.
Proof.
  unfold getitem, PyDict.item. destruct (PyDict.get (columns df) name); split; congruence.
Qed.

Lemma set_column_spec col s self df' :
  _data self = Some df' ->
  set_column col s self = (Ok tt, with_column self df' col s)
  \/ exists e, set_column col s self = (Raise e, self).
Proof.
  intros Hd. unfold set_column, mbind, M_bind, StateExn.get, StateExn.lift, StateExn.put.
  rewrite Hd. unfold setitem.
  destruct (Nat.eqb _ _); [left; reflexivity | right; eexists; reflexivity].
Qed.

Lemma get_column_spec col self df' :
  _data self = Some df' -> get_column col self = (getitem df' col, self).
Proof.
  intros Hd. unfold get_column, mbind, M_bind, StateExn.get, StateExn.lift.
  rewrite Hd. reflexivity.
Qed.

Lemma sets_only_after_get col (k : Series -> Series) (guard : Series -> bool) :
  sets_only col (fun self =>
    (s ← get_column col; if guard s then set_column col (k s) else mret tt) self).
Proof.
  intros self df' Hd. unfold mbind, M_bind. rewrite (get_column_spec col self df' Hd).
  destruct (getitem df' col) as [s|e] eqn:Hg; [|left; reflexivity].
  destruct (guard s); [|left; reflexivity].
  destruct (set_column_spec col (k s) self df' Hd) as [Hs|[e Hs]]; rewrite Hs; simpl.
  - right. split; [|eexists; reflexivity].
    apply getitem_ok in Hg. exact (get_Some_key _ _ _ Hg).
  - left. reflexivity.
Qed.

Lemma optimize_float_sets_only col : sets_only col (optimize_float_column col).
Proof.
  exact (sets_only_after_get col Library.to_numeric_downcast_float (fun _ => true)).
Qed.

Lemma optimize_object_sets_only col : sets_only col (optimize_object_column col).
Proof.
  intros self df' Hd. unfold optimize_object_column, mbind, M_bind, StateExn.get.
  rewrite (get_column_spec col self df' Hd).
  destruct (getitem df' col) as [s|e] eqn:Hg; [|left; reflexivity].
  rewrite Hd.
  destruct (Nat.eqb (index_len df') 0); [left; reflexivity|].
  destruct (Qle_bool _ _); [left; reflexivity|].
  destruct (set_column_spec col (astype_category s) self df' Hd) as [Hs|[e Hs]];
    rewrite Hs; simpl.
  - right. split; [|eexists; reflexivity].
    apply getitem_ok in Hg. exact (get_Some_key _ _ _ Hg).
  - left. reflexivity.
Qed.

(** Changing a column that was not [int64] to begin with keeps the invariant. *)
Lemma sets_only_keeps_inv df col m self :
  sets_only col m ->
  (forall s, getitem df col = Ok s -> dtype s <> int64) ->
  optimize_inv df self -> optimize_inv df (snd (m self)).
Proof.
  intros Hm Hcol (df' & Hd & Hl & Hk).
  destruct (Hm self df' Hd) as [->|(Hin & s' & ->)].
  - exists df'. auto.
  - eexists. split; [reflexivity|]. split.
    + unfold labels in *. simpl. rewrite <- Hl. apply keys_set_present. exact Hin.
    + intros name s Hg Hdt.
      assert (col <> name) as Hne by (intros ->; exact (Hcol s Hg Hdt)).
      destruct (Hk name s Hg Hdt) as (s1 & Hg1 & Hrest).
      exists s1. split; [|exact Hrest].
      apply getitem_ok. simpl. rewrite get_set_ne by exact Hne.
      apply getitem_ok. exact Hg1.
Qed.

(** The integer loop's body keeps the invariant, whatever the column. *)
Lemma optimize_int_keeps_inv df col self :
  optimize_inv df self -> optimize_inv df (snd (optimize_int_column col self)).
Proof.
  intros (df' & Hd & Hl & Hk).
  unfold optimize_int_column, mbind, M_bind.
  rewrite (get_column_spec col self df' Hd).
  destruct (getitem df' col) as [sc|e] eqn:Hg; simpl; [|exists df'; auto].
  destruct (list_min (int_values sc)) as [lo|] eqn:Hlo; [|exists df'; auto].
  destruct (list_max (int_values sc)) as [hi|] eqn:Hhi; [|exists df'; auto].
  destruct (downcast_target lo hi) as [dt|] eqn:Ht; [|exists df'; auto].
  destruct (set_column_spec col (astype_int dt sc) self df' Hd) as [Hs|[e Hs]];
    rewrite Hs; simpl; [|exists df'; auto].
  eexists. split; [reflexivity|]. split.
  - unfold labels in *. simpl. rewrite <- Hl. apply keys_set_present.
    apply getitem_ok in Hg. exact (get_Some_key _ _ _ Hg).
  - intros name s Hgs Hdt. destruct (Hk name s Hgs Hdt) as (s1 & Hg1 & Hv1 & Hd1).
    destruct (decide (col = name)) as [->|Hne].
    + assert (s1 = sc) as -> by congruence.
      pose proof (downcast_target_within lo hi dt Ht) as Hw.
      exists (astype_int dt sc). split; [|split].
      * apply getitem_ok. simpl. apply get_set_eq.
      * rewrite (astype_int_values dt sc lo hi Hlo Hhi Hw). exact Hv1.
      * right. exists lo, hi. unfold int_values in *. rewrite <- Hv1. auto.
    + exists s1. split; [|auto].
      apply getitem_ok. simpl. rewrite get_set_ne by exact Hne.
      apply getitem_ok. exact Hg1.
Qed.

(** A column the later loops select was not [int64] to begin with. *)
Lemma selected_not_int64 df df' dt col :
  NoDup (labels df) ->
  labels df' = labels df ->
  int64_columns_kept df df' ->
  dt = float64 \/ dt = object_ ->
  col ∈ select_dtypes (fun d => bool_decide (d = dt)) df' ->
  forall s, getitem df col = Ok s -> dtype s <> int64.
Proof.
  intros Hnd Hl Hk Hdt Hsel s Hg Hint.
  unfold select_dtypes in Hsel.
  apply list_elem_of_fmap in Hsel as ([c sc] & -> & Hin).
  apply list_elem_of_filter in Hin as [Hdtc Hin]. simpl in *.
  apply bool_decide_unpack in Hdtc.
  assert (getitem df' c = Ok sc) as Hgc.
  { apply getitem_ok. apply elem_get_nodup; [|exact Hin].
    unfold PyDict.keys. fold (labels df'). rewrite Hl. exact Hnd. }
  destruct (Hk c s Hg Hint) as (s1 & Hg1 & _ & Hd1).
  assert (s1 = sc) as -> by congruence.
  destruct Hd1 as [Hd1|(lo & hi & _ & _ & Hw)].
  - destruct Hdt; congruence.
  - rewrite Hdtc in Hw. destruct Hdt; subst dt; exact Hw.
Qed.

Lemma columns_of_dtype_spec dt self df' :
  _data self = Some df' ->
  columns_of_dtype dt self = (Ok (select_dtypes (fun d => bool_decide (d = dt)) df'), self).
Proof.
  intros Hd. unfold columns_of_dtype, mbind, M_bind, StateExn.get. rewrite Hd. reflexivity.
Qed.

(** A loop of the two later kinds keeps the invariant. *)
Lemma later_loop_keeps_inv df dt (body : string -> M ModernDataLoader.t unit) self df1 :
  NoDup (labels df) ->
  dt = float64 \/ dt = object_ ->
  (forall col, sets_only col (body col)) ->
  _data self = Some df1 -> labels df1 = labels df -> int64_columns_kept df df1 ->
  optimize_inv df
    (snd (for_each (select_dtypes (fun d => bool_decide (d = dt)) df1) body self)).
Proof.
  intros Hnd Hdt Hbody Hd Hl Hk.
  apply (for_each_invariant (optimize_inv df)).
  - intros col s Hin Hs.
    apply (sets_only_keeps_inv df col (body col) s (Hbody col)); [|exact Hs].
    exact (selected_not_int64 df df1 dt col Hnd Hl Hk Hdt Hin).
  - exists df1. auto.
Qed.

Lemma optimize_dtypes_inv self df :
  _data self = Some df -> NoDup (labels df) ->
  optimize_inv df (snd (_optimize_dtypes self)).
Proof.
  intros Hd Hnd.
  assert (optimize_inv df self) as Hinv0.
  { exists df. split; [exact Hd|]. split; [reflexivity|].
    intros name s Hg Hdt. exists s. auto. }
  unfold _optimize_dtypes.
  unfold mbind at 1, M_bind at 1, StateExn.get at 1. rewrite Hd.
  unfold mbind at 1, M_bind at 1. rewrite (columns_of_dtype_spec int64 self df Hd).
  set (int_cols := select_dtypes _ df).
  unfold mbind at 1, M_bind at 1.
  pose proof (for_each_invariant (optimize_inv df) int_cols optimize_int_column
                (fun col s _ Hs => optimize_int_keeps_inv df col s Hs) self Hinv0) as Hinv1.
  destruct (for_each int_cols optimize_int_column self) as [[[]|e] self1];
    simpl in Hinv1; [|exact Hinv1].
  destruct Hinv1 as (df1 & Hd1 & Hl1 & Hk1).
  unfold mbind at 1, M_bind at 1. rewrite (columns_of_dtype_spec float64 self1 df1 Hd1).
  unfold mbind at 1, M_bind at 1.
  pose proof (later_loop_keeps_inv df float64 optimize_float_column self1 df1 Hnd
                (or_introl eq_refl) optimize_float_sets_only Hd1 Hl1 Hk1) as Hinv2.
  destruct (for_each _ optimize_float_column self1) as [[[]|e] self2];
    simpl in Hinv2; [|exact Hinv2].
  destruct Hinv2 as (df2 & Hd2 & Hl2 & Hk2).
  unfold mbind at 1, M_bind at 1. rewrite (columns_of_dtype_spec object_ self2 df2 Hd2).
  exact (later_loop_keeps_inv df object_ optimize_object_column self2 df2 Hnd
           (or_intror eq_refl) optimize_object_sets_only Hd2 Hl2 Hk2).
Qed.

(** C8, as the code has it. [_optimize_dtypes] changes no stored integer: a
    column of dtype [int64] is cast only to a dtype its extremes were checked
    against (the maximum strictly below the target's greatest value; the
    minimum at least 0 for an unsigned target, negative and strictly above the
    target's least value for a signed one), and every cell of every such
    column is the same before and after, however the method ends. *)
Theorem optimize_dtypes_keeps_integers (self : ModernDataLoader.t) (df : DataFrame) :
  _data self = Some df ->
  NoDup (labels df) ->
  exists df',
    _data (snd (_optimize_dtypes self)) = Some df'
    /\ int64_columns_kept df df'.
Proof.
  intros Hd Hnd.
  destruct (optimize_dtypes_inv self df Hd Hnd) as (df' & Hd' & _ & Hk).
  exists df'. auto.
Qed.

End OptimizeDtypes.

Section OptimizeDtypesExamples.
#[local] Existing Instance Examples.plain_library.
Import Pandas ModernDataLoader Statements.

Lemma optimize_dtypes_keeps_integers_witness :
  exists df',
    _data (snd (_optimize_dtypes Examples.people_loader)) = Some df'
    /\ int64_columns_kept Examples.people df'.
Proof.
  apply (optimize_dtypes_keeps_integers Examples.people_loader Examples.people).
  - reflexivity.
  - apply (bool_decide_unpack _). vm_compute. exact I.
Defined.

(** C8, as worded, fails: the column [0, 1] is cast to [uint8], whose least
    value is its minimum, so the minimum is not strictly inside the range. *)
Lemma optimize_dtypes_minimum_on_the_bound :
  _data (snd (_optimize_dtypes Examples.counts_loader))
  = Some {| index_len := 2;
            columns := [("n", {| dtype := uint8; values := [VInt 0; VInt 1] |})] |}
  /\ list_min (int_values {| dtype := int64; values := [VInt 0; VInt 1] |}) = Some 0%Z
  /\ list_max (int_values {| dtype := int64; values := [VInt 0; VInt 1] |}) = Some 1%Z
  /\ strictly_inside uint8 0 1 = false.
Proof. repeat apply conj; vm_compute; reflexivity. Qed.

End OptimizeDtypesExamples.


(** ** The strategies of [SmartMissingValueImputer] *)

Section AutoStrategy.
Import Pandas Store TypeSafeFeatureTransformer SmartMissingValueImputer Statements.

Lemma subframe_index_len df names sub :
  subframe df names = Ok sub -> index_len sub = index_len df.
Proof.
  unfold subframe. destruct (subframe_columns df names); simpl; [|discriminate].
  intros [= <-]. reflexivity.
Qed.

Lemma imputer_fit_ok_rows imp sub fitted :
  Library.imputer_fit imp sub = Ok fitted -> index_len sub <> 0%nat.
Proof.
  unfold Library.imputer_fit, Library.check_array.
  intros Hfit Hz. rewrite Hz in Hfit. simpl in Hfit.
  destruct imp; [destruct (bool_decide _) | destruct (_ <? _)%Z]; discriminate.
Qed.

(** What a run of [fit_column] that returns has done. *)
Lemma fit_column_ok X column s self self' :
  getitem X column = Ok s ->
  fit_column X column self = (Ok tt, self') ->
  strategy self' = strategy self
  /\ ((fis_zero (null_mean s) = true /\ self' = self)
      \/ (fis_zero (null_mean s) = false
          /\ index_len X <> 0%nat
          /\ strategies_ self' = PyDict.set (strategies_ self) column (chosen s self)
          /\ exists i0 i1,
               imputers_ self' = PyDict.set (PyDict.set (imputers_ self) column i0) column i1)).
Proof.
  intros Hg. unfold fit_column.
  unfold mbind at 1, M_bind at 1, StateExn.lift at 1. rewrite Hg.
  destruct (fis_zero (null_mean s)) eqn:Hz.
  { intros [= <-]. split; [reflexivity|]. left. auto. }
  unfold mbind at 1, M_bind at 1, StateExn.get at 1.
  fold (chosen s self).
  unfold mbind at 1, M_bind at 1, set_strategy at 1.
  destruct (bool_decide (chosen s self = "knn")).
  - unfold mbind, M_bind, set_imputer, StateExn.lift.
    destruct (subframe X _) as [sub|e] eqn:Hsub; [|discriminate].
    destruct (Library.imputer_fit _ sub) as [fitted|e] eqn:Hfit; [|discriminate].
    intros [= <-]. simpl. split; [reflexivity|]. right.
    split; [reflexivity|]. split.
    + rewrite <- (subframe_index_len _ _ _ Hsub). exact (imputer_fit_ok_rows _ _ _ Hfit).
    + split; [reflexivity|]. eexists _, _. reflexivity.
  - unfold mbind, M_bind, set_imputer, StateExn.lift.
    destruct (subframe X _) as [sub|e] eqn:Hsub; [|discriminate].
    destruct (Library.imputer_fit _ sub) as [fitted|e] eqn:Hfit; [|discriminate].
    intros [= <-]. simpl. split; [reflexivity|]. right.
    split; [reflexivity|]. split.
    + rewrite <- (subframe_index_len _ _ _ Hsub). exact (imputer_fit_ok_rows _ _ _ Hfit).
    + split; [reflexivity|]. eexists _, _. reflexivity.
Qed.

Lemma chosen_same_strategy s self self' :
  strategy self' = strategy self -> chosen s self' = chosen s self.
Proof. intros Hs. unfold chosen. rewrite Hs. reflexivity. Qed.

Lemma fit_loop_ok X (l : list string) :
  NoDup l ->
  forall self self',
    for_each l (fit_column X) self = (Ok tt, self') ->
    strategy self' = strategy self
    /\ (forall name, name ∉ l ->
          PyDict.get (strategies_ self') name = PyDict.get (strategies_ self) name
          /\ PyDict.get (imputers_ self') name = PyDict.get (imputers_ self) name)
    /\ (forall name s, name ∈ l -> getitem X name = Ok s -> assigned X s self self' name).
Proof.
  induction 1 as [|a l Ha Hnd IH]; intros self self' Hrun.
  - injection Hrun as <-. split; [reflexivity|]. split; [auto|].
    intros name s Hin. apply elem_of_nil in Hin. contradiction.
  - cbn [for_each] in Hrun.
    apply bind_inv_ok in Hrun as ([] & s1 & Hcol & Hrest).
    destruct (IH s1 self' Hrest) as (Hstr & Hout & Hin).
    assert (exists sa, getitem X a = Ok sa) as [sa Hga].
    { unfold fit_column, mbind, M_bind, StateExn.lift in Hcol.
      destruct (getitem X a) as [sa|e]; [eexists; reflexivity | discriminate]. }
    destruct (fit_column_ok X a sa self s1 Hga Hcol) as (Hstr1 & Hcase).
    assert (Hother : forall name, name <> a ->
              PyDict.get (strategies_ s1) name = PyDict.get (strategies_ self) name
              /\ PyDict.get (imputers_ s1) name = PyDict.get (imputers_ self) name).
    { intros name Hne. destruct Hcase as [[_ ->]|(_ & _ & Hs & i0 & i1 & Hi)]; [auto|].
      rewrite Hs, Hi. rewrite !get_set_ne by congruence. auto. }
    split; [congruence|]. split.
    + intros name Hn. apply not_elem_of_cons in Hn as [Hne Hn].
      destruct (Hout name Hn) as [H1 H2]. destruct (Hother name Hne) as [H3 H4].
      split; congruence.
    + intros name s Hn Hg. apply elem_of_cons in Hn as [->|Hn].
      * assert (sa = s) as -> by congruence.
        destruct (Hout a Ha) as [H1 H2]. unfold assigned.
        destruct Hcase as [[Hz ->]|(Hz & Hrows & Hs & i0 & i1 & Hi)]; rewrite Hz.
        -- auto.
        -- split; [exact Hrows|]. rewrite H1, H2, Hs, Hi, !get_set_eq. eauto.
      * assert (name <> a) as Hne by (intros ->; exact (Ha Hn)).
        specialize (Hin name s Hn Hg). destruct (Hother name Hne) as [H3 H4].
        unfold assigned in *. destruct (fis_zero (null_mean s)).
        -- destruct Hin as [H1 H2]. split; congruence.
        -- rewrite (chosen_same_strategy s self s1 Hstr1) in Hin. exact Hin.
Qed.

Lemma wf_frame_lengths df name s :
  wf_frame df = true -> (name, s) ∈ columns df -> length (values s) = index_len df.
Proof.
  unfold wf_frame. intros Hwf Hin. apply andb_prop in Hwf as [_ Hall].
  rewrite forallb_forall in Hall. apply list_elem_of_In in Hin.
  specialize (Hall _ Hin). simpl in Hall. apply Nat.eqb_eq in Hall. exact Hall.
Qed.

Lemma null_mean_share s :
  length (values s) <> 0%nat -> null_mean s = Fin (missing_share s).
Proof.
  unfold null_mean, missing_share. destruct (length (values s)); [contradiction | reflexivity].
Qed.

Lemma fis_zero_share s :
  fis_zero (Fin (missing_share s)) = true <-> null_count s = 0%nat.
Proof.
  unfold fis_zero, missing_share. rewrite Qeq_bool_iff. unfold Qeq. simpl. lia.
Qed.

Lemma flt_tenth (q : Q) : flt (Fin q) (Fin (1 # 10)) = true <-> (q < 1 # 10)%Q.
Proof.
  unfold flt. rewrite negb_true_iff. split.
  - intros Hle. apply Qnot_le_lt. intros Hq. apply Qle_bool_iff in Hq. congruence.
  - intros Hlt. destruct (Qle_bool (1 # 10) q) eqn:E; [|reflexivity].
    apply Qle_bool_iff in E. exfalso. exact (Qlt_not_le _ _ Hlt E).
Qed.

(** C5. After [fit] of an imputer built with [strategy='auto'] has returned
    on a frame: a column with no missing value has no imputer (and no
    strategy); an [object_] or [category] column with missing values has the
    strategy 'most_frequent'; a [float64] or [int64] column with a share of
    missing values below 0.1 has 'mean'; any other column with a share below
    0.1 has 'most_frequent'; and every remaining column (a share of at least
    0.1, neither [object_] nor [category]) has 'knn'. *)
Theorem auto_strategy_assignment `{Library.t} (n : Z) (st : Store.t) (x : loc)
    (df : DataFrame) (self1 : SmartMissingValueImputer.t) :
  frames st !! x = Some df ->
  wf_frame df = true ->
  SmartMissingValueImputer.fit (PFrame x) st (SmartMissingValueImputer.__init__ "auto" n)
  = (Ok tt, self1) ->
  forall name s, (name, s) ∈ columns df ->
    (null_count s = 0%nat ->
       PyDict.get (imputers_ self1) name = None
       /\ PyDict.get (strategies_ self1) name = None)
    /\ ((0 < null_count s)%nat -> dtype s ∈ [object_; category] ->
          PyDict.get (strategies_ self1) name = Some "most_frequent")
    /\ ((0 < null_count s)%nat -> dtype s ∈ [float64; int64] ->
          (missing_share s < 1 # 10)%Q ->
          PyDict.get (strategies_ self1) name = Some "mean")
    /\ ((0 < null_count s)%nat -> dtype s ∉ [object_; category; float64; int64] ->
          (missing_share s < 1 # 10)%Q ->
          PyDict.get (strategies_ self1) name = Some "most_frequent")
    /\ (dtype s ∉ [object_; category] -> (1 # 10 <= missing_share s)%Q ->
          PyDict.get (strategies_ self1) name = Some "knn").
Proof.
  intros Hdf Hwf Hfit name s Hin.
  pose proof (wf_frame_nodup df Hwf) as Hnd.
  pose proof (wf_frame_lengths df name s Hwf Hin) as Hlen.
  unfold SmartMissingValueImputer.fit in Hfit.
  apply bind_inv_ok in Hfit as ([] & s1 & Hsuper & Hloop).
  apply super_ok in Hsuper as (b & _ & ->).
  rewrite Hdf in Hloop.
  destruct (fit_loop_ok df (labels df) Hnd _ _ Hloop) as (_ & _ & Hassigned).
  assert (getitem df name = Ok s) as Hg.
  { apply getitem_ok. apply elem_get_nodup; [exact Hnd | exact Hin]. }
  assert (name ∈ labels df) as Hname.
  { apply (list_elem_of_fmap_2 fst) in Hin. exact Hin. }
  specialize (Hassigned name s Hname Hg). unfold assigned in Hassigned.
  simpl in Hassigned.
  (* a column with missing values has a row, and its strategy is the automatic one *)
  assert (Hmissing : (0 < null_count s)%nat ->
            PyDict.get (strategies_ self1) name
            = Some (auto_strategy (dtype s) (Fin (missing_share s)))).
  { intros Hpos.
    assert (length (values s) <> 0%nat) as Hrows.
    { unfold null_count in Hpos. pose proof (length_filter (fun c => isnull c) (values s)).
      lia. }
    rewrite (null_mean_share s Hrows) in Hassigned.
    destruct (fis_zero (Fin (missing_share s))) eqn:Hz.
    - apply fis_zero_share in Hz. lia.
    - destruct Hassigned as (_ & Hs & _).
      unfold chosen in Hs. simpl in Hs. rewrite (null_mean_share s Hrows) in Hs.
      exact Hs. }
  repeat apply conj.
  - intros Hnone.
    destruct (Nat.eq_dec (length (values s)) 0) as [Hz|Hrows].
    + unfold null_mean in Hassigned. rewrite Hz in Hassigned. simpl in Hassigned.
      destruct Hassigned as (Hrows & _). lia.
    + rewrite (null_mean_share s Hrows) in Hassigned.
      rewrite (proj2 (fis_zero_share s) Hnone) in Hassigned.
      destruct Hassigned as [-> ->]. auto.
  - intros Hpos Hdt. rewrite (Hmissing Hpos). unfold auto_strategy.
    rewrite bool_decide_eq_true_2 by exact Hdt. reflexivity.
  - intros Hpos Hdt Hlt. rewrite (Hmissing Hpos). unfold auto_strategy.
    rewrite (proj2 (flt_tenth _) Hlt).
    rewrite (bool_decide_eq_true_2 _ Hdt).
    rewrite bool_decide_eq_false_2; [reflexivity|].
    intros Hobj. revert Hdt Hobj. destruct (dtype s); intros H1 H2;
      first [ apply (bool_decide_pack _) in H1; vm_compute in H1; exact H1
            | apply (bool_decide_pack _) in H2; vm_compute in H2; exact H2 ].
  - intros Hpos Hdt Hlt. rewrite (Hmissing Hpos). unfold auto_strategy.
    rewrite (proj2 (flt_tenth _) Hlt).
    rewrite !bool_decide_eq_false_2; [reflexivity | |].
    + intros Hnum. apply Hdt. apply list_elem_of_further, list_elem_of_further. exact Hnum.
    + intros Hobj. apply Hdt.
      apply elem_of_cons in Hobj as [->|Hobj]; [apply list_elem_of_here|].
      apply list_elem_of_further. apply elem_of_cons in Hobj as [->|Hobj];
        [apply list_elem_of_here | apply elem_of_nil in Hobj; contradiction].
  - intros Hdt Hge.
    assert ((0 < null_count s)%nat) as Hpos.
    { destruct (null_count s) eqn:Hc; [|lia]. exfalso.
      unfold missing_share in Hge. rewrite Hc in Hge. unfold Qle in Hge. simpl in Hge. lia. }
    rewrite (Hmissing Hpos). unfold auto_strategy.
    rewrite bool_decide_eq_false_2 by exact Hdt.
    destruct (flt (Fin (missing_share s)) (Fin (1 # 10))) eqn:Hf; [|reflexivity].
    apply flt_tenth in Hf. exfalso. exact (Qlt_not_le _ _ Hf Hge).
Qed.

End AutoStrategy.

Section AutoStrategyWitness.
#[local] Existing Instance Examples.plain_library.
Import Pandas SmartMissingValueImputer.

Lemma auto_strategy_assignment_witness :
  (PyDict.get (imputers_ Examples.fitted_imputer) "age" = None
   /\ PyDict.get (strategies_ Examples.fitted_imputer) "age" = None)
  /\ PyDict.get (strategies_ Examples.fitted_imputer) "income" = Some "knn".
Proof.
  pose proof (auto_strategy_assignment 5 Examples.store 1%positive Examples.people
                Examples.fitted_imputer eq_refl eq_refl eq_refl) as Hall.
  split.
  - refine (proj1 (Hall "age" _ _) _).
    + apply list_elem_of_here.
    + reflexivity.
  - refine (proj2 (proj2 (proj2 (proj2 (Hall "income" _ _)))) _ _).
    + apply list_elem_of_further, list_elem_of_here.
    + apply (bool_decide_unpack _). vm_compute. exact I.
    + vm_compute. discriminate.
Defined.

End AutoStrategyWitness.


(** ** The caller's frame is left as it was *)

Section InputUnchanged.
Import Pandas Store TypeSafeFeatureTransformer Statements.

#[local] Instance off_preorder x' : PreOrder (off x').
Proof.
  split.
  - intros st y _. reflexivity.
  - intros a b c Hab Hbc y Hy. rewrite (Hbc y Hy). exact (Hab y Hy).
Qed.

Lemma keeps_deref x' x : keeps (off x') (deref x).
Proof. intros st y _. unfold deref. destruct (frames st !! x); reflexivity. Qed.

Lemma keeps_assign x' df : keeps (off x') (assign x' df).
Proof. intros st y Hy. simpl. apply lookup_insert_ne. congruence. Qed.

Lemma keeps_truediv x' a b : keeps (off x') (truediv a b).
Proof. intros st y _. reflexivity. Qed.

Ltac keeps_off :=
  repeat first [ keeps_step
               | apply keeps_deref
               | apply keeps_assign
               | apply keeps_truediv ].

Lemma keeps_columns_of x' x : keeps (off x') (columns_of x).
Proof. unfold columns_of. keeps_off. Qed.

Lemma keeps_frame_getitem x' x name : keeps (off x') (frame_getitem x name).
Proof. unfold frame_getitem. keeps_off. Qed.

Lemma keeps_frame_setitem x' name s : keeps (off x') (frame_setitem x' name s).
Proof. unfold frame_setitem. keeps_off. Qed.

Lemma keeps_frame_setitem_array x' names a : keeps (off x') (frame_setitem_array x' names a).
Proof. unfold frame_setitem_array. keeps_off. apply keeps_frame_setitem. Qed.

Ltac keeps_frame :=
  repeat first [ keeps_step
               | apply keeps_deref
               | apply keeps_columns_of
               | apply keeps_frame_getitem
               | apply keeps_frame_setitem
               | apply keeps_frame_setitem_array
               | apply keeps_truediv ].

Context `{Library.t}.

Lemma keeps_imputer_column self x' item :
  keeps (off x') (SmartMissingValueImputer._transform_column self x' item).
Proof.
  unfold SmartMissingValueImputer._transform_column. destruct item as [column imputer].
  keeps_frame.
Qed.

Lemma keeps_derive x' name source f :
  keeps (off x') (AdvancedFeatureEngineer.derive x' name source f).
Proof. unfold AdvancedFeatureEngineer.derive. keeps_frame. Qed.

Lemma keeps_date_features self x' :
  keeps (off x') (AdvancedFeatureEngineer._create_date_features self x').
Proof.
  unfold AdvancedFeatureEngineer._create_date_features,
    AdvancedFeatureEngineer.date_features_of.
  repeat first [ apply keeps_derive | keeps_frame ].
Qed.

Lemma keeps_polynomial_features self x' :
  keeps (off x') (AdvancedFeatureEngineer._create_polynomial_features self x').
Proof.
  unfold AdvancedFeatureEngineer._create_polynomial_features,
    AdvancedFeatureEngineer.polynomial_features_of.
  repeat first [ apply keeps_derive | keeps_frame ].
Qed.

Lemma keeps_interaction_features self x' :
  keeps (off x') (AdvancedFeatureEngineer._create_interaction_features self x').
Proof.
  unfold AdvancedFeatureEngineer._create_interaction_features,
    AdvancedFeatureEngineer.interaction_features_of.
  keeps_frame.
Qed.

(** A body that works on a copy leaves every frame of the store as it was. *)
Lemma copy_then_unchanged {A} X (k : loc -> M Store.t A) st :
  (forall x', keeps (off x') (k x')) ->
  frames_unchanged st (snd ((copy X ≫= k) st)).
Proof.
  intros Hk y d Hy. unfold copy, mbind, M_bind, deref.
  destruct (frames st !! X) as [df|]; simpl; [|exact Hy].
  set (x' := fresh (dom (frames st))).
  assert (y <> x') as Hne.
  { intros ->. pose proof (is_fresh (dom (frames st))) as Hfresh.
    apply Hfresh. apply elem_of_dom. eexists. exact Hy. }
  rewrite (Hk x' _ y Hne). simpl. rewrite lookup_insert_ne by congruence. exact Hy.
Qed.

(** What such a body returns, if it returns its copy, is a new reference. *)
Lemma copy_then_fresh X (k : loc -> M Store.t loc) st r st' :
  (forall x' s a s', k x' s = (Ok a, s') -> a = x') ->
  (copy X ≫= k) st = (Ok r, st') ->
  frames st !! r = None.
Proof.
  intros Hk. unfold copy, mbind, M_bind, deref.
  destruct (frames st !! X) as [df|]; simpl; [|discriminate].
  intros Hrun. apply Hk in Hrun. subst r.
  apply not_elem_of_dom. apply is_fresh.
Qed.

Lemma then_ret_returns {A} (m : M Store.t A) (x' : loc) s a s' :
  (m ≫= fun _ => mret x') s = (Ok a, s') -> a = x'.
Proof.
  intros Hrun. apply bind_inv_ok in Hrun as (b & s1 & _ & Hret).
  injection Hret as <- _. reflexivity.
Qed.

Lemma imputer_impl_unchanged self X st :
  frames_unchanged st (snd (SmartMissingValueImputer.transform_impl self X st)).
Proof.
  apply copy_then_unchanged. intros x'.
  keeps_frame. apply keeps_imputer_column.
Qed.

Lemma imputer_impl_fresh self X st r st' :
  SmartMissingValueImputer.transform_impl self X st = (Ok r, st') -> frames st !! r = None.
Proof.
  apply copy_then_fresh. intros x' s a s'. apply then_ret_returns.
Qed.

(** Each optional stage of the engineer returns the frame it was given. *)
Lemma stage_returns (b : bool) (f : loc -> M Store.t loc) x' s a s' :
  (forall s a s', f x' s = (Ok a, s') -> a = x') ->
  (if b then f x' else mret x') s = (Ok a, s') -> a = x'.
Proof.
  intros Hf. destruct b; [apply Hf|]. intros [= <- _]. reflexivity.
Qed.

Lemma date_features_returns self x' s a s' :
  AdvancedFeatureEngineer._create_date_features self x' s = (Ok a, s') -> a = x'.
Proof. apply then_ret_returns. Qed.

Lemma polynomial_features_returns self x' s a s' :
  AdvancedFeatureEngineer._create_polynomial_features self x' s = (Ok a, s') -> a = x'.
Proof. apply then_ret_returns. Qed.

Lemma interaction_features_returns self x' s a s' :
  AdvancedFeatureEngineer._create_interaction_features self x' s = (Ok a, s') -> a = x'.
Proof. apply then_ret_returns. Qed.

Lemma keeps_stage (b : bool) (f : loc -> M Store.t loc) x' :
  keeps (off x') (f x') -> keeps (off x') (if b then f x' else mret x').
Proof. intros Hf. destruct b; [exact Hf | apply keeps_ret; exact _]. Qed.

Lemma engineer_impl_unchanged self X st :
  frames_unchanged st (snd (AdvancedFeatureEngineer.transform_impl self X st)).
Proof.
  apply copy_then_unchanged. intros x'.
  apply (keeps_bind_ok (off x') (fun a => a = x')).
  { apply keeps_stage. apply keeps_date_features. }
  { intros s a s'. apply stage_returns. apply date_features_returns. }
  intros ? ->.
  apply (keeps_bind_ok (off x') (fun a => a = x')).
  { apply keeps_stage. apply keeps_polynomial_features. }
  { intros s a s'. apply stage_returns. apply polynomial_features_returns. }
  intros ? ->.
  apply (keeps_bind_ok (off x') (fun a => a = x')).
  { apply keeps_stage. apply keeps_interaction_features. }
  { intros s a s'. apply stage_returns. apply interaction_features_returns. }
  intros ? ->. apply keeps_ret. exact _.
Qed.

Lemma engineer_impl_fresh self X st r st' :
  AdvancedFeatureEngineer.transform_impl self X st = (Ok r, st') -> frames st !! r = None.
Proof.
  apply copy_then_fresh. intros x' s a s' Hrun.
  apply bind_inv_ok in Hrun as (x1 & s1 & H1 & Hrun).
  apply stage_returns in H1; [subst x1 | apply date_features_returns].
  apply bind_inv_ok in Hrun as (x2 & s2 & H2 & Hrun).
  apply stage_returns in H2; [subst x2 | apply polynomial_features_returns].
  apply bind_inv_ok in Hrun as (x3 & s3 & H3 & Hrun).
  apply stage_returns in H3; [subst x3 | apply interaction_features_returns].
  injection Hrun as <- _. reflexivity.
Qed.

(** The inherited [transform] adds nothing to what [_transform_impl] does to
    the store. *)
Lemma transform_unchanged {T} `{Transformer T} (self : T) X st :
  (forall x s, frames_unchanged s (snd (_transform_impl self x s))) ->
  frames_unchanged st (snd (transform self X st)).
Proof.
  intros Himpl. unfold transform.
  destruct (negb _); [intros y d Hy; exact Hy|].
  unfold mbind, M_bind, StateExn.get, StateExn.lift.
  destruct (_validate_input (base self) X st) as [x|e]; [apply Himpl|].
  intros y d Hy. exact Hy.
Qed.

Lemma transform_fresh {T} `{Transformer T} (self : T) X st r st' :
  (forall x s r s', _transform_impl self x s = (Ok r, s') -> frames s !! r = None) ->
  transform self X st = (Ok r, st') -> frames st !! r = None.
Proof.
  intros Himpl. unfold transform.
  destruct (negb _); [discriminate|].
  unfold mbind, M_bind, StateExn.get, StateExn.lift.
  destruct (_validate_input (base self) X st) as [x|e]; [apply Himpl | discriminate].
Qed.

(** C9. [transform] of a [SmartMissingValueImputer] and of an
    [AdvancedFeatureEngineer] leaves the caller's frame, and every other
    frame there is, as it was, however the call ends; the frame it returns
    is a new one. *)
Theorem transform_leaves_input_unchanged :
  (forall (self : SmartMissingValueImputer.t) X st,
      frames_unchanged st (snd (transform self X st))
      /\ forall r st', transform self X st = (Ok r, st') -> frames st !! r = None)
  /\ (forall (self : AdvancedFeatureEngineer.t) X st,
      frames_unchanged st (snd (transform self X st))
      /\ forall r st', transform self X st = (Ok r, st') -> frames st !! r = None).
Proof.
  split; intros self X st; split.
  - apply transform_unchanged. intros x s. apply imputer_impl_unchanged.
  - intros r st'. apply transform_fresh. intros x s r' s'. apply imputer_impl_fresh.
  - apply transform_unchanged. intros x s. apply engineer_impl_unchanged.
  - intros r st'. apply transform_fresh. intros x s r' s'. apply engineer_impl_fresh.
Qed.

End InputUnchanged.

Section InputUnchangedWitness.
#[local] Existing Instance Examples.plain_library.

Lemma transform_leaves_input_unchanged_witness :
  Store.frames
    (snd (TypeSafeFeatureTransformer.transform Examples.fitted_imputer
            (Store.PFrame 1%positive) Examples.store)) !! 1%positive
  = Some Examples.people
  /\ Store.frames Examples.store !! 2%positive = None.
Proof.
  pose proof (proj1 transform_leaves_input_unchanged Examples.fitted_imputer
                (Store.PFrame 1%positive) Examples.store) as [Hsame Hnew].
  split.
  - apply Hsame. reflexivity.
  - apply (Hnew 2%positive
             (snd (TypeSafeFeatureTransformer.transform Examples.fitted_imputer
                     (Store.PFrame 1%positive) Examples.store))).
    vm_compute. reflexivity.
Defined.

End InputUnchangedWitness.


(** ** The divisors of the ratio features *)

Section Divisors.
Import Pandas SeriesOps Store AdvancedFeatureEngineer Statements.

Lemma columns_of_run X st df :
  frames st !! X = Some df -> columns_of X st = (Ok (labels df), st).
Proof. intros Hd. unfold columns_of, mbind, M_bind, deref. rewrite Hd. reflexivity. Qed.

Lemma frame_getitem_run X name st df :
  frames st !! X = Some df -> frame_getitem X name st = (getitem df name, st).
Proof.
  intros Hd. unfold frame_getitem, mbind, M_bind, deref, StateExn.lift. rewrite Hd.
  reflexivity.
Qed.

Lemma frame_setitem_run X name s st df :
  frames st !! X = Some df ->
  (exists e, frame_setitem X name s st = (Raise e, st))
  \/ frame_setitem X name s st
     = (Ok tt, {| frames := <[X := {| index_len := index_len df;
                                      columns := PyDict.set (columns df) name s |}]>
                              (frames st);
                  divisors := divisors st |}).
Proof.
  intros Hd. unfold frame_setitem, mbind, M_bind, deref, StateExn.lift, assign, setitem.
  rewrite Hd. destruct (Nat.eqb _ _); [right; reflexivity | left; eexists; reflexivity].
Qed.

Lemma no_clash_pair cols col1 col2 :
  no_clash cols = true -> (col1, col2) ∈ combinations2 cols ->
  ((col1 +:+ "_x_" +:+ col2) ∉ cols) /\ ((col1 +:+ "_div_" +:+ col2) ∉ cols).
Proof.
  unfold no_clash. rewrite forallb_forall. intros Hall Hin.
  apply list_elem_of_In in Hin. specialize (Hall _ Hin). simpl in Hall.
  apply andb_prop in Hall as [H1 H2].
  apply negb_true_iff, bool_decide_eq_false_1 in H1.
  apply negb_true_iff, bool_decide_eq_false_1 in H2. auto.
Qed.

Lemma combinations2_second (l : list string) col1 col2 :
  (col1, col2) ∈ combinations2 l -> col2 ∈ l.
Proof.
  induction l as [|a l IH]; simpl; intros Hin.
  - apply elem_of_nil in Hin. contradiction.
  - apply elem_of_app in Hin as [Hin|Hin].
    + apply list_elem_of_fmap in Hin as (b & [= -> ->] & Hb).
      apply list_elem_of_further. exact Hb.
    + apply list_elem_of_further. exact (IH Hin).
Qed.

(** Writing a column that is not combined keeps the invariant. *)
Lemma setitem_keeps_inv X df cols st0 st name s :
  name ∉ cols ->
  interaction_inv X df cols st0 st ->
  interaction_inv X df cols st0 (snd (frame_setitem X name s st)).
Proof.
  intros Hname (df' & new & Hd & Hcols & Hdiv & Hgood).
  destruct (frame_setitem_run X name s st df' Hd) as [[e ->]| ->]; simpl.
  - exists df', new. auto.
  - eexists _, new. split; [apply lookup_insert_eq|]. split; [|auto].
    intros c Hc. rewrite <- (Hcols c Hc). unfold getitem, PyDict.item. simpl.
    rewrite get_set_ne; [reflexivity|]. intros ->. exact (Hname Hc).
Qed.

(** The body of the loop keeps the invariant, however it ends. *)
Lemma interaction_step_inv X df cols st0 st pair :
  no_clash cols = true -> pair ∈ combinations2 cols ->
  interaction_inv X df cols st0 st ->
  interaction_inv X df cols st0 (snd (interaction_features_of X pair st)).
Proof.
  intros Hclash Hpair Hinv. destruct pair as [col1 col2].
  destruct (no_clash_pair cols col1 col2 Hclash Hpair) as [Hx Hdivname].
  pose proof Hinv as (df' & new & Hd & Hcols & Hdiv & Hgood).
  unfold interaction_features_of.
  unfold mbind at 1, M_bind at 1. rewrite (columns_of_run X st df' Hd).
  destruct (_ || _); [exact Hinv|].
  unfold mbind at 1, M_bind at 1. rewrite (frame_getitem_run X col1 st df' Hd).
  destruct (getitem df' col1) as [a|e]; [|exact Hinv].
  unfold mbind at 1, M_bind at 1. rewrite (frame_getitem_run X col2 st df' Hd).
  destruct (getitem df' col2) as [b|e]; [|exact Hinv].
  unfold mbind at 1, M_bind at 1, StateExn.lift at 1.
  destruct (series_mul a b) as [product|e]; [|exact Hinv].
  unfold mbind at 1, M_bind at 1.
  pose proof (setitem_keeps_inv X df cols st0 st _ product Hx Hinv) as Hinv1.
  destruct (frame_setitem X _ product st) as [[[]|e] st1]; simpl in Hinv1; [|exact Hinv1].
  clear Hinv df' new Hd Hcols Hdiv Hgood a b.
  pose proof Hinv1 as (df' & new & Hd & Hcols & Hdiv & Hgood).
  unfold mbind at 1, M_bind at 1. rewrite (frame_getitem_run X col1 st1 df' Hd).
  destruct (getitem df' col1) as [a|e]; [|exact Hinv1].
  unfold mbind at 1, M_bind at 1. rewrite (frame_getitem_run X col2 st1 df' Hd).
  destruct (getitem df' col2) as [b|e] eqn:Hb; [|exact Hinv1].
  unfold mbind at 1, M_bind at 1, StateExn.lift at 1.
  destruct (series_add_float b 1e-8) as [divisor|e] eqn:Hadd; [|exact Hinv1].
  assert (interaction_inv X df cols st0
            {| frames := frames st1; divisors := divisor :: divisors st1 |}) as Hinv2.
  { exists df', (divisor :: new). split; [exact Hd|]. split; [exact Hcols|].
    split; [simpl; rewrite Hdiv; reflexivity|].
    constructor; [|exact Hgood].
    exists col1, col2, b. split; [exact Hpair|]. split; [|exact Hadd].
    rewrite <- Hb. symmetry. apply Hcols. exact (combinations2_second _ _ _ Hpair). }
  unfold mbind at 1, M_bind at 1, truediv at 1.
  destruct (series_truediv a divisor) as [ratio|e]; [|exact Hinv2].
  exact (setitem_keeps_inv X df cols st0 _ _ ratio Hdivname Hinv2).
Qed.

Lemma map_cells_ok f l l' :
  map_cells f l = Ok l' -> Forall2 (fun c c' => f c = Ok c') l l'.
Proof.
  revert l'. induction l as [|c l IH]; simpl; intros l'.
  - intros [= <-]. constructor.
  - destruct (f c) as [c1|e] eqn:Hc; simpl; [|discriminate].
    destruct (map_cells f l) as [l1|e]; simpl; [|discriminate].
    intros [= <-]. constructor; [exact Hc | apply IH; reflexivity].
Qed.

Lemma Forall2_elem_r {A B} (P : A -> B -> Prop) l l' y :
  Forall2 P l l' -> y ∈ l' -> exists x, x ∈ l /\ P x y.
Proof.
  induction 1 as [|x y' l l' Hxy _ IH]; intros Hin.
  - apply elem_of_nil in Hin. contradiction.
  - apply elem_of_cons in Hin as [->|Hin].
    + exists x. split; [apply list_elem_of_here | exact Hxy].
    + destruct (IH Hin) as (x' & Hx' & HP). exists x'.
      split; [apply list_elem_of_further; exact Hx' | exact HP].
Qed.

(** A cell plus 1e-8 is zero only if the cell is -1e-8. *)
Lemma cell_add_epsilon_zero c c' x :
  cell_add_float 1e-8 c = Ok c' -> to_float c' = Some x -> fis_zero x = true ->
  is_minus_epsilon c = true.
Proof.
  unfold cell_add_float, is_minus_epsilon.
  destruct (to_float c) as [y|]; [|discriminate].
  intros [= <-]. simpl. intros [= <-].
  destruct y as [q| | |]; simpl; try discriminate.
  rewrite !Qeq_bool_iff, Qred_correct. intros Hz.
  destruct q as [n d]. unfold Qeq in *. simpl in *. lia.
Qed.

Lemma nonnegative_not_minus_epsilon c :
  nonnegative c = true -> is_minus_epsilon c = false.
Proof.
  unfold nonnegative, is_minus_epsilon. destruct (to_float c) as [[q| | |]|]; try reflexivity.
  intros Hle. apply Qle_bool_iff in Hle.
  destruct (Qeq_bool q (- 1e-8)) eqn:E; [|reflexivity].
  apply Qeq_bool_iff in E. rewrite E in Hle. exfalso. revert Hle. apply Qlt_not_le.
  reflexivity.
Qed.

Lemma second_columns_weaken (p p' : cell -> bool) df cols :
  (forall c, p c = true -> p' c = true) ->
  second_columns p df cols = true -> second_columns p' df cols = true.
Proof.
  intros Hpp. unfold second_columns. rewrite !forallb_forall. intros Hall pair Hin.
  specialize (Hall pair Hin). destruct (getitem df (snd pair)); [|reflexivity].
  rewrite forallb_forall in *. intros c Hc. apply Hpp. exact (Hall c Hc).
Qed.

(** A divisor taken from the input has no zero if no cell of the second
    columns is -1e-8. *)
Lemma divisor_of_input_no_zero df cols d :
  second_columns (fun c => negb (is_minus_epsilon c)) df cols = true ->
  divisor_of_input df cols d -> has_zero d = false.
Proof.
  unfold second_columns. rewrite forallb_forall.
  intros Hall (col1 & col2 & b & Hpair & Hb & Hadd).
  apply list_elem_of_In in Hpair. specialize (Hall _ Hpair). simpl in Hall.
  rewrite Hb in Hall. rewrite forallb_forall in Hall.
  unfold series_add_float in Hadd.
  destruct (promote (dtype b) float64); [|discriminate].
  destruct (map_cells (cell_add_float 1e-8) (values b)) as [vs|e] eqn:Hvs;
    simpl in Hadd; [|discriminate].
  injection Hadd as <-. apply map_cells_ok in Hvs.
  unfold has_zero. simpl. apply not_true_is_false. intros Hex.
  apply existsb_exists in Hex as (c' & Hc' & Hzero).
  apply list_elem_of_In in Hc'.
  destruct (Forall2_elem_r _ _ _ c' Hvs Hc') as (c & Hc & Hcc').
  destruct (to_float c') as [x|] eqn:Hx; [|discriminate].
  pose proof (cell_add_epsilon_zero c c' x Hcc' Hx Hzero) as Heps.
  apply list_elem_of_In in Hc. specialize (Hall c Hc). rewrite Heps in Hall. discriminate.
Qed.


End Divisors.




(** ** The calls of the trainer *)

Section TrainerCalls.
Import Trace Sklearn MLOpsModelTrainer DataSciencePipeline Statements.
Context `{Sklearn.t}.

Lemma W_bind_log {A B} (m : W A) (k : A -> W B) :
  snd (m ≫= k)
  = snd m ++ match fst m with Ok a => snd (k a) | Raise _ => [] end.
Proof.
  unfold mbind, W_bind. destruct m as [[a|e] l1]; simpl.
  - destruct (k a). reflexivity.
  - rewrite app_nil_r. reflexivity.
Qed.

Lemma W_bind_ok {A B} (m : W A) (k : A -> W B) b log :
  m ≫= k = (Ok b, log) ->
  exists a l1 l2, m = (Ok a, l1) /\ k a = (Ok b, l2) /\ log = l1 ++ l2.
Proof.
  unfold mbind, W_bind. destruct m as [[a|e] l1]; [|discriminate].
  destruct (k a) as [r l2] eqn:Hk. intros [= -> <-].
  exists a, l1, l2. auto.
Qed.

(** The entry of the table [configs] for a model type. *)
Lemma item_configs mt cfg :
  PyDict.item (configs mt) mt = Ok cfg ->
  (mt = "random_forest"
   /\ cfg = default_config mt [("n_estimators", VI 100); ("max_depth", VI 10)])
  \/ (mt = "gradient_boosting"
      /\ cfg = default_config mt [("n_estimators", VI 100); ("learning_rate", VF 0.1%R)])
  \/ (mt = "logistic_regression"
      /\ cfg = default_config mt [("max_iter", VI 1000)]).
Proof.
  unfold PyDict.item, configs. cbn [PyDict.get].
  repeat case_bool_decide; try discriminate; intros [= <-]; subst; auto.
Qed.

Section Quiet.
Context (p : call -> bool).

Lemma quiet_ret {A} (a : A) : quiet p (mret a).
Proof. reflexivity. Qed.

Lemma quiet_liftW {A} (r : result A) : quiet p (liftW r).
Proof. reflexivity. Qed.

Lemma quiet_raiseW {A} e : quiet p (raiseW e : W A).
Proof. reflexivity. Qed.

Lemma quiet_invoke callee args kwargs :
  p {| callee := callee; args := args; kwargs := kwargs |} = false ->
  quiet p (invoke callee args kwargs).
Proof. intros Hp. unfold quiet, invoke. simpl. rewrite filter_cons, Hp. reflexivity. Qed.

Lemma quiet_bind_ok {A B} (Q : A -> Prop) (m : W A) (k : A -> W B) :
  quiet p m -> (forall a l, m = (Ok a, l) -> Q a) -> (forall a, Q a -> quiet p (k a)) ->
  quiet p (m ≫= k).
Proof.
  intros Hm HQ Hk. unfold quiet in *. rewrite W_bind_log, filter_app, Hm.
  destruct m as [[a|e] l]; simpl; [|reflexivity].
  apply Hk. apply (HQ a l). reflexivity.
Qed.

Lemma quiet_bind {A B} (m : W A) (k : A -> W B) :
  quiet p m -> (forall a, quiet p (k a)) -> quiet p (m ≫= k).
Proof. intros Hm Hk. apply (quiet_bind_ok (fun _ => True)); auto. Qed.

Lemma once_after_quiet {A B} c (m : W A) (k : A -> W B) :
  quiet p m -> (forall a, once p c (k a)) -> once p c (m ≫= k).
Proof.
  intros Hm Hk. unfold once, quiet in *. rewrite W_bind_log, filter_app, Hm.
  unfold mbind, W_bind. destruct m as [[a|e] l]; simpl; [|auto].
  specialize (Hk a). destruct (k a) as [r l2]. exact Hk.
Qed.

Lemma once_before_quiet {A B} (Q : A -> Prop) c (m : W A) (k : A -> W B) :
  filter (fun c => p c) (snd m) = [c] ->
  (forall a l, m = (Ok a, l) -> Q a) ->
  (forall a, Q a -> quiet p (k a)) -> once p c (m ≫= k).
Proof.
  intros Hm HQ Hk. unfold once, quiet in *. rewrite W_bind_log, filter_app, Hm.
  unfold mbind, W_bind. destruct m as [[a|e] l]; simpl; [|auto].
  specialize (Hk a (HQ a l eq_refl)). destruct (k a) as [[b|e] l2]; simpl in *;
    rewrite Hk; auto.
Qed.

End Quiet.

(** One step of a proof that a body makes no call of a kind. *)
Ltac quiet_step :=
  lazymatch goal with
  | |- quiet _ (mret _) => apply quiet_ret
  | |- quiet _ (liftW _) => apply quiet_liftW
  | |- quiet _ (raiseW _) => apply quiet_raiseW
  | |- quiet _ (invoke _ _ _) => apply quiet_invoke; reflexivity
  | |- quiet _ (_ ≫= _) => apply quiet_bind; [|intros ?]
  | |- quiet _ (if ?b then _ else _) => destruct b
  | |- quiet _ (match ?x with _ => _ end) => destruct x
  end.

(** Neither a constructor nor the split is called once the model exists. *)
Lemma evaluate_model_quiet p self model X_train y_train X_test y_test config :
  p = (fun c => is_constructor c) \/ p = (fun c => is_split c) ->
  est_class model ∈ constructor_names ->
  quiet p (_evaluate_model self model X_train y_train X_test y_test config).
Proof.
  intros Hp Hcls. unfold _evaluate_model.
  repeat (apply elem_of_cons in Hcls as [->|Hcls]);
    [| | | apply elem_of_nil in Hcls; contradiction];
    destruct Hp as [-> | ->]; repeat quiet_step.
Qed.

Lemma estimator_fit_quiet p model X y :
  p = (fun c => is_constructor c) \/ p = (fun c => is_split c) ->
  est_class model ∈ constructor_names ->
  quiet p (estimator_fit model X y).
Proof.
  intros Hp Hcls. unfold estimator_fit.
  repeat (apply elem_of_cons in Hcls as [->|Hcls]);
    [| | | apply elem_of_nil in Hcls; contradiction];
    destruct Hp as [-> | ->]; repeat quiet_step.
Qed.

Lemma estimator_fit_class model X y model' l :
  estimator_fit model X y = (Ok model', l) -> est_class model' = est_class model.
Proof.
  unfold estimator_fit. intros Hrun.
  apply W_bind_ok in Hrun as ([] & l1 & l2 & _ & Hrun & _).
  apply W_bind_ok in Hrun as ([] & l3 & l4 & _ & Hrun & _).
  injection Hrun as <- _. reflexivity.
Qed.

Lemma W_left_id {A B} (a : A) (k : A -> W B) : liftW (Ok a) ≫= k = k a.
Proof. unfold mbind, W_bind, liftW. destruct (k a). reflexivity. Qed.

Lemma construct_class cls kwargs model l :
  construct cls kwargs = (Ok model, l) -> est_class model = cls.
Proof.
  unfold construct. destruct (negb _); [discriminate|]. intros Hrun.
  apply W_bind_ok in Hrun as ([] & l1 & l2 & _ & Hrun & _).
  destruct (forallb _ _); [|discriminate]. injection Hrun as <- _. reflexivity.
Qed.

(** The constructor is called once, with the arguments given, unless a
    keyword is repeated. *)
Lemma construct_log cls kwargs :
  NoDup (map fst kwargs) ->
  snd (construct cls kwargs) = [{| callee := cls; args := []; kwargs := kwargs |}].
Proof.
  intros Hnd. unfold construct. rewrite bool_decide_eq_true_2 by exact Hnd. simpl.
  destruct (forallb _ _); reflexivity.
Qed.

(** What follows the construction in [train_model] calls neither a
    constructor nor the split. *)
Ltac after_construct :=
  intros model Hcls;
  apply (quiet_bind_ok _ (fun m => est_class m ∈ constructor_names));
  [ apply estimator_fit_quiet; [auto | rewrite Hcls; compute_done]
  | intros m l Hfit; rewrite (estimator_fit_class _ _ _ _ _ Hfit), Hcls; compute_done
  | intros m Hm; apply quiet_bind;
    [ apply evaluate_model_quiet; [auto | exact Hm]
    | intros ?; repeat quiet_step ] ].

Ltac once_constructor cls :=
  apply once_after_quiet; [quiet_step|intros _];
  apply once_after_quiet; [quiet_step|intros _];
  change (PyDict.item _ _) with (@Ok string cls);
  rewrite W_left_id;
  apply (once_before_quiet _ (fun m => est_class m = cls));
  [ rewrite construct_log by compute_done; reflexivity
  | intros m l; apply construct_class
  | after_construct ].

Ltac no_split cls :=
  apply quiet_bind; [quiet_step|intros _];
  apply quiet_bind; [quiet_step|intros _];
  change (PyDict.item _ _) with (@Ok string cls);
  rewrite W_left_id;
  apply (quiet_bind_ok _ (fun m => est_class m = cls));
  [ unfold quiet; rewrite construct_log by compute_done; reflexivity
  | intros m l; apply construct_class
  | after_construct ].

(** What [train_model] calls for an entry of the table: the constructor
    with the pipeline's settings, once if it returns, and never the split. *)
Lemma train_model_calls mt cfg c X_train y_train X_test y_test :
  PyDict.item (configs mt) mt = Ok cfg ->
  constructor_call mt = Some c ->
  once (fun c => is_constructor c) c
       (train_model Examples.trainer X_train y_train X_test y_test cfg)
  /\ quiet (fun c => is_split c)
           (train_model Examples.trainer X_train y_train X_test y_test cfg).
Proof.
  intros Hcfg Hc.
  destruct (item_configs mt cfg Hcfg) as [[-> ->]|[[-> ->]|[-> ->]]];
    injection Hc as <-; unfold train_model; split.
  - once_constructor "RandomForestClassifier".
  - no_split "RandomForestClassifier".
  - once_constructor "GradientBoostingClassifier".
  - no_split "GradientBoostingClassifier".
  - once_constructor "LogisticRegression".
  - no_split "LogisticRegression".
Qed.

Lemma constructor_call_of_item mt cfg :
  PyDict.item (configs mt) mt = Ok cfg -> exists c, constructor_call mt = Some c.
Proof.
  intros Hcfg. destruct (item_configs mt cfg Hcfg) as [[-> _]|[[-> _]|[-> _]]];
    eexists; reflexivity.
Qed.

(** The loop of [train_models]: one constructor call for each model type, in
    order, each with the pipeline's settings. *)
Lemma train_each_calls X_train y_train X_test y_test (l : list string) :
  forall results,
    let out := train_each Examples.trainer X_train y_train X_test y_test l results in
    quiet (fun c => is_split c) out
    /\ Forall (fun c => exists mt, mt ∈ l /\ constructor_call mt = Some c)
              (filter (fun c => is_constructor c) (snd out))
    /\ (forall r, fst out = Ok r ->
          Some <$> filter (fun c => is_constructor c) (snd out) = constructor_call <$> l).
Proof.
  induction l as [|mt l IH]; intros results out; subst out.
  - split; [reflexivity|]. split; [constructor|]. intros r _. reflexivity.
  - cbn [train_each].
    destruct (PyDict.item (configs mt) mt) as [cfg|e] eqn:Hcfg.
    2:{ split; [reflexivity|]. split; [constructor|]. intros r Hr. discriminate Hr. }
    rewrite W_left_id.
    destruct (constructor_call_of_item mt cfg Hcfg) as [c Hc].
    destruct (train_model_calls mt cfg c X_train y_train X_test y_test Hcfg Hc)
      as [Honce Hquiet].
    unfold once, quiet in *.
    rewrite W_bind_log, !filter_app, Hquiet.
    unfold mbind, W_bind.
    destruct (train_model Examples.trainer X_train y_train X_test y_test cfg)
      as [[trained|e] l1]; simpl in *.
    + destruct (IH (PyDict.set results mt trained)) as (IH1 & IH2 & IH3).
      destruct (train_each _ _ _ _ _ l _) as [r l2]. simpl in *.
      rewrite Honce. split; [exact IH1|]. split.
      * constructor.
        -- exists mt. split; [apply list_elem_of_here | exact Hc].
        -- eapply Forall_impl; [exact IH2|]. intros c' (mt' & Hin & Hc').
           exists mt'. split; [apply list_elem_of_further; exact Hin | exact Hc'].
      * intros r' ->. simpl. rewrite Hc. f_equal. apply (IH3 r'). reflexivity.
    + rewrite !app_nil_r. split; [reflexivity|]. split; [|discriminate].
      destruct Honce as [-> | ->]; constructor; [|constructor].
      exists mt. split; [apply list_elem_of_here | exact Hc].
Qed.


End TrainerCalls.

Section TrainerCallsExamples.
Import Trace Sklearn MLOpsModelTrainer DataSciencePipeline Statements.
#[local] Existing Instance Examples.plain_sklearn.



End TrainerCallsExamples.


(** ** The summary of the cross-validation scores *)

Section CrossValidation.
Import Trace Sklearn MLOpsModelTrainer Statements.
Context `{Sklearn.t}.

Lemma sum_of_np_sum (l : list R) : sum_of l = NumPy.np_sum l.
Proof.
  unfold sum_of, NumPy.np_sum. apply fold_symmetric.
  - intros a b c. apply eq_sym, Rplus_assoc.
  - intros a. apply Rplus_comm.
Qed.

Lemma numpy_mean_is_arithmetic_mean (l : list R) : NumPy.mean l = arithmetic_mean l.
Proof. unfold NumPy.mean, arithmetic_mean. rewrite sum_of_np_sum. reflexivity. Qed.

Lemma numpy_std_is_population_std (l : list R) : NumPy.std l = population_std l.
Proof.
  unfold NumPy.std, NumPy.var, population_std. rewrite sum_of_np_sum.
  rewrite Nat.sub_0_r, map_map. fold (NumPy.mean l).
  rewrite numpy_mean_is_arithmetic_mean.
  f_equal. f_equal. f_equal. apply map_ext. intros x. simpl. ring.
Qed.

(** The scores [cross_val_score] returns are as many as the folds. *)
Lemma cross_val_score_length model X y cv scores :
  cross_val_score model X y cv = Ok scores -> Z.of_nat (length scores) = cv.
Proof.
  unfold cross_val_score.
  destruct (Z.ltb_spec cv 2); [discriminate|].
  destruct (_ <? _)%Z; [discriminate|].
  intros [= <-]. rewrite length_map, length_seq. lia.
Qed.

Lemma evaluate_model_summary self model X_train y_train X_test y_test config m log :
  _evaluate_model self model X_train y_train X_test y_test config = (Ok m, log) ->
  cv_summary_ok config m.
Proof.
  unfold _evaluate_model. intros Hrun.
  apply W_bind_ok in Hrun as ([] & l1 & l2 & _ & Hrun & _).
  apply W_bind_ok in Hrun as (scores & l3 & l4 & Hcv & Hrun & _).
  injection Hcv as Hcv _.
  apply W_bind_ok in Hrun as ([] & l5 & l6 & _ & Hrun & _).
  apply W_bind_ok in Hrun as (y_pred & l7 & l8 & _ & Hrun & _).
  apply W_bind_ok in Hrun as ([] & l9 & l10 & _ & Hrun & _).
  apply W_bind_ok in Hrun as ([] & l11 & l12 & _ & Hrun & _).
  destruct (precision_recall_fscore y_test y_pred) as [[p r] f].
  injection Hrun as <- _. unfold cv_summary_ok. simpl.
  split; [exact (cross_val_score_length _ _ _ _ _ Hcv)|].
  split; [apply numpy_mean_is_arithmetic_mean | apply numpy_std_is_population_std].
Qed.


End CrossValidation.

Section CrossValidationWitness.
Import Trace Sklearn MLOpsModelTrainer DataSciencePipeline Statements.
#[local] Existing Instance Examples.plain_sklearn.


End CrossValidationWitness.


(** ** Saving and loading a model *)

Section Persistence.
Import MLOpsModelTrainer Statements.
Context {Obj : Type} `{Pickle Obj}.

(** A [joblib.dump] that returns has left the pickled object in the file. *)
Lemma joblib_dump_ok (value : Obj) filename fs fs' :
  joblib_dump value filename fs = (Ok tt, fs') ->
  exists bytes, dumps value = Ok bytes /\ fs' !! filename = Some (FileSystem.File bytes).
Proof.
  unfold joblib_dump, mbind, M_bind, StateExn.get, StateExn.put, StateExn.lift.
  destruct (fs !! filename) as [[content|]|];
    try discriminate;
    (destruct (dumps value) as [bytes|e]; [|discriminate]);
    intros [= <-]; exists bytes; (split; [reflexivity | apply lookup_insert_eq]).
Qed.


End Persistence.

Section PersistenceWitness.
Import MLOpsModelTrainer Statements.
#[local] Existing Instance Examples.text_pickle.

Lemma text_pickle_round_trip : pickle_round_trip string.
Proof.
  intros m bytes [= <-]. simpl. rewrite string_of_list_byte_of_string. reflexivity.
Defined.


End PersistenceWitness.

(** ** The quality report: errors and range *)

Section QualityReportRange.
Import Pandas ModernDataLoader Statements.
Context `{Library.t}.

Lemma set_not_nil {V} (d : PyDict.dict V) k v : PyDict.set d k v <> [].
Proof. destruct d as [|[k' v'] d]; simpl; [|destruct (bool_decide _)]; discriminate. Qed.

Lemma of_items_not_nil {V} (item : string * V) items : PyDict.of_items (item :: items) <> [].
Proof.
  unfold PyDict.of_items. simpl.
  assert (Hacc : forall l (acc : PyDict.dict V), acc <> [] ->
            fold_left (fun d kv => PyDict.set d (fst kv) (snd kv)) l acc <> []).
  { induction l as [|x l IH]; intros acc Hacc; simpl; [exact Hacc|].
    apply IH, set_not_nil. }
  apply Hacc. discriminate.
Qed.

Lemma count_duplicated_le seen rest : (count_duplicated seen rest <= length rest)%nat.
Proof.
  revert seen. induction rest as [|r rest IH]; intros seen; simpl; [lia|].
  specialize (IH (r :: seen)). destruct (existsb _ seen); lia.
Qed.

Lemma duplicated_sum_lt df :
  (0 < index_len df)%nat -> (duplicated_sum df < index_len df)%nat.
Proof.
  intros Hrows. unfold duplicated_sum. destruct (columns df) eqn:E; [lia|].
  unfold rows. destruct (index_len df) as [|n]; [lia|].
  simpl. pose proof (count_duplicated_le [row df 0] (map (row df) (seq 1 n))) as Hle.
  rewrite length_map, length_seq in Hle. lia.
Qed.

Lemma null_count_le s : (null_count s <= length (values s))%nat.
Proof. unfold null_count. apply length_filter. Qed.

Lemma total_missing_range df :
  wf_frame df = true ->
  (0 <= total_missing df <= Z.of_nat (index_len df) * Z.of_nat (length (columns df)))%Z.
Proof.
  intros Hwf. unfold total_missing.
  assert (Hlen : forall c, c ∈ columns df -> length (values (snd c)) = index_len df).
  { intros [name s] Hin. apply (wf_frame_lengths df name s Hwf Hin). }
  revert Hlen. generalize (index_len df) as n. generalize (columns df) as cs.
  induction cs as [|c cs IH]; intros n Hlen; simpl; [lia|].
  specialize (IH n (fun c' Hc' => Hlen c' (list_elem_of_further _ _ _ Hc'))).
  pose proof (null_count_le (snd c)) as Hc.
  rewrite (Hlen c (list_elem_of_here _ _)) in Hc. lia.
Qed.

(** The score the report gives for a frame with rows and columns. *)
Lemma quality_score_value (self : ModernDataLoader.t) (df : DataFrame) :
  _data self = Some df ->
  wf_frame df = true ->
  (0 < index_len df)%nat ->
  (0 < length (columns df))%nat ->
  exists r q,
    generate_quality_report self = Ok r
    /\ quality_score r = Fin q
    /\ (q == 1 - (1 # 2) * (inject_Z (total_missing df)
                           / inject_Z (Z.of_nat (index_len df) * Z.of_nat (length (columns df))))
            - (1 # 2) * (inject_Z (Z.of_nat (duplicated_sum df))
                         / inject_Z (Z.of_nat (index_len df))))%Q.
Proof.
  intros Hdata Hwf Hrows Hcols.
  unfold generate_quality_report. rewrite Hdata.
  rewrite !of_items_nodup.
  2,3: rewrite map_map; simpl; apply wf_frame_nodup; exact Hwf.
  unfold missing_ratio_of.
  destruct (columns df) as [|c cs] eqn:Ecols; [simpl in Hcols; lia|].
  cbn [map]. cbn [mbind result_bind Py.bind].
  set (cells := (Z.of_nat (index_len df) * Z.of_nat (length (c :: cs)))%Z).
  assert (Hcells : ~ (inject_Z cells == 0)%Q).
  { unfold cells. intros Heq. unfold Qeq in Heq. simpl in Heq. simpl in Hcols. nia. }
  assert (Hrowsq : ~ (inject_Z (Z.of_nat (index_len df)) == 0)%Q).
  { intros Heq. unfold Qeq in Heq. simpl in Heq. lia. }
  unfold fdiv.
  destruct (Qeq_bool (inject_Z cells) 0) eqn:E1.
  { apply Qeq_bool_iff in E1. contradiction. }
  destruct (Qeq_bool (inject_Z (Z.of_nat (index_len df))) 0) eqn:E2.
  { apply Qeq_bool_iff in E2. contradiction. }
  simpl. eexists. eexists. split; [reflexivity|]. simpl.
  split; [reflexivity|].
  rewrite !Qred_correct.
  unfold total_missing, PyDict.values. rewrite Ecols. simpl.
  rewrite map_map. simpl.
  change (S (length cs)) with (length (c :: cs)). fold cells.
  set (m := inject_Z _). set (d := inject_Z (Z.of_nat (duplicated_sum df))).
  set (n := inject_Z (Z.of_nat (index_len df))) in *.
  set (k := inject_Z cells) in *.
  field. split; assumption.
Qed.

(** X1. For a loaded frame with unique labels, at least one row and one
    column, the report is produced and its quality score is a number above 0
    and at most 1: the first row is never a duplicate, so the two penalties
    never add up to 1. *)
Theorem quality_score_range (self : ModernDataLoader.t) (df : DataFrame) :
  _data self = Some df ->
  wf_frame df = true ->
  (0 < index_len df)%nat ->
  (0 < length (columns df))%nat ->
  exists r q,
    generate_quality_report self = Ok r
    /\ quality_score r = Fin q
    /\ (0 < q)%Q /\ (q <= 1)%Q.
Proof.
  intros Hdata Hwf Hrows Hcols.
  destruct (quality_score_value self df Hdata Hwf Hrows Hcols) as (r & q & Hr & Hq & Heq).
  exists r, q. split; [exact Hr|]. split; [exact Hq|].
  pose proof (total_missing_range df Hwf) as [Hm0 Hm1].
  pose proof (duplicated_sum_lt df Hrows) as Hd.
  set (cells := (Z.of_nat (index_len df) * Z.of_nat (length (columns df)))%Z) in *.
  assert (Hcells : (0 < inject_Z cells)%Q).
  { unfold Qlt. simpl. unfold cells. nia. }
  assert (Hn : (0 < inject_Z (Z.of_nat (index_len df)))%Q).
  { unfold Qlt. simpl. lia. }
  assert (Ha0 : (0 <= inject_Z (total_missing df) / inject_Z cells)%Q).
  { apply Qle_shift_div_l; [exact Hcells|]. rewrite Qmult_0_l.
    unfold Qle. simpl. lia. }
  assert (Ha1 : (inject_Z (total_missing df) / inject_Z cells <= 1)%Q).
  { apply Qle_shift_div_r; [exact Hcells|]. rewrite Qmult_1_l.
    rewrite <- Zle_Qle. exact Hm1. }
  assert (Hb0 : (0 <= inject_Z (Z.of_nat (duplicated_sum df))
                      / inject_Z (Z.of_nat (index_len df)))%Q).
  { apply Qle_shift_div_l; [exact Hn|]. rewrite Qmult_0_l.
    unfold Qle. simpl. lia. }
  assert (Hb1 : (inject_Z (Z.of_nat (duplicated_sum df))
                 / inject_Z (Z.of_nat (index_len df)) < 1)%Q).
  { apply Qlt_shift_div_r; [exact Hn|]. rewrite Qmult_1_l.
    rewrite <- Zlt_Qlt. lia. }
  split; lra.
Qed.

(** X2. What the report does at the edges. A loader without data is refused
    with [ValueError]; a loaded frame without columns makes the missing-value
    ratio divide by zero, whatever its number of rows; a loaded frame with at
    least one row and one column always gets a report, which counts fewer
    duplicate rows than there are rows. *)
Theorem quality_report_edges (self : ModernDataLoader.t) :
  (_data self = None ->
     generate_quality_report self
     = Raise (ValueError "Data not loaded. Call load_pandas() first."))
  /\ (forall df, _data self = Some df -> columns df = [] ->
        generate_quality_report self = Raise ZeroDivisionError)
  /\ (forall df, _data self = Some df -> columns df <> [] -> (0 < index_len df)%nat ->
        exists r, generate_quality_report self = Ok r
                  /\ total_rows r = index_len df
                  /\ total_columns r = length (columns df)
                  /\ (0 <= duplicate_rows r < Z.of_nat (total_rows r))%Z).
Proof.
  split; [|split].
  - intros Hdata. unfold generate_quality_report. rewrite Hdata. reflexivity.
  - intros df Hdata Hcols. unfold generate_quality_report. rewrite Hdata, Hcols.
    unfold missing_ratio_of. cbn [map length PyDict.of_items fold_left Z.of_nat].
    rewrite Z.mul_0_r. reflexivity.
  - intros df Hdata Hcols Hrows. unfold generate_quality_report. rewrite Hdata.
    destruct (columns df) as [|c cs] eqn:Ecols; [contradiction|].
    unfold missing_ratio_of.
    destruct (PyDict.of_items (map (fun c0 => (c0.1, Z.of_nat (null_count c0.2))) (c :: cs)))
      as [|kv d] eqn:Eitems.
    { exfalso. revert Eitems. simpl map. apply of_items_not_nil. }
    cbn [mbind result_bind Py.bind]. eexists. split; [reflexivity|].
    cbn [total_rows total_columns duplicate_rows].
    split; [reflexivity|]. split; [reflexivity|].
    pose proof (duplicated_sum_lt df Hrows). lia.
Qed.

End QualityReportRange.

Section QualityReportRangeWitness.
Import Pandas ModernDataLoader.
#[local] Existing Instance Examples.plain_library.

Lemma quality_score_range_witness :
  exists r q,
    generate_quality_report Examples.people_loader = Ok r
    /\ quality_score r = Fin q
    /\ (0 < q)%Q /\ (q <= 1)%Q.
Proof.
  apply (quality_score_range Examples.people_loader Examples.people).
  - reflexivity.
  - vm_compute. reflexivity.
  - vm_compute. lia.
  - vm_compute. lia.
Defined.

Lemma quality_report_edges_witness :
  generate_quality_report (ModernDataLoader.__init__ Examples.people_config)
  = Raise (ValueError "Data not loaded. Call load_pandas() first.")
  /\ (exists r, generate_quality_report Examples.people_loader = Ok r
                /\ total_rows r = 3%nat
                /\ total_columns r = 3%nat
                /\ (0 <= duplicate_rows r < Z.of_nat (total_rows r))%Z).
Proof.
  split.
  - apply (proj1 (quality_report_edges (ModernDataLoader.__init__ Examples.people_config))).
    reflexivity.
  - apply (proj2 (proj2 (quality_report_edges Examples.people_loader)) Examples.people).
    + reflexivity.
    + discriminate.
    + vm_compute. lia.
Defined.

End QualityReportRangeWitness.

(** ** Loops that run to their end *)

Section LoopsThatReturn.
Context {S : Type}.

Lemma for_each_ok {A} (P : S -> Prop) (l : list A) (body : A -> M S unit) :
  (forall a s, a ∈ l -> P s -> exists s', body a s = (Ok tt, s') /\ P s') ->
  forall s, P s -> exists s', for_each l body s = (Ok tt, s') /\ P s'.
Proof.
  induction l as [|a l IH]; intros Hbody s Hs; simpl.
  - exists s. split; [reflexivity | exact Hs].
  - destruct (Hbody a s (list_elem_of_here _ _) Hs) as (s1 & Hrun & Hs1).
    unfold mbind, M_bind. rewrite Hrun.
    apply IH; [|exact Hs1].
    intros a' s' Hin. apply Hbody. apply list_elem_of_further. exact Hin.
Qed.

Lemma for_each_raises {A} (l : list A) (body : A -> M S unit) a e s :
  body a s = (Raise e, s) -> for_each (a :: l) body s = (Raise e, s).
Proof. intros Hrun. simpl. unfold mbind, M_bind. rewrite Hrun. reflexivity. Qed.

End LoopsThatReturn.

Lemma get_key_Some {V} (d : PyDict.dict V) k :
  k ∈ PyDict.keys d -> exists v, PyDict.get d k = Some v.
Proof.
  intros Hin. destruct (PyDict.get d k) as [v|] eqn:E; [exists v; reflexivity|].
  exfalso. exact (get_None_key d k E Hin).
Qed.

(** ** Dtype optimisation: what it keeps and when it fails *)

Section OptimizeDtypesFrame.
Import Pandas ModernDataLoader Statements.
Context `{Library.t}.

Lemma selected_column df dt col :
  col ∈ select_dtypes (fun d => bool_decide (d = dt)) df ->
  exists sc, (col, sc) ∈ columns df /\ dtype sc = dt.
Proof.
  unfold select_dtypes. intros Hsel.
  apply list_elem_of_fmap in Hsel as ([c sc] & -> & Hin).
  apply list_elem_of_filter in Hin as [Hdt Hin]. simpl in *.
  apply bool_decide_unpack in Hdt. exists sc. auto.
Qed.

Lemma selected_label df dt col :
  col ∈ select_dtypes (fun d => bool_decide (d = dt)) df -> col ∈ labels df.
Proof.
  intros Hsel. destruct (selected_column df dt col Hsel) as (sc & Hin & _).
  unfold labels. apply list_elem_of_fmap. exists (col, sc). auto.
Qed.

Lemma selected_getitem df dt col :
  NoDup (labels df) ->
  col ∈ select_dtypes (fun d => bool_decide (d = dt)) df ->
  exists sc, getitem df col = Ok sc /\ dtype sc = dt.
Proof.
  intros Hnd Hsel. destruct (selected_column df dt col Hsel) as (sc & Hin & Hdt).
  exists sc. split; [|exact Hdt]. apply getitem_ok. apply elem_get_nodup; assumption.
Qed.

Lemma getitem_selected df dt col sc :
  getitem df col = Ok sc -> dtype sc = dt ->
  col ∈ select_dtypes (fun d => bool_decide (d = dt)) df.
Proof.
  intros Hg Hdt. apply getitem_ok in Hg. apply get_Some_elem in Hg.
  unfold select_dtypes. apply list_elem_of_fmap. exists (col, sc). split; [reflexivity|].
  apply list_elem_of_filter. split; [|exact Hg]. simpl. apply bool_decide_pack. exact Hdt.
Qed.

Lemma downcast_target_int lo hi dt :
  downcast_target lo hi = Some dt -> is_Some (int_kind dt).
Proof.
  intros Ht. apply downcast_target_within in Ht.
  destruct dt; simpl in Ht; try contradiction; eexists; reflexivity.
Qed.

(** What each loop body does to the loader's frame. *)
Lemma optimize_int_step col self df' :
  _data self = Some df' ->
  snd (optimize_int_column col self) = self
  \/ exists s_cur dt,
       getitem df' col = Ok s_cur
       /\ values (astype_int dt s_cur) = values s_cur
       /\ is_Some (int_kind dt)
       /\ snd (optimize_int_column col self) = with_column self df' col (astype_int dt s_cur).
Proof.
  intros Hd. unfold optimize_int_column, mbind, M_bind.
  rewrite (get_column_spec col self df' Hd).
  destruct (getitem df' col) as [sc|e] eqn:Hg; simpl; [|left; reflexivity].
  destruct (list_min (int_values sc)) as [lo|] eqn:Hlo; [|left; reflexivity].
  destruct (list_max (int_values sc)) as [hi|] eqn:Hhi; [|left; reflexivity].
  destruct (downcast_target lo hi) as [dt|] eqn:Ht; [|left; reflexivity].
  destruct (set_column_spec col (astype_int dt sc) self df' Hd) as [Hs|[e Hs]];
    rewrite Hs; simpl; [|left; reflexivity].
  right. exists sc, dt. split; [reflexivity|]. split; [|split; [|reflexivity]].
  - exact (astype_int_values dt sc lo hi Hlo Hhi (downcast_target_within lo hi dt Ht)).
  - exact (downcast_target_int lo hi dt Ht).
Qed.

Lemma optimize_float_step col self df' :
  _data self = Some df' ->
  snd (optimize_float_column col self) = self
  \/ exists s_cur,
       getitem df' col = Ok s_cur
       /\ snd (optimize_float_column col self)
          = with_column self df' col (Library.to_numeric_downcast_float s_cur).
Proof.
  intros Hd. unfold optimize_float_column, mbind, M_bind.
  rewrite (get_column_spec col self df' Hd).
  destruct (getitem df' col) as [sc|e] eqn:Hg; simpl; [|left; reflexivity].
  destruct (set_column_spec col (Library.to_numeric_downcast_float sc) self df' Hd)
    as [Hs|[e Hs]]; rewrite Hs; simpl; [|left; reflexivity].
  right. exists sc. auto.
Qed.

Lemma optimize_object_step col self df' :
  _data self = Some df' ->
  snd (optimize_object_column col self) = self
  \/ exists s_cur,
       getitem df' col = Ok s_cur
       /\ snd (optimize_object_column col self)
          = with_column self df' col (astype_category s_cur).
Proof.
  intros Hd. unfold optimize_object_column, mbind, M_bind, StateExn.get.
  rewrite (get_column_spec col self df' Hd).
  destruct (getitem df' col) as [sc|e] eqn:Hg; [|left; reflexivity].
  rewrite Hd.
  destruct (Nat.eqb (index_len df') 0); [left; reflexivity|].
  destruct (Qle_bool _ _); [left; reflexivity|].
  destruct (set_column_spec col (astype_category sc) self df' Hd) as [Hs|[e Hs]];
    rewrite Hs; simpl; [|left; reflexivity].
  right. exists sc. auto.
Qed.

(** Replacing a column by one that is still related to the original keeps
    the invariant. *)
Lemma with_column_rel (R : Series -> Series -> Prop) df self df' col s_cur s_new :
  _data self = Some df' ->
  same_shape df df' ->
  columns_related R df df' ->
  getitem df' col = Ok s_cur ->
  (forall s, getitem df col = Ok s -> R s s_cur -> R s s_new) ->
  optimize_rel R df (with_column self df' col s_new).
Proof.
  intros Hd [Hl Hn] Hrel Hg Hstep.
  eexists. split; [reflexivity|]. split; [split|].
  - unfold labels in *. simpl. rewrite <- Hl. apply keys_set_present.
    apply getitem_ok in Hg. exact (get_Some_key _ _ _ Hg).
  - simpl. exact Hn.
  - intros name s Hgs. destruct (Hrel name s Hgs) as (s1 & Hg1 & HR).
    destruct (decide (col = name)) as [->|Hne].
    + exists s_new. split.
      * apply getitem_ok. simpl. apply get_set_eq.
      * apply (Hstep s Hgs). assert (s1 = s_cur) as <- by congruence. exact HR.
    + exists s1. split; [|exact HR].
      apply getitem_ok. simpl. rewrite get_set_ne by exact Hne.
      apply getitem_ok. exact Hg1.
Qed.

Lemma loop_keeps_rel (R : Series -> Series -> Prop) df (l : list string)
    (body : string -> M ModernDataLoader.t unit) self :
  (forall col self df', col ∈ l -> _data self = Some df' ->
     snd (body col self) = self
     \/ exists s_cur s_new,
          getitem df' col = Ok s_cur
          /\ snd (body col self) = with_column self df' col s_new
          /\ (forall s, getitem df col = Ok s -> R s s_cur -> R s s_new)) ->
  optimize_rel R df self ->
  optimize_rel R df (snd (for_each l body self)).
Proof.
  intros Hbody. apply (for_each_invariant (optimize_rel R df)).
  intros col s Hin (df' & Hd & Hshape & Hrel).
  destruct (Hbody col s df' Hin Hd) as [->|(s_cur & s_new & Hg & -> & Hstep)].
  - exists df'. auto.
  - exact (with_column_rel R df s df' col s_cur s_new Hd Hshape Hrel Hg Hstep).
Qed.

Lemma numeric_kept_column_kept s s' : numeric_kept s s' -> column_kept s s'.
Proof.
  intros [Hf|[(Hi & Hv & Hk)| ->]]; [left; exact Hf| |].
  - right. split; [exact Hv|]. rewrite Hi. exact Hk.
  - unfold column_kept.
    destruct (dtype s) eqn:E;
      first [ left; reflexivity
            | right; split; [reflexivity|];
              first [reflexivity | eexists; reflexivity | left; reflexivity] ].
Qed.

(** The state after the integer and the float loop. *)
Lemma numeric_loops_rel self df :
  _data self = Some df -> NoDup (labels df) ->
  let int_cols := select_dtypes (fun d => bool_decide (d = int64)) df in
  let self1 := snd (for_each int_cols optimize_int_column self) in
  optimize_rel numeric_kept df self1
  /\ forall df1, _data self1 = Some df1 ->
       optimize_rel numeric_kept df
         (snd (for_each (select_dtypes (fun d => bool_decide (d = float64)) df1)
                        optimize_float_column self1)).
Proof.
  intros Hd Hnd int_cols self1.
  assert (optimize_rel numeric_kept df self) as Hinv0.
  { exists df. split; [exact Hd|]. split; [split; reflexivity|].
    intros name s Hg. exists s. split; [exact Hg|]. right. right. reflexivity. }
  assert (optimize_rel numeric_kept df self1) as Hinv1.
  { apply loop_keeps_rel; [|exact Hinv0].
    intros col self' df' Hin Hd'.
    destruct (optimize_int_step col self' df' Hd') as [Hs|(s_cur & dt & Hg & Hv & Hk & Hs)];
      [left; exact Hs|].
    right. exists s_cur, (astype_int dt s_cur). split; [exact Hg|]. split; [exact Hs|].
    intros s Hgs HR.
    destruct (selected_getitem df int64 col Hnd Hin) as (sc & Hgc & Hdt).
    assert (sc = s) as -> by congruence.
    right. left. split; [exact Hdt|]. split; [|exact Hk].
    rewrite Hv. destruct HR as [Hf|[(_ & Hv' & _)| ->]]; [congruence|exact Hv'|reflexivity]. }
  split; [exact Hinv1|].
  intros df1 Hd1. apply loop_keeps_rel; [|exact Hinv1].
  intros col self' df' Hin Hd'.
  destruct (optimize_float_step col self' df' Hd') as [Hs|(s_cur & Hg & Hs)];
    [left; exact Hs|].
  right. exists s_cur, (Library.to_numeric_downcast_float s_cur).
  split; [exact Hg|]. split; [exact Hs|].
  intros s Hgs _. left.
  destruct Hinv1 as (df1' & Hd1' & [Hl1 _] & Hrel1).
  assert (df1' = df1) as -> by congruence.
  destruct (selected_getitem df1 float64 col) as (sc & Hgc & Hdt); [congruence|exact Hin|].
  destruct (Hrel1 col s Hgs) as (s1 & Hg1 & HR1).
  assert (s1 = sc) as -> by congruence.
  destruct HR1 as [Hf|[(_ & _ & Hk)| ->]]; [exact Hf| |exact Hdt].
  rewrite Hdt in Hk. destruct Hk as [? Hk]. discriminate Hk.
Qed.

Lemma object_loop_rel self2 df df2 :
  NoDup (labels df) ->
  _data self2 = Some df2 ->
  optimize_rel numeric_kept df self2 ->
  optimize_rel column_kept df
    (snd (for_each (select_dtypes (fun d => bool_decide (d = object_)) df2)
                   optimize_object_column self2)).
Proof.
  intros Hnd Hd2 Hinv2.
  assert (optimize_rel column_kept df self2) as Hinv2'.
  { destruct Hinv2 as (df2' & Hd2' & Hshape & Hrel). exists df2'.
    split; [exact Hd2'|]. split; [exact Hshape|].
    intros name s Hg. destruct (Hrel name s Hg) as (s' & Hg' & HR).
    exists s'. split; [exact Hg'|]. apply numeric_kept_column_kept. exact HR. }
  apply loop_keeps_rel; [|exact Hinv2'].
  intros col self' df' Hin Hd'.
  destruct (optimize_object_step col self' df' Hd') as [Hs|(s_cur & Hg & Hs)];
    [left; exact Hs|].
  right. exists s_cur, (astype_category s_cur). split; [exact Hg|]. split; [exact Hs|].
  intros s Hgs HR.
  destruct Hinv2 as (df2' & Hd2' & [Hl2 _] & Hrel2).
  assert (df2' = df2) as -> by congruence.
  destruct (selected_getitem df2 object_ col) as (sc & Hgc & Hdt); [congruence|exact Hin|].
  destruct (Hrel2 col s Hgs) as (s2 & Hg2 & HR2).
  assert (s2 = sc) as -> by congruence.
  assert (dtype s = float64 \/ dtype s = object_) as [Hf|Ho].
  { destruct HR2 as [Hf|[(_ & _ & Hk)| ->]]; [left; exact Hf| |right; exact Hdt].
    rewrite Hdt in Hk. destruct Hk as [? Hk]. discriminate Hk. }
  - left. exact Hf.
  - destruct HR as [Hf|[Hv _]]; [left; exact Hf|].
    right. split; [exact Hv|]. rewrite Ho. right. reflexivity.
Qed.

(** What [_optimize_dtypes] keeps of the frame, however it ends. *)
Lemma optimize_dtypes_rel (self : ModernDataLoader.t) (df : DataFrame) :
  _data self = Some df ->
  NoDup (labels df) ->
  exists df',
    _data (snd (_optimize_dtypes self)) = Some df'
    /\ same_shape df df'
    /\ columns_related column_kept df df'.
Proof.
  intros Hd Hnd.
  destruct (numeric_loops_rel self df Hd Hnd) as [Hinv1 Hinv2].
  cbv zeta in Hinv1, Hinv2.
  assert (forall self', optimize_rel numeric_kept df self' -> optimize_rel column_kept df self')
    as Hweak.
  { intros self' (df' & Hd' & Hshape & Hrel). exists df'.
    split; [exact Hd'|]. split; [exact Hshape|].
    intros name s Hg. destruct (Hrel name s Hg) as (s' & Hg' & HR).
    exists s'. split; [exact Hg'|]. apply numeric_kept_column_kept. exact HR. }
  unfold _optimize_dtypes.
  unfold mbind at 1, M_bind at 1, StateExn.get at 1. rewrite Hd.
  unfold mbind at 1, M_bind at 1. rewrite (columns_of_dtype_spec int64 self df Hd).
  unfold mbind at 1, M_bind at 1.
  destruct (for_each _ optimize_int_column self) as [[[]|e] self1];
    simpl in Hinv1, Hinv2; [|exact (Hweak _ Hinv1)].
  destruct Hinv1 as (df1 & Hd1 & Hrest1). specialize (Hinv2 df1 Hd1).
  unfold mbind at 1, M_bind at 1. rewrite (columns_of_dtype_spec float64 self1 df1 Hd1).
  unfold mbind at 1, M_bind at 1.
  destruct (for_each _ optimize_float_column self1) as [[[]|e] self2];
    simpl in Hinv2; [|exact (Hweak _ Hinv2)].
  destruct Hinv2 as (df2 & Hd2 & Hrest2).
  unfold mbind at 1, M_bind at 1. rewrite (columns_of_dtype_spec object_ self2 df2 Hd2).
  apply (object_loop_rel self2 df df2 Hnd Hd2). exists df2. auto.
Qed.

(** The loader still has a frame after [_optimize_dtypes], whatever the
    labels. *)
Lemma optimize_dtypes_still_loaded (self : ModernDataLoader.t) :
  is_Some (_data self) -> is_Some (_data (snd (_optimize_dtypes self))).
Proof.
  intros Hsome.
  assert (Hloop : forall (l : list string) (body : string -> M ModernDataLoader.t unit) s,
            (forall col, sets_only col (body col)) ->
            is_Some (_data s) -> is_Some (_data (snd (for_each l body s)))).
  { intros l body s Hbody. apply (for_each_invariant (fun s => is_Some (_data s))).
    intros col s' _ [df' Hd']. destruct (Hbody col s' df' Hd') as [->|(_ & s1 & ->)].
    - eexists. exact Hd'.
    - eexists. reflexivity. }
  assert (Hint : forall col, sets_only col (optimize_int_column col)).
  { intros col s df' Hd'.
    destruct (optimize_int_step col s df' Hd') as [Hs|(s_cur & dt & Hg & _ & _ & Hs)];
      [left; exact Hs|].
    right. split; [|eexists; exact Hs].
    apply getitem_ok in Hg. exact (get_Some_key _ _ _ Hg). }
  destruct Hsome as [df Hd].
  unfold _optimize_dtypes.
  unfold mbind at 1, M_bind at 1, StateExn.get at 1. rewrite Hd.
  unfold mbind at 1, M_bind at 1. rewrite (columns_of_dtype_spec int64 self df Hd).
  unfold mbind at 1, M_bind at 1.
  pose proof (Hloop (select_dtypes (fun d => bool_decide (d = int64)) df)
                optimize_int_column self Hint (ex_intro _ df Hd)) as H1.
  destruct (for_each _ optimize_int_column self) as [[[]|e] self1]; simpl in H1; [|exact H1].
  destruct H1 as [df1 Hd1].
  unfold mbind at 1, M_bind at 1. rewrite (columns_of_dtype_spec float64 self1 df1 Hd1).
  unfold mbind at 1, M_bind at 1.
  pose proof (Hloop (select_dtypes (fun d => bool_decide (d = float64)) df1)
                optimize_float_column self1 optimize_float_sets_only (ex_intro _ df1 Hd1))
    as H2.
  destruct (for_each _ optimize_float_column self1) as [[[]|e] self2]; simpl in H2;
    [|exact H2].
  destruct H2 as [df2 Hd2].
  unfold mbind at 1, M_bind at 1. rewrite (columns_of_dtype_spec object_ self2 df2 Hd2).
  exact (Hloop _ optimize_object_column self2 optimize_object_sets_only (ex_intro _ df2 Hd2)).
Qed.


(** *** When it fails *)

Lemma loaded_getitem names n self col :
  loaded names n self -> col ∈ names ->
  exists df' s, _data self = Some df' /\ index_len df' = n /\ getitem df' col = Ok s
                /\ length (values s) = n.
Proof.
  intros (df' & Hd & Hl & Hn & Hlen) Hin.
  destruct (get_key_Some (columns df') col) as [s Hg].
  { unfold PyDict.keys. fold (labels df'). rewrite Hl. exact Hin. }
  exists df', s. split; [exact Hd|]. split; [exact Hn|].
  split; [apply getitem_ok; exact Hg|].
  apply get_Some_elem in Hg. rewrite Forall_forall in Hlen.
  exact (Hlen (col, s) Hg).
Qed.

Lemma set_Forall {V} (P : string * V -> Prop) d k v :
  Forall P d -> P (k, v) -> Forall P (PyDict.set d k v).
Proof.
  intros Hd Hkv. induction d as [|[k' v'] d IH]; simpl.
  - constructor; [exact Hkv | constructor].
  - inversion Hd; subst. destruct (bool_decide (k' = k)); constructor; auto.
Qed.

Lemma set_column_loaded names n self col s :
  loaded names n self -> col ∈ names -> length (values s) = n ->
  exists self', set_column col s self = (Ok tt, self') /\ loaded names n self'.
Proof.
  intros (df' & Hd & Hl & Hn & Hlen) Hin Hs.
  unfold set_column, mbind, M_bind, StateExn.get, StateExn.lift, StateExn.put.
  rewrite Hd. unfold setitem. rewrite Hs, Hn, Nat.eqb_refl.
  eexists. split; [reflexivity|].
  eexists. split; [reflexivity|]. simpl. split; [|split; [reflexivity|]].
  - unfold labels in *. simpl. rewrite <- Hl. apply keys_set_present.
    unfold PyDict.keys. rewrite Hl. exact Hin.
  - apply set_Forall; [exact Hlen | exact Hs].
Qed.

Lemma optimize_int_returns names n self col :
  loaded names n self -> col ∈ names ->
  exists self', optimize_int_column col self = (Ok tt, self') /\ loaded names n self'.
Proof.
  intros Hload Hin.
  destruct (loaded_getitem names n self col Hload Hin) as (df' & s & Hd & Hn & Hg & Hlen).
  unfold optimize_int_column, mbind, M_bind.
  rewrite (get_column_spec col self df' Hd), Hg.
  destruct (list_min (int_values s)) as [lo|]; [|exists self; auto].
  destruct (list_max (int_values s)) as [hi|]; [|exists self; auto].
  destruct (downcast_target lo hi) as [dt|]; [|exists self; auto].
  apply set_column_loaded; [exact Hload | exact Hin|].
  unfold astype_int. simpl. rewrite length_map. exact Hlen.
Qed.

Lemma optimize_float_returns names n self col :
  downcast_keeps_length ->
  loaded names n self -> col ∈ names ->
  exists self', optimize_float_column col self = (Ok tt, self') /\ loaded names n self'.
Proof.
  intros Hlib Hload Hin.
  destruct (loaded_getitem names n self col Hload Hin) as (df' & s & Hd & Hn & Hg & Hlen).
  unfold optimize_float_column, mbind, M_bind.
  rewrite (get_column_spec col self df' Hd), Hg.
  apply set_column_loaded; [exact Hload | exact Hin|].
  rewrite Hlib. exact Hlen.
Qed.

Lemma optimize_object_returns names n self col :
  (0 < n)%nat ->
  loaded names n self -> col ∈ names ->
  exists self', optimize_object_column col self = (Ok tt, self') /\ loaded names n self'.
Proof.
  intros Hpos Hload Hin.
  destruct (loaded_getitem names n self col Hload Hin) as (df' & s & Hd & Hn & Hg & Hlen).
  unfold optimize_object_column, mbind, M_bind, StateExn.get.
  rewrite (get_column_spec col self df' Hd), Hg, Hd.
  destruct (Nat.eqb_spec (index_len df') 0) as [Hz|_]; [lia|].
  destruct (Qle_bool _ _); [exists self; auto|].
  apply set_column_loaded; [exact Hload | exact Hin | exact Hlen].
Qed.

Lemma optimize_object_no_rows self df' col :
  _data self = Some df' -> index_len df' = 0%nat -> col ∈ labels df' ->
  optimize_object_column col self = (Raise ZeroDivisionError, self).
Proof.
  intros Hd Hn Hin.
  destruct (get_key_Some (columns df') col Hin) as [s Hg].
  apply getitem_ok in Hg.
  unfold optimize_object_column, mbind, M_bind, StateExn.get.
  rewrite (get_column_spec col self df' Hd), Hg, Hd, Hn. reflexivity.
Qed.

Lemma wf_frame_loaded self df :
  _data self = Some df -> wf_frame df = true -> loaded (labels df) (index_len df) self.
Proof.
  intros Hd Hwf. exists df. split; [exact Hd|]. split; [reflexivity|]. split; [reflexivity|].
  apply Forall_forall. intros [name s] Hin. exact (wf_frame_lengths df name s Hwf Hin).
Qed.

(** With a pandas whose downcast keeps a column's length, the first two
    loops run to their end. *)
Lemma optimize_dtypes_object_loop (self : ModernDataLoader.t) (df : DataFrame) :
  _data self = Some df ->
  wf_frame df = true ->
  downcast_keeps_length ->
  exists self2 df2,
    _optimize_dtypes self
    = for_each (select_dtypes (fun d => bool_decide (d = object_)) df2)
               optimize_object_column self2
    /\ _data self2 = Some df2
    /\ loaded (labels df) (index_len df) self2
    /\ optimize_rel numeric_kept df self2.
Proof.
  intros Hd Hwf Hlib.
  pose proof (wf_frame_nodup df Hwf) as Hnd.
  pose proof (wf_frame_loaded self df Hd Hwf) as Hload0.
  destruct (numeric_loops_rel self df Hd Hnd) as [Hinv1 Hinv2].
  cbv zeta in Hinv1, Hinv2.
  unfold _optimize_dtypes.
  unfold mbind at 1, M_bind at 1, StateExn.get at 1. rewrite Hd.
  unfold mbind at 1, M_bind at 1. rewrite (columns_of_dtype_spec int64 self df Hd).
  unfold mbind at 1, M_bind at 1.
  destruct (for_each_ok (loaded (labels df) (index_len df))
              (select_dtypes (fun d => bool_decide (d = int64)) df) optimize_int_column)
    with (s := self) as (self1 & Hrun1 & Hload1); [|exact Hload0|].
  { intros col s Hin Hs. apply optimize_int_returns; [exact Hs|].
    exact (selected_label df int64 col Hin). }
  rewrite Hrun1 in *. simpl in Hinv1, Hinv2.
  destruct Hinv1 as (df1 & Hd1 & [Hl1 Hn1] & Hrel1). specialize (Hinv2 df1 Hd1).
  unfold mbind at 1, M_bind at 1. rewrite (columns_of_dtype_spec float64 self1 df1 Hd1).
  unfold mbind at 1, M_bind at 1.
  destruct (for_each_ok (loaded (labels df) (index_len df))
              (select_dtypes (fun d => bool_decide (d = float64)) df1) optimize_float_column)
    with (s := self1) as (self2 & Hrun2 & Hload2); [|exact Hload1|].
  { intros col s Hin Hs. apply optimize_float_returns; [exact Hlib | exact Hs|].
    rewrite <- Hl1. exact (selected_label df1 float64 col Hin). }
  rewrite Hrun2 in *. simpl in Hinv2.
  pose proof Hinv2 as (df2 & Hd2 & _).
  unfold mbind at 1, M_bind at 1. rewrite (columns_of_dtype_spec object_ self2 df2 Hd2).
  exists self2, df2. auto.
Qed.

(** X4. When [_optimize_dtypes] fails, for a loaded frame with unique labels
    and columns as long as its index, and a pandas whose downcast keeps a
    column's length: with at least one row it always runs to its end; with no
    row and a column of dtype [object_] it raises [ZeroDivisionError], the
    share of unique values being a quotient of two Python integers. *)
Theorem optimize_dtypes_outcome (self : ModernDataLoader.t) (df : DataFrame) :
  _data self = Some df ->
  wf_frame df = true ->
  downcast_keeps_length ->
  ((0 < index_len df)%nat -> fst (_optimize_dtypes self) = Ok tt)
  /\ (index_len df = 0%nat ->
      (exists name s, getitem df name = Ok s /\ dtype s = object_) ->
      fst (_optimize_dtypes self) = Raise ZeroDivisionError).
Proof.
  intros Hd Hwf Hlib.
  destruct (optimize_dtypes_object_loop self df Hd Hwf Hlib)
    as (self2 & df2 & -> & Hd2 & Hload2 & (df2' & Hd2' & [Hl2 Hn2] & Hrel2)).
  assert (df2' = df2) as -> by congruence.
  split.
  - intros Hpos.
    destruct (for_each_ok (loaded (labels df) (index_len df))
                (select_dtypes (fun d => bool_decide (d = object_)) df2)
                optimize_object_column)
      with (s := self2) as (self3 & Hrun3 & _); [|exact Hload2|].
    { intros col s Hin Hs. apply optimize_object_returns; [exact Hpos | exact Hs|].
      rewrite <- Hl2. exact (selected_label df2 object_ col Hin). }
    rewrite Hrun3. reflexivity.
  - intros Hzero (name & s & Hg & Hdt).
    destruct (Hrel2 name s Hg) as (s2 & Hg2 & HR2).
    assert (s2 = s) as ->.
    { destruct HR2 as [Hf|[(Hi & _)|Heq]]; [congruence|congruence|exact Heq]. }
    pose proof (getitem_selected df2 object_ name s Hg2 Hdt) as Hsel.
    destruct (select_dtypes (fun d => bool_decide (d = object_)) df2) as [|c0 rest] eqn:Esel.
    { apply elem_of_nil in Hsel. contradiction. }
    rewrite (for_each_raises rest optimize_object_column c0 ZeroDivisionError self2);
      [reflexivity|].
    apply (optimize_object_no_rows self2 df2); [exact Hd2 | congruence|].
    apply (selected_label df2 object_). rewrite Esel. apply list_elem_of_here.
Qed.

End OptimizeDtypesFrame.

Section OptimizeDtypesFrameWitness.
Import Pandas ModernDataLoader Statements.
#[local] Existing Instance Examples.plain_library.


Lemma optimize_dtypes_outcome_witness :
  fst (_optimize_dtypes Examples.people_loader) = Ok tt
  /\ fst (_optimize_dtypes Examples.headers_loader) = Raise ZeroDivisionError.
Proof.
  split.
  - apply (proj1 (@optimize_dtypes_outcome Examples.plain_library Examples.people_loader
                    Examples.people eq_refl eq_refl ltac:(intros s; reflexivity))).
    vm_compute. lia.
  - apply (proj2 (@optimize_dtypes_outcome Examples.plain_library Examples.headers_loader
                    Examples.headers eq_refl eq_refl ltac:(intros s; reflexivity))).
    + reflexivity.
    + exists "name", {| dtype := object_; values := [] |}. split; reflexivity.
Defined.

End OptimizeDtypesFrameWitness.

(** ** Fitting twice, and fitting what is no frame *)

Section FitRefusals.
Import Pandas Store TypeSafeFeatureTransformer Statements.

Lemma base_fit_not_frame X st self :
  (forall x, X <> PFrame x) ->
  TypeSafeFeatureTransformer.fit X st self
  = (Raise (TypeError "Input must be a pandas DataFrame"), self).
Proof.
  intros Hx. unfold TypeSafeFeatureTransformer.fit, mbind, M_bind, StateExn.get, StateExn.lift.
  rewrite (validate_input_not_frame self X st Hx). reflexivity.
Qed.

Lemma base_fit_missing x st df self names c :
  frames st !! x = Some df ->
  is_fitted_ self = true -> feature_names_ self = Some names ->
  c ∈ names -> c ∉ labels df ->
  exists msg,
    TypeSafeFeatureTransformer.fit (PFrame x) st self = (Raise (ValueError msg), self).
Proof.
  intros Hdf Hfit Hnames Hc Hout.
  unfold TypeSafeFeatureTransformer.fit, mbind, M_bind, StateExn.get, StateExn.lift.
  unfold _validate_input. rewrite Hdf, Hfit, Hnames.
  rewrite bool_decide_eq_false_2.
  - eexists. reflexivity.
  - intros He. exact (Hout (proj1 (missing_features_empty names (labels df)) He c Hc)).
Qed.

Lemma super_raise {T} `{Transformer T} {A} (m : M TypeSafeFeatureTransformer.t A) self e :
  m (base self) = (Raise e, base self) ->
  with_base (base self) self = self ->
  super m self = (Raise e, self).
Proof. intros Hm Hb. unfold super. rewrite Hm, Hb. reflexivity. Qed.

Context `{Library.t}.

Lemma imputer_with_base (self : SmartMissingValueImputer.t) :
  with_base (base self) self = self.
Proof. destruct self. reflexivity. Qed.

Lemma engineer_with_base (self : AdvancedFeatureEngineer.t) :
  with_base (base self) self = self.
Proof. destruct self. reflexivity. Qed.

(** X5. [fit] refuses what is no frame with [TypeError], and a fitted
    transformer refuses to be fitted again on a frame that lacks one of the
    columns it was fitted on, with [ValueError]: the check of the columns
    that [transform] relies on runs in [fit] as well. This holds for the
    base class and for both subclasses, and the refused call leaves the
    transformer as it was. *)
Theorem fit_refusals :
  (forall X st,
      (forall x, X <> PFrame x) ->
      (forall self, TypeSafeFeatureTransformer.fit X st self
                    = (Raise (TypeError "Input must be a pandas DataFrame"), self))
      /\ (forall self, SmartMissingValueImputer.fit X st self
                       = (Raise (TypeError "Input must be a pandas DataFrame"), self))
      /\ (forall self, AdvancedFeatureEngineer.fit X st self
                       = (Raise (TypeError "Input must be a pandas DataFrame"), self)))
  /\ (forall x st df names c,
        frames st !! x = Some df -> c ∈ names -> c ∉ labels df ->
        (forall self,
            is_fitted_ self = true -> feature_names_ self = Some names ->
            exists msg, TypeSafeFeatureTransformer.fit (PFrame x) st self
                        = (Raise (ValueError msg), self))
        /\ (forall self : SmartMissingValueImputer.t,
              is_fitted_ (base self) = true -> feature_names_ (base self) = Some names ->
              exists msg, SmartMissingValueImputer.fit (PFrame x) st self
                          = (Raise (ValueError msg), self))
        /\ (forall self : AdvancedFeatureEngineer.t,
              is_fitted_ (base self) = true -> feature_names_ (base self) = Some names ->
              exists msg, AdvancedFeatureEngineer.fit (PFrame x) st self
                          = (Raise (ValueError msg), self))).
Proof.
  split.
  - intros X st Hx. split; [|split]; intros self.
    + exact (base_fit_not_frame X st self Hx).
    + unfold SmartMissingValueImputer.fit, mbind, M_bind.
      rewrite (super_raise _ self _ (base_fit_not_frame X st (base self) Hx)
                 (imputer_with_base self)).
      reflexivity.
    + unfold AdvancedFeatureEngineer.fit, mbind, M_bind.
      rewrite (super_raise _ self _ (base_fit_not_frame X st (base self) Hx)
                 (engineer_with_base self)).
      reflexivity.
  - intros x st df names c Hdf Hc Hout. split; [|split]; intros self Hfit Hnames.
    + exact (base_fit_missing x st df self names c Hdf Hfit Hnames Hc Hout).
    + destruct (base_fit_missing x st df (base self) names c Hdf Hfit Hnames Hc Hout)
        as [msg Hrun].
      exists msg. unfold SmartMissingValueImputer.fit, mbind, M_bind.
      rewrite (super_raise _ self _ Hrun (imputer_with_base self)). reflexivity.
    + destruct (base_fit_missing x st df (base self) names c Hdf Hfit Hnames Hc Hout)
        as [msg Hrun].
      exists msg. unfold AdvancedFeatureEngineer.fit, mbind, M_bind.
      rewrite (super_raise _ self _ Hrun (engineer_with_base self)). reflexivity.
Qed.

End FitRefusals.

Section FitRefusalsWitness.
Import Pandas Store TypeSafeFeatureTransformer.
#[local] Existing Instance Examples.plain_library.

Lemma fit_refusals_witness :
  SmartMissingValueImputer.fit PNone Examples.store Examples.fitted_imputer
  = (Raise (TypeError "Input must be a pandas DataFrame"), Examples.fitted_imputer)
  /\ exists msg,
       SmartMissingValueImputer.fit (PFrame 1%positive) Examples.ratios_store
         Examples.fitted_imputer
       = (Raise (ValueError msg), Examples.fitted_imputer).
Proof.
  split.
  - apply (proj1 fit_refusals PNone Examples.store). discriminate.
  - apply (proj2 fit_refusals 1%positive Examples.ratios_store Examples.ratios
             ["age"; "income"; "city"] "age").
    + reflexivity.
    + apply list_elem_of_here.
    + apply (bool_decide_unpack _). vm_compute. exact I.
    + reflexivity.
    + reflexivity.
Defined.

End FitRefusalsWitness.

(** ** The imputer's dicts *)

Section ImputerDicts.
Import Pandas Store TypeSafeFeatureTransformer SmartMissingValueImputer Statements.

Lemma keys_set {V} (d : PyDict.dict V) k v :
  PyDict.keys (PyDict.set d k v)
  = if bool_decide (k ∈ PyDict.keys d) then PyDict.keys d else PyDict.keys d ++ [k].
Proof.
  destruct (bool_decide (k ∈ PyDict.keys d)) eqn:E.
  - apply bool_decide_eq_true_1 in E. apply keys_set_present. exact E.
  - apply bool_decide_eq_false_1 in E. rewrite (set_fresh d k v E).
    unfold PyDict.keys. rewrite map_app. reflexivity.
Qed.

Lemma keys_set_twice {V} (d : PyDict.dict V) k v v' :
  PyDict.keys (PyDict.set (PyDict.set d k v) k v') = PyDict.keys (PyDict.set d k v).
Proof. apply keys_set_present. apply (get_Some_key _ k v). apply get_set_eq. Qed.

Lemma set_both_agree {V W} (d1 : PyDict.dict V) (d2 : PyDict.dict W) k v w :
  PyDict.keys d1 = PyDict.keys d2 ->
  PyDict.keys (PyDict.set d1 k v) = PyDict.keys (PyDict.set d2 k w).
Proof. intros Hk. rewrite !keys_set, Hk. reflexivity. Qed.

(** The body of the loop of [fit] writes to both dicts or to neither,
    however it ends. *)
Lemma fit_column_agree X column self :
  dicts_agree self -> dicts_agree (snd (fit_column X column self)).
Proof.
  intros Hagree. unfold fit_column.
  unfold mbind at 1, M_bind at 1, StateExn.lift at 1.
  destruct (getitem X column) as [s|e]; [|exact Hagree].
  destruct (fis_zero (null_mean s)); [exact Hagree|].
  unfold mbind at 1, M_bind at 1, StateExn.get at 1.
  unfold mbind at 1, M_bind at 1, set_strategy at 1.
  destruct (bool_decide (_ = "knn")).
  - unfold mbind, M_bind, set_imputer, StateExn.lift.
    destruct (subframe X _) as [sub|e]; [|apply set_both_agree; exact Hagree].
    destruct (Library.imputer_fit _ sub) as [fitted|e];
      [|apply set_both_agree; exact Hagree].
    unfold dicts_agree. simpl. rewrite keys_set_twice. apply set_both_agree. exact Hagree.
  - unfold mbind, M_bind, set_imputer, StateExn.lift.
    destruct (subframe X _) as [sub|e]; [|apply set_both_agree; exact Hagree].
    destruct (Library.imputer_fit _ sub) as [fitted|e];
      [|apply set_both_agree; exact Hagree].
    unfold dicts_agree. simpl. rewrite keys_set_twice. apply set_both_agree. exact Hagree.
Qed.

Context `{Library.t}.

(** X6. The imputer's two dicts go together: after [fit], however it ends,
    [strategies_] and [imputers_] have the same keys in the same order, if
    they had before (as in a new imputer). So the look-up of a column's
    strategy in [_transform_impl], for a column taken from [imputers_], never
    raises [KeyError]. *)
Theorem imputer_dicts_agree (X : pyobj) (st : Store.t) (self : SmartMissingValueImputer.t) :
  dicts_agree self ->
  let self1 := snd (SmartMissingValueImputer.fit X st self) in
  dicts_agree self1
  /\ forall column imputer, (column, imputer) ∈ imputers_ self1 ->
       exists s, PyDict.item (strategies_ self1) column = Ok s.
Proof.
  intros Hagree self1.
  assert (dicts_agree self1) as Hagree1.
  { unfold self1, SmartMissingValueImputer.fit, mbind, M_bind, super.
    destruct (TypeSafeFeatureTransformer.fit X st (base self)) as [[[]|e] b];
      [|exact Hagree].
    destruct X as [x| | |]; try exact Hagree.
    destruct (frames st !! x) as [df|]; [|exact Hagree].
    apply (for_each_invariant dicts_agree).
    - intros column s _ Hs. apply fit_column_agree. exact Hs.
    - exact Hagree. }
  split; [exact Hagree1|].
  intros column imputer Hin.
  assert (column ∈ PyDict.keys (strategies_ self1)) as Hkey.
  { rewrite Hagree1. unfold PyDict.keys. apply list_elem_of_fmap.
    exists (column, imputer). auto. }
  destruct (get_key_Some _ _ Hkey) as [s Hs].
  exists s. unfold PyDict.item. rewrite Hs. reflexivity.
Qed.

(** X7. A fixed strategy is used for every column with missing values:
    after [fit] of an imputer built with a strategy other than 'auto' has
    returned on a frame, a column with no missing value has neither imputer
    nor strategy, and every column with missing values has the imputer's own
    strategy, whatever its dtype and its share of missing values. *)
Theorem fixed_strategy_assignment (strategy : string) (n : Z) (st : Store.t) (x : loc)
    (df : DataFrame) (self1 : SmartMissingValueImputer.t) :
  strategy <> "auto" ->
  frames st !! x = Some df ->
  wf_frame df = true ->
  SmartMissingValueImputer.fit (PFrame x) st (SmartMissingValueImputer.__init__ strategy n)
  = (Ok tt, self1) ->
  forall name s, (name, s) ∈ columns df ->
    (null_count s = 0%nat ->
       PyDict.get (imputers_ self1) name = None
       /\ PyDict.get (strategies_ self1) name = None)
    /\ ((0 < null_count s)%nat ->
          PyDict.get (strategies_ self1) name = Some strategy
          /\ is_Some (PyDict.get (imputers_ self1) name)).
Proof.
  intros Hauto Hdf Hwf Hfit name s Hin.
  pose proof (wf_frame_nodup df Hwf) as Hnd.
  pose proof (wf_frame_lengths df name s Hwf Hin) as Hlen.
  unfold SmartMissingValueImputer.fit in Hfit.
  apply bind_inv_ok in Hfit as ([] & s1 & Hsuper & Hloop).
  apply super_ok in Hsuper as (b & _ & ->).
  rewrite Hdf in Hloop.
  destruct (fit_loop_ok df (labels df) Hnd _ _ Hloop) as (_ & _ & Hassigned).
  assert (getitem df name = Ok s) as Hg.
  { apply getitem_ok. apply elem_get_nodup; [exact Hnd | exact Hin]. }
  assert (name ∈ labels df) as Hname.
  { apply (list_elem_of_fmap_2 fst) in Hin. exact Hin. }
  specialize (Hassigned name s Hname Hg). unfold assigned in Hassigned.
  simpl in Hassigned.
  assert (Hchosen : chosen s (with_base b (SmartMissingValueImputer.__init__ strategy n))
                    = strategy).
  { unfold chosen. simpl. rewrite bool_decide_eq_false_2 by exact Hauto. reflexivity. }
  split.
  - intros Hnone.
    destruct (Nat.eq_dec (length (values s)) 0) as [Hz|Hrows].
    + unfold null_mean in Hassigned. rewrite Hz in Hassigned. simpl in Hassigned.
      destruct Hassigned as (Hrows & _). lia.
    + rewrite (null_mean_share s Hrows) in Hassigned.
      rewrite (proj2 (fis_zero_share s) Hnone) in Hassigned.
      destruct Hassigned as [-> ->]. auto.
  - intros Hpos.
    assert (length (values s) <> 0%nat) as Hrows.
    { unfold null_count in Hpos. pose proof (length_filter (fun c => isnull c) (values s)).
      lia. }
    rewrite (null_mean_share s Hrows) in Hassigned.
    destruct (fis_zero (Fin (missing_share s))) eqn:Hz.
    + apply fis_zero_share in Hz. lia.
    + destruct Hassigned as (_ & Hs & Hi). split; [|exact Hi].
      rewrite Hs. f_equal. exact Hchosen.
Qed.

End ImputerDicts.

Section ImputerDictsWitness.
Import Pandas Store SmartMissingValueImputer Statements.
#[local] Existing Instance Examples.plain_library.

Lemma imputer_dicts_agree_witness :
  dicts_agree Examples.fitted_imputer
  /\ forall column imputer, (column, imputer) ∈ imputers_ Examples.fitted_imputer ->
       exists s, PyDict.item (strategies_ Examples.fitted_imputer) column = Ok s.
Proof.
  apply (imputer_dicts_agree (PFrame 1%positive) Examples.store
           (SmartMissingValueImputer.__init__ "auto" 5)).
  reflexivity.
Defined.

Lemma fixed_strategy_assignment_witness :
  (PyDict.get (imputers_ Examples.fixed_imputer) "age" = None
   /\ PyDict.get (strategies_ Examples.fixed_imputer) "age" = None)
  /\ (PyDict.get (strategies_ Examples.fixed_imputer) "income" = Some "most_frequent"
      /\ is_Some (PyDict.get (imputers_ Examples.fixed_imputer) "income")).
Proof.
  pose proof (fixed_strategy_assignment "most_frequent" 5 Examples.store 1%positive
                Examples.people Examples.fixed_imputer ltac:(discriminate)
                eq_refl eq_refl eq_refl) as Hall.
  split.
  - refine (proj1 (Hall "age" _ _) _).
    + apply list_elem_of_here.
    + reflexivity.
  - refine (proj2 (Hall "income" _ _) _).
    + apply list_elem_of_further, list_elem_of_here.
    + vm_compute. lia.
Defined.

End ImputerDictsWitness.

(** ** The shape of what the transformers return *)

Section TransformShape.
Import Pandas Store TypeSafeFeatureTransformer Statements.

(** [transform] that returns has handed a frame to [_transform_impl]. *)
Lemma transform_ok_impl {T} `{Transformer T} (self : T) X st r st' :
  transform self X st = (Ok r, st') ->
  exists x df, X = PFrame x /\ frames st !! x = Some df
               /\ _transform_impl self x st = (Ok r, st').
Proof.
  unfold transform. destruct (negb _); [discriminate|].
  unfold mbind, M_bind, StateExn.get, StateExn.lift.
  destruct (_validate_input (base self) X st) as [x|e] eqn:Hv; [|discriminate].
  intros Hrun. unfold _validate_input in Hv.
  destruct X as [x0| | |]; try discriminate.
  destruct (frames st !! x0) as [df|] eqn:Hdf; [|discriminate].
  assert (x = x0) as ->.
  { destruct (is_fitted_ (base self)); [destruct (feature_names_ (base self))|];
      [destruct (bool_decide _)| |]; congruence. }
  exists x0, df. auto.
Qed.

Lemma copy_run X st df :
  frames st !! X = Some df ->
  copy X st = (Ok (fresh (dom (frames st))),
               {| frames := <[fresh (dom (frames st)) := df]> (frames st);
                  divisors := divisors st |}).
Proof. intros Hdf. unfold copy, mbind, M_bind, deref, alloc. rewrite Hdf. reflexivity. Qed.

(** *** The imputer: the same columns and rows *)

Lemma frame_setitem_shaped x' name s names n st :
  shaped x' names n st -> name ∈ names ->
  shaped x' names n (snd (frame_setitem x' name s st)).
Proof.
  intros (df' & Hd & Hl & Hn) Hin.
  destruct (frame_setitem_run x' name s st df' Hd) as [[e ->]| ->]; simpl.
  - exists df'. auto.
  - eexists. split; [apply lookup_insert_eq|]. simpl. split; [|exact Hn].
    unfold labels in *. simpl. rewrite <- Hl. apply keys_set_present.
    unfold PyDict.keys. rewrite Hl. exact Hin.
Qed.

Lemma frame_setitem_array_shaped x' targets a names n st :
  shaped x' names n st -> (forall name, name ∈ targets -> name ∈ names) ->
  shaped x' names n (snd (frame_setitem_array x' targets a st)).
Proof.
  intros Hs Hsub. pose proof Hs as (df' & Hd & _).
  unfold frame_setitem_array, mbind, M_bind, deref. rewrite Hd.
  destruct (_ || _); [exact Hs|].
  apply (for_each_invariant (shaped x' names n)); [|exact Hs].
  intros [name c] s Hin Hshaped. apply frame_setitem_shaped; [exact Hshaped|].
  apply Hsub. apply elem_of_zip_l in Hin. exact Hin.
Qed.

Context `{Library.t}.

Lemma imputer_column_shaped self x' item names n st :
  shaped x' names n st ->
  shaped x' names n (snd (SmartMissingValueImputer._transform_column self x' item st)).
Proof.
  intros Hs. pose proof Hs as (df' & Hd & Hl & Hn).
  unfold SmartMissingValueImputer._transform_column. destruct item as [column imputer].
  unfold mbind at 1, M_bind at 1. rewrite (columns_of_run x' st df' Hd).
  destruct (bool_decide (column ∉ labels df')) eqn:Hcol; [exact Hs|].
  apply bool_decide_eq_false_1 in Hcol.
  assert (column ∈ names) as Hin.
  { rewrite <- Hl. destruct (decide (column ∈ labels df')); [assumption | contradiction]. }
  unfold mbind at 1, M_bind at 1, StateExn.lift at 1.
  destruct (PyDict.item _ column) as [strategy|e]; [|exact Hs].
  unfold mbind at 1, M_bind at 1, deref at 1. rewrite Hd.
  destruct (bool_decide (strategy = "knn")).
  - unfold mbind at 1, M_bind at 1, StateExn.lift at 1.
    destruct (subframe df' _) as [sub|e]; [|exact Hs].
    unfold mbind at 1, M_bind at 1, StateExn.lift at 1.
    destruct (Library.imputer_transform imputer sub) as [a|e]; [|exact Hs].
    apply frame_setitem_array_shaped; [exact Hs|].
    intros name Hname. rewrite <- Hl. unfold select_dtypes in Hname.
    apply list_elem_of_fmap in Hname as (c & -> & Hc).
    apply list_elem_of_filter in Hc as [_ Hc].
    unfold labels. apply list_elem_of_fmap. exists c. auto.
  - unfold mbind at 1, M_bind at 1, StateExn.lift at 1.
    destruct (subframe df' _) as [sub|e]; [|exact Hs].
    unfold mbind at 1, M_bind at 1, StateExn.lift at 1.
    destruct (Library.imputer_transform imputer sub) as [a|e]; [|exact Hs].
    apply frame_setitem_array_shaped; [exact Hs|].
    intros name Hname. apply list_elem_of_singleton in Hname. subst name. exact Hin.
Qed.

Lemma imputer_impl_shape self X st df r st' :
  frames st !! X = Some df ->
  SmartMissingValueImputer.transform_impl self X st = (Ok r, st') ->
  exists df', frames st' !! r = Some df' /\ same_shape df df'.
Proof.
  intros Hdf. unfold SmartMissingValueImputer.transform_impl.
  unfold mbind at 1, M_bind at 1. rewrite (copy_run X st df Hdf).
  set (x' := fresh (dom (frames st))). set (st1 := {| frames := _ |}).
  intros Hrun. apply bind_inv_ok in Hrun as ([] & st2 & Hloop & Hret).
  injection Hret as <- <-.
  assert (shaped x' (labels df) (index_len df) st1) as Hs1.
  { exists df. split; [apply lookup_insert_eq | auto]. }
  pose proof (for_each_invariant (shaped x' (labels df) (index_len df))
                (SmartMissingValueImputer.imputers_ self)
                (SmartMissingValueImputer._transform_column self x')
                (fun item s _ Hs => imputer_column_shaped self x' item _ _ s Hs) st1 Hs1)
    as Hs2.
  rewrite Hloop in Hs2. destruct Hs2 as (df' & Hd' & Hl' & Hn').
  exists df'. split; [exact Hd'|]. split; assumption.
Qed.

(** X8. What the imputer returns has the shape of what it was given: when
    [transform] of a [SmartMissingValueImputer] returns, the new frame has the
    columns of the input, in the same order, and the same number of rows. *)
Theorem imputer_transform_keeps_shape (self : SmartMissingValueImputer.t) (x : loc)
    (st : Store.t) (df : DataFrame) (r : loc) (st' : Store.t) :
  frames st !! x = Some df ->
  transform self (PFrame x) st = (Ok r, st') ->
  exists df', frames st' !! r = Some df' /\ same_shape df df'.
Proof.
  intros Hdf Hrun.
  apply transform_ok_impl in Hrun as (x0 & df0 & [= <-] & _ & Himpl).
  exact (imputer_impl_shape self x st df r st' Hdf Himpl).
Qed.

(** *** The engineer: columns are added after the input's *)

Lemma grows_by_refl x' st : grows_by x' 0 st st.
Proof.
  intros df Hdf. exists df. split; [exact Hdf|]. exists [].
  rewrite app_nil_r. simpl. auto.
Qed.

Lemma grows_by_trans x' c1 c2 st1 st2 st3 :
  grows_by x' c1 st1 st2 -> grows_by x' c2 st2 st3 -> grows_by x' (c1 + c2) st1 st3.
Proof.
  intros H12 H23 df Hdf.
  destruct (H12 df Hdf) as (df2 & Hd2 & added2 & Hl2 & Hn2 & Hc2).
  destruct (H23 df2 Hd2) as (df3 & Hd3 & added3 & Hl3 & Hn3 & Hc3).
  exists df3. split; [exact Hd3|]. exists (added2 ++ added3).
  rewrite Hl3, Hl2, <- app_assoc, length_app. split; [reflexivity|].
  split; [congruence | lia].
Qed.

Lemma grows_by_weaken x' c c' st st' :
  (c <= c')%nat -> grows_by x' c st st' -> grows_by x' c' st st'.
Proof.
  intros Hle Hg df Hdf. destruct (Hg df Hdf) as (df' & Hd' & added & Hl & Hn & Hc).
  exists df'. split; [exact Hd'|]. exists added. split; [exact Hl|]. split; [exact Hn | lia].
Qed.

Lemma appends_weaken x' c c' {A} (m : M Store.t A) :
  (c <= c')%nat -> appends x' c m -> appends x' c' m.
Proof. intros Hle Hm st. exact (grows_by_weaken x' c c' _ _ Hle (Hm st)). Qed.

Lemma appends_same x' c {A} (m : M Store.t A) :
  (forall st, frames (snd (m st)) = frames st) -> appends x' c m.
Proof.
  intros Hm st df Hdf. exists df. rewrite Hm. split; [exact Hdf|].
  exists []. rewrite app_nil_r. simpl. split; [reflexivity|]. split; [reflexivity | lia].
Qed.

Lemma appends_ret x' c {A} (a : A) : appends x' c (mret a).
Proof. apply appends_same. reflexivity. Qed.

Lemma appends_lift x' c {A} (r : result A) : appends x' c (lift r).
Proof. apply appends_same. reflexivity. Qed.

Lemma appends_columns_of x' c x : appends x' c (columns_of x).
Proof.
  apply appends_same. intros st. unfold columns_of, mbind, M_bind, deref.
  destruct (frames st !! x); reflexivity.
Qed.

Lemma appends_frame_getitem x' c x name : appends x' c (frame_getitem x name).
Proof.
  apply appends_same. intros st. unfold frame_getitem, mbind, M_bind, deref, StateExn.lift.
  destruct (frames st !! x); reflexivity.
Qed.

Lemma appends_bind_ok x' c1 c2 {A B} (Q : A -> Prop) (m : M Store.t A) (k : A -> M Store.t B) :
  appends x' c1 m ->
  (forall s a s', m s = (Ok a, s') -> Q a) ->
  (forall a, Q a -> appends x' c2 (k a)) ->
  appends x' (c1 + c2) (m ≫= k).
Proof.
  intros Hm HQ Hk st. unfold mbind, M_bind.
  pose proof (Hm st) as Hst. destruct (m st) as [[a|e] st1] eqn:Hrun; simpl in *.
  - apply (grows_by_trans x' c1 c2 st st1); [exact Hst|].
    apply Hk. exact (HQ st a st1 Hrun).
  - apply (grows_by_weaken x' c1); [lia | exact Hst].
Qed.

Lemma appends_bind x' c1 c2 {A B} (m : M Store.t A) (k : A -> M Store.t B) :
  appends x' c1 m -> (forall a, appends x' c2 (k a)) -> appends x' (c1 + c2) (m ≫= k).
Proof.
  intros Hm Hk. apply (appends_bind_ok x' c1 c2 (fun _ => True)); auto.
Qed.

Lemma appends_for_each x' c {A} (l : list A) (body : A -> M Store.t unit) :
  (forall a, a ∈ l -> appends x' c (body a)) ->
  appends x' (length l * c) (for_each l body).
Proof.
  induction l as [|a l IH]; intros Hbody; simpl.
  - apply appends_ret.
  - apply appends_bind.
    + apply Hbody. apply list_elem_of_here.
    + intros _. apply IH. intros a' Hin. apply Hbody. apply list_elem_of_further. exact Hin.
Qed.

Lemma appends_frame_setitem x' name s : appends x' 1 (frame_setitem x' name s).
Proof.
  intros st df Hdf.
  destruct (frame_setitem_run x' name s st df Hdf) as [[e ->]| ->]; simpl.
  - exists df. split; [exact Hdf|]. exists []. rewrite app_nil_r. simpl. auto.
  - eexists. split; [apply lookup_insert_eq|].
    unfold extends_by, labels. simpl. fold (PyDict.keys (PyDict.set (columns df) name s)).
    rewrite keys_set. destruct (bool_decide _).
    + exists []. rewrite app_nil_r. simpl. auto.
    + exists [name]. simpl. auto.
Qed.

Lemma appends_derive x' name source f :
  appends x' 1 (AdvancedFeatureEngineer.derive x' name source f).
Proof.
  unfold AdvancedFeatureEngineer.derive.
  apply (appends_bind x' 0 1); [apply appends_frame_getitem | intros s].
  apply (appends_bind x' 0 1); [apply appends_lift | intros s'].
  apply appends_frame_setitem.
Qed.

(** Writing back to the column that was read adds nothing. *)
Lemma appends_derive_same x' col f :
  appends x' 0 (AdvancedFeatureEngineer.derive x' col col f).
Proof.
  intros st df Hdf. unfold AdvancedFeatureEngineer.derive.
  unfold mbind at 1, M_bind at 1. rewrite (frame_getitem_run x' col st df Hdf).
  assert (Hsame : exists df', frames st !! x' = Some df' /\ extends_by 0 df df').
  { exists df. split; [exact Hdf|]. exists []. rewrite app_nil_r. simpl. auto. }
  destruct (getitem df col) as [s|e] eqn:Hg; [|exact Hsame].
  unfold mbind at 1, M_bind at 1, StateExn.lift at 1.
  destruct (f s) as [s'|e]; [|exact Hsame].
  destruct (frame_setitem_run x' col s' st df Hdf) as [[e ->]| ->]; simpl; [exact Hsame|].
  eexists. split; [apply lookup_insert_eq|].
  exists []. rewrite app_nil_r. simpl. split; [|auto].
  apply keys_set_present. apply getitem_ok in Hg. exact (get_Some_key _ _ _ Hg).
Qed.

Lemma appends_date_features_of x' col :
  appends x' 10 (AdvancedFeatureEngineer.date_features_of x' col).
Proof.
  unfold AdvancedFeatureEngineer.date_features_of.
  apply (appends_bind x' 0 10); [apply appends_columns_of | intros cols].
  destruct (bool_decide _); [apply appends_ret|].
  apply (appends_bind x' 0 10); [apply appends_frame_getitem | intros s].
  apply (appends_bind x' 0 10).
  { destruct (bool_decide _); [apply appends_derive_same | apply appends_ret]. }
  intros _.
  apply (appends_bind x' 1 9); [apply appends_derive | intros _].
  apply (appends_bind x' 1 8); [apply appends_derive | intros _].
  apply (appends_bind x' 1 7); [apply appends_derive | intros _].
  apply (appends_bind x' 1 6); [apply appends_derive | intros _].
  apply (appends_bind x' 1 5); [apply appends_derive | intros _].
  apply (appends_bind x' 1 4); [apply appends_derive | intros _].
  apply (appends_bind x' 1 3); [apply appends_derive | intros _].
  apply (appends_bind x' 1 2); [apply appends_derive | intros _].
  apply (appends_bind x' 1 1); [apply appends_derive | intros _].
  apply appends_derive.
Qed.

Lemma appends_polynomial_features_of self x' col :
  appends x' (Z.to_nat (AdvancedFeatureEngineer.polynomial_degree self - 1))
          (AdvancedFeatureEngineer.polynomial_features_of self x' col).
Proof.
  unfold AdvancedFeatureEngineer.polynomial_features_of.
  apply (appends_bind x' 0); [apply appends_columns_of | intros cols].
  destruct (bool_decide _); [apply appends_ret|].
  eapply appends_weaken; [|apply appends_for_each; intros degree _; apply appends_derive].
  unfold AdvancedFeatureEngineer.degrees. rewrite length_map, length_seq, Nat.mul_1_r. apply Nat.le_refl.
Qed.

Lemma appends_interaction_features_of x' pair :
  appends x' 2 (AdvancedFeatureEngineer.interaction_features_of x' pair).
Proof.
  unfold AdvancedFeatureEngineer.interaction_features_of. destruct pair as [col1 col2].
  apply (appends_bind x' 0 2); [apply appends_columns_of | intros cols].
  destruct (_ || _); [apply appends_ret|].
  apply (appends_bind x' 0 2); [apply appends_frame_getitem | intros a].
  apply (appends_bind x' 0 2); [apply appends_frame_getitem | intros b].
  apply (appends_bind x' 0 2); [apply appends_lift | intros product].
  apply (appends_bind x' 1 1); [apply appends_frame_setitem | intros _].
  apply (appends_bind x' 0 1); [apply appends_frame_getitem | intros a'].
  apply (appends_bind x' 0 1); [apply appends_frame_getitem | intros b'].
  apply (appends_bind x' 0 1); [apply appends_lift | intros divisor].
  apply (appends_bind x' 0 1); [|intros ratio; apply appends_frame_setitem].
  apply appends_same. reflexivity.
Qed.

(** The pairs out of [n] columns are [n (n - 1) / 2]. *)
Lemma combinations2_length (l : list string) :
  (2 * length (AdvancedFeatureEngineer.combinations2 l) = length l * (length l - 1))%nat.
Proof.
  induction l as [|a l IH]; simpl; [reflexivity|].
  rewrite length_app, length_map. nia.
Qed.

Lemma appends_date_features self x' :
  appends x' (10 * length (AdvancedFeatureEngineer.date_columns_ self))
          (AdvancedFeatureEngineer._create_date_features self x').
Proof.
  unfold AdvancedFeatureEngineer._create_date_features.
  apply (appends_weaken x' (length (AdvancedFeatureEngineer.date_columns_ self) * 10 + 0));
    [lia|].
  apply appends_bind; [|intros _; apply appends_ret].
  apply appends_for_each. intros col _. apply appends_date_features_of.
Qed.

Lemma appends_polynomial_features self x' :
  appends x' (5 * Z.to_nat (AdvancedFeatureEngineer.polynomial_degree self - 1))
          (AdvancedFeatureEngineer._create_polynomial_features self x').
Proof.
  unfold AdvancedFeatureEngineer._create_polynomial_features.
  apply (appends_weaken x'
           (length (firstn 5 (AdvancedFeatureEngineer.numeric_columns_ self))
            * Z.to_nat (AdvancedFeatureEngineer.polynomial_degree self - 1) + 0)).
  { pose proof (firstn_le_length 5 (AdvancedFeatureEngineer.numeric_columns_ self)). nia. }
  apply appends_bind; [|intros _; apply appends_ret].
  apply appends_for_each. intros col _. apply appends_polynomial_features_of.
Qed.

Lemma appends_interaction_features self x' :
  appends x' 90 (AdvancedFeatureEngineer._create_interaction_features self x').
Proof.
  unfold AdvancedFeatureEngineer._create_interaction_features.
  apply (appends_weaken x'
           (length (AdvancedFeatureEngineer.combinations2
                      (firstn 10 (AdvancedFeatureEngineer.numeric_columns_ self))) * 2 + 0)).
  { pose proof (combinations2_length
                  (firstn 10 (AdvancedFeatureEngineer.numeric_columns_ self))).
    pose proof (firstn_le_length 10 (AdvancedFeatureEngineer.numeric_columns_ self)). nia. }
  apply appends_bind; [|intros _; apply appends_ret].
  apply appends_for_each. intros pair _. apply appends_interaction_features_of.
Qed.

Lemma appends_stage x' c (b : bool) (f : loc -> M Store.t loc) :
  appends x' c (f x') -> appends x' c (if b then f x' else mret x').
Proof. intros Hf. destruct b; [exact Hf | apply appends_ret]. Qed.

Lemma engineer_stages_append self x' :
  appends x' (feature_budget self)
    (X_transformed ←
       (if AdvancedFeatureEngineer.create_date_features self
        then AdvancedFeatureEngineer._create_date_features self x'
        else mret x');
     X_transformed ←
       (if AdvancedFeatureEngineer.create_polynomials self
           && (0 <? length (AdvancedFeatureEngineer.numeric_columns_ self))%nat
        then AdvancedFeatureEngineer._create_polynomial_features self X_transformed
        else mret X_transformed);
     X_transformed ←
       (if AdvancedFeatureEngineer.create_interactions self
           && (1 <? length (AdvancedFeatureEngineer.numeric_columns_ self))%nat
        then AdvancedFeatureEngineer._create_interaction_features self X_transformed
        else mret X_transformed);
     mret X_transformed).
Proof.
  unfold feature_budget. rewrite <- Nat.add_assoc.
  apply (appends_bind_ok x' _ _ (fun a => a = x')).
  { apply appends_stage. apply appends_date_features. }
  { intros s a s'. apply stage_returns. apply date_features_returns. }
  intros ? ->.
  apply (appends_bind_ok x' _ _ (fun a => a = x')).
  { apply appends_stage. apply appends_polynomial_features. }
  { intros s a s'. apply stage_returns. apply polynomial_features_returns. }
  intros ? ->. rewrite <- (Nat.add_0_r 90).
  apply (appends_bind_ok x' _ _ (fun a => a = x')).
  { apply appends_stage. apply appends_interaction_features. }
  { intros s a s'. apply stage_returns. apply interaction_features_returns. }
  intros ? ->. apply appends_ret.
Qed.

Lemma engineer_impl_appends self X st df r st' :
  frames st !! X = Some df ->
  AdvancedFeatureEngineer.transform_impl self X st = (Ok r, st') ->
  exists df', frames st' !! r = Some df' /\ extends_by (feature_budget self) df df'.
Proof.
  intros Hdf Hrun.
  pose proof (engineer_impl_fresh self X st r st' Hrun) as _.
  unfold AdvancedFeatureEngineer.transform_impl in Hrun.
  unfold mbind at 1, M_bind at 1 in Hrun. rewrite (copy_run X st df Hdf) in Hrun.
  set (x' := fresh (dom (frames st))) in *. set (st1 := {| frames := _ |}) in *.
  pose proof (engineer_stages_append self x' st1 df (lookup_insert_eq _ _ _)) as Hgrow.
  rewrite Hrun in Hgrow. simpl in Hgrow.
  assert (r = x') as ->; [|exact Hgrow].
  apply bind_inv_ok in Hrun as (x1 & s1 & H1 & Hrun).
  apply stage_returns in H1; [subst x1 | apply date_features_returns].
  apply bind_inv_ok in Hrun as (x2 & s2 & H2 & Hrun).
  apply stage_returns in H2; [subst x2 | apply polynomial_features_returns].
  apply bind_inv_ok in Hrun as (x3 & s3 & H3 & Hrun).
  apply stage_returns in H3; [subst x3 | apply interaction_features_returns].
  injection Hrun as <- _. reflexivity.
Qed.

(** X9. The engineer only adds columns, and not without bound: when
    [transform] of an [AdvancedFeatureEngineer] returns, the new frame has
    the rows of the input and the input's columns first, in their order, and
    after them at most ten columns for each date column, one for each degree
    from 2 to [polynomial_degree] for each of five numeric columns, and 90
    for the pairs (two for each of the at most 45 pairs out of ten numeric
    columns). *)
Theorem engineer_transform_appends (self : AdvancedFeatureEngineer.t) (x : loc)
    (st : Store.t) (df : DataFrame) (r : loc) (st' : Store.t) :
  frames st !! x = Some df ->
  transform self (PFrame x) st = (Ok r, st') ->
  exists df', frames st' !! r = Some df' /\ extends_by (feature_budget self) df df'.
Proof.
  intros Hdf Hrun.
  apply transform_ok_impl in Hrun as (x0 & df0 & [= <-] & _ & Himpl).
  exact (engineer_impl_appends self x st df r st' Hdf Himpl).
Qed.

End TransformShape.

Section TransformShapeWitness.
Import Pandas Store TypeSafeFeatureTransformer Statements.
#[local] Existing Instance Examples.plain_library.

Lemma imputer_transform_keeps_shape_witness :
  exists df',
    frames (snd (transform Examples.fitted_imputer (PFrame 1%positive) Examples.store))
      !! 2%positive = Some df'
    /\ same_shape Examples.people df'.
Proof.
  apply (imputer_transform_keeps_shape Examples.fitted_imputer 1%positive Examples.store
           Examples.people 2%positive).
  - reflexivity.
  - vm_compute. reflexivity.
Defined.

Lemma engineer_transform_appends_witness :
  exists df',
    frames (snd (transform Examples.people_engineer (PFrame 1%positive) Examples.store))
      !! 2%positive = Some df'
    /\ extends_by 105 Examples.people df'.
Proof.
  apply (engineer_transform_appends Examples.people_engineer 1%positive Examples.store
           Examples.people 2%positive).
  - reflexivity.
  - vm_compute. reflexivity.
Defined.

End TransformShapeWitness.

(** ** What the trainer refuses, and what it returns *)

Section TrainerResults.
Import Trace Sklearn MLOpsModelTrainer DataSciencePipeline Statements.
Context `{Sklearn.t}.

(** X10. What [train_model] refuses before it builds a model. A model type
    the trainer does not know raises [KeyError]; a [random_state] among the
    hyperparameters raises [TypeError], the constructor being given that
    keyword twice. Either way the MLflow run was started and the parameters
    were logged, and no other call was made. *)
Theorem train_model_refusals (self : MLOpsModelTrainer.t)
    (X_train y_train X_test y_test : string) (config : ModelConfig) :
  (PyDict.get (models self) (model_type config) = None ->
     train_model self X_train y_train X_test y_test config
     = (Raise (KeyError (model_type config)), calls_before_model config))
  /\ (is_Some (PyDict.get (models self) (model_type config)) ->
      "random_state" ∈ PyDict.keys (hyperparameters config) ->
      train_model self X_train y_train X_test y_test config
      = (Raise (TypeError "got multiple values for keyword argument"),
         calls_before_model config)).
Proof.
  split.
  - intros Hget. unfold train_model, PyDict.item. rewrite Hget. reflexivity.
  - intros [cls Hget] Hin. unfold train_model, PyDict.item. rewrite Hget.
    unfold construct. rewrite bool_decide_eq_false_2; [reflexivity|].
    cbn [map fst]. intros Hnd. apply NoDup_cons in Hnd as [Hout _]. exact (Hout Hin).
Qed.

(** What a run of [train_model] that returns gives back. *)
Lemma train_model_ok self X_train y_train X_test y_test config trained log :
  train_model self X_train y_train X_test y_test config = (Ok trained, log) ->
  trained_as self (model_type config) trained.
Proof.
  unfold train_model. intros Hrun.
  apply W_bind_ok in Hrun as ([] & l1 & l2 & _ & Hrun & _).
  apply W_bind_ok in Hrun as ([] & l3 & l4 & _ & Hrun & _).
  apply W_bind_ok in Hrun as (cls & l5 & l6 & Hcls & Hrun & _).
  apply W_bind_ok in Hrun as (m0 & l7 & l8 & Hcons & Hrun & _).
  apply W_bind_ok in Hrun as (m1 & l9 & l10 & Hfit & Hrun & _).
  apply W_bind_ok in Hrun as (metrics & l11 & l12 & _ & Hrun & _).
  apply W_bind_ok in Hrun as ([] & l13 & l14 & _ & Hrun & _).
  apply W_bind_ok in Hrun as ([] & l15 & l16 & _ & Hrun & _).
  apply W_bind_ok in Hrun as ([] & l17 & l18 & _ & Hrun & _).
  injection Hrun as <- _.
  unfold liftW, PyDict.item in Hcls.
  destruct (PyDict.get (models self) (model_type config)) as [cls'|] eqn:Hget;
    [|discriminate].
  injection Hcls as -> _.
  apply construct_class in Hcons.
  pose proof (estimator_fit_class _ _ _ _ _ Hfit) as Hclass.
  unfold estimator_fit in Hfit.
  apply W_bind_ok in Hfit as ([] & l19 & l20 & _ & Hfit & _).
  apply W_bind_ok in Hfit as ([] & l21 & l22 & _ & Hfit & _).
  injection Hfit as <- _.
  split; simpl; [congruence | reflexivity].
Qed.

Lemma mem_set {V} (d : PyDict.dict V) k v k' :
  k' ∈ PyDict.keys (PyDict.set d k v) <-> k' = k \/ k' ∈ PyDict.keys d.
Proof.
  rewrite keys_set. destruct (bool_decide (k ∈ PyDict.keys d)) eqn:E.
  - apply bool_decide_eq_true_1 in E. split; [auto|]. intros [-> | Hin]; assumption.
  - rewrite elem_of_app, list_elem_of_singleton. tauto.
Qed.

Lemma nodup_keys_set {V} (d : PyDict.dict V) k v :
  NoDup (PyDict.keys d) -> NoDup (PyDict.keys (PyDict.set d k v)).
Proof.
  intros Hnd. rewrite keys_set. destruct (bool_decide (k ∈ PyDict.keys d)) eqn:E;
    [exact Hnd|].
  apply bool_decide_eq_false_1 in E. apply NoDup_app. split; [exact Hnd|].
  split; [|apply NoDup_singleton].
  intros x Hx Hk. apply list_elem_of_singleton in Hk. subst x. exact (E Hx).
Qed.

(** The loop of [train_models], when it returns. *)
Lemma train_each_ok trainer X_train y_train X_test y_test (l : list string) :
  forall acc results log,
    train_each trainer X_train y_train X_test y_test l acc = (Ok results, log) ->
    NoDup (PyDict.keys acc) ->
    (forall mt entry, PyDict.get acc mt = Some entry -> trained_as trainer mt entry) ->
    (forall mt, mt ∈ l -> mt ∈ default_models)
    /\ NoDup (PyDict.keys results)
    /\ (forall mt, mt ∈ PyDict.keys results <-> mt ∈ l \/ mt ∈ PyDict.keys acc)
    /\ (forall mt entry, PyDict.get results mt = Some entry -> trained_as trainer mt entry).
Proof.
  induction l as [|mt l IH]; intros acc results log Hrun Hnd Hacc.
  - injection Hrun as <- _. split; [intros mt Hin; apply elem_of_nil in Hin; contradiction|].
    split; [exact Hnd|]. split; [|exact Hacc].
    intros mt. rewrite elem_of_nil. tauto.
  - cbn [train_each] in Hrun.
    apply W_bind_ok in Hrun as (cfg & l1 & l2 & Hcfg & Hrun & _).
    apply W_bind_ok in Hrun as (trained & l3 & l4 & Htrain & Hrun & _).
    unfold liftW in Hcfg. injection Hcfg as Hcfg _.
    assert (model_type cfg = mt /\ mt ∈ default_models) as [Hmt Hknown].
    { destruct (item_configs mt cfg Hcfg) as [[-> ->]|[[-> ->]|[-> ->]]];
        (split; [reflexivity | apply (bool_decide_unpack _); vm_compute; exact I]). }
    pose proof (train_model_ok _ _ _ _ _ _ _ _ Htrain) as Hgood. rewrite Hmt in Hgood.
    destruct (IH _ _ _ Hrun (nodup_keys_set acc mt trained Hnd)) as (Hall & Hnd' & Hkeys & Hres).
    { intros mt' entry Hget. destruct (decide (mt = mt')) as [<-|Hne].
      - rewrite get_set_eq in Hget. injection Hget as <-. exact Hgood.
      - rewrite get_set_ne in Hget by exact Hne. exact (Hacc mt' entry Hget). }
    split; [|split; [exact Hnd'|split; [|exact Hres]]].
    + intros mt' Hin. apply elem_of_cons in Hin as [->|Hin]; [exact Hknown | exact (Hall mt' Hin)].
    + intros mt'. rewrite Hkeys, mem_set, elem_of_cons. tauto.
Qed.


End TrainerResults.

Section TrainerResultsWitness.
Import Trace Sklearn MLOpsModelTrainer DataSciencePipeline Statements.
#[local] Existing Instance Examples.plain_sklearn.

Lemma train_model_refusals_witness :
  train_model Examples.trainer "X_train" "y_train" "X_test" "y_test"
    (default_config "svm" [])
  = (Raise (KeyError "svm"), calls_before_model (default_config "svm" []))
  /\ train_model Examples.trainer "X_train" "y_train" "X_test" "y_test"
       (default_config "random_forest" [("random_state", VI 7)])
     = (Raise (TypeError "got multiple values for keyword argument"),
        calls_before_model (default_config "random_forest" [("random_state", VI 7)])).
Proof.
  split.
  - apply (proj1 (train_model_refusals Examples.trainer "X_train" "y_train" "X_test" "y_test"
                    (default_config "svm" []))).
    reflexivity.
  - apply (proj2 (train_model_refusals Examples.trainer "X_train" "y_train" "X_test" "y_test"
                    (default_config "random_forest" [("random_state", VI 7)]))).
    + eexists. reflexivity.
    + apply list_elem_of_here.
Defined.


End TrainerResultsWitness.

(** ** Saved models side by side *)

Section SavedModels.
Import MLOpsModelTrainer Statements.
Context {Obj : Type} `{Pickle Obj}.

(** [joblib.dump] writes to its own file only, however it ends. *)
Lemma joblib_dump_other (value : Obj) filename fs q :
  q <> filename -> snd (joblib_dump value filename fs) !! q = fs !! q.
Proof.
  intros Hne.
  unfold joblib_dump, mbind, M_bind, StateExn.get, StateExn.put, StateExn.lift.
  destruct (fs !! filename) as [[content|]|]; simpl; try reflexivity;
    (destruct (dumps value) as [bytes|e]; simpl; apply lookup_insert_ne; congruence).
Qed.

Lemma joblib_load_unchanged filename fs : snd (joblib_load (Obj := Obj) filename fs) = fs.
Proof.
  unfold joblib_load, mbind, M_bind, StateExn.get, StateExn.lift.
  destruct (fs !! filename) as [[content|]|]; reflexivity.
Qed.


End SavedModels.

Section SavedModelsWitness.
Import MLOpsModelTrainer Statements.
#[local] Existing Instance Examples.text_pickle.


End SavedModelsWitness.

(** ** Loading a file *)

Section Loading.
Import Pandas FileSystem PandasIO ModernDataLoader DataLoading Statements.
Context `{Library.t} `{PandasIO.t}.

(** *** Dtype optimisation does not look at the configuration *)

Lemma config_free_ret {A} (a : A) : config_free (mret a).
Proof. intros cfg self. reflexivity. Qed.

Lemma config_free_bind {A B} (m : M ModernDataLoader.t A) (k : A -> M ModernDataLoader.t B) :
  config_free m -> (forall a, config_free (k a)) -> config_free (m ≫= k).
Proof.
  intros Hm Hk cfg self. unfold mbind, M_bind. rewrite (Hm cfg self).
  destruct (m self) as [[a|e] self1]; simpl; [|reflexivity].
  apply Hk.
Qed.

Lemma config_free_for_each {A} (l : list A) (body : A -> M ModernDataLoader.t unit) :
  (forall a, config_free (body a)) -> config_free (for_each l body).
Proof.
  intros Hbody. induction l as [|a l IH]; simpl.
  - apply config_free_ret.
  - apply config_free_bind; [apply Hbody | intros _; exact IH].
Qed.

Lemma config_free_get_column col : config_free (get_column col).
Proof.
  intros cfg self. unfold get_column, mbind, M_bind, StateExn.get, StateExn.lift,
    StateExn.raise, with_config. simpl.
  destruct (_data self) eqn:E; simpl; rewrite ?E; reflexivity.
Qed.

Lemma config_free_set_column col s : config_free (set_column col s).
Proof.
  intros cfg self. unfold set_column, mbind, M_bind, StateExn.get, StateExn.lift,
    StateExn.raise, StateExn.put, with_config. simpl.
  destruct (_data self) as [df|] eqn:E; simpl; rewrite ?E; [|reflexivity].
  destruct (setitem df col s); simpl; rewrite ?E; reflexivity.
Qed.

Lemma config_free_columns_of_dtype dt : config_free (columns_of_dtype dt).
Proof.
  intros cfg self. unfold columns_of_dtype, mbind, M_bind, StateExn.get, with_config. simpl.
  destruct (_data self) eqn:E; simpl; rewrite ?E; reflexivity.
Qed.

Lemma config_free_optimize_int col : config_free (optimize_int_column col).
Proof.
  unfold optimize_int_column.
  apply config_free_bind; [apply config_free_get_column | intros s].
  destruct (list_min _); [|apply config_free_ret].
  destruct (list_max _); [|apply config_free_ret].
  destruct (downcast_target _ _); [apply config_free_set_column | apply config_free_ret].
Qed.

Lemma config_free_optimize_float col : config_free (optimize_float_column col).
Proof.
  unfold optimize_float_column.
  apply config_free_bind; [apply config_free_get_column | intros s].
  apply config_free_set_column.
Qed.

Lemma config_free_get {A} (f : ModernDataLoader.t -> M ModernDataLoader.t A) :
  (forall cfg self, f (with_config cfg self) = f self) ->
  (forall self, config_free (f self)) ->
  config_free (StateExn.get ≫= f).
Proof.
  intros Hf Hfree cfg self. unfold mbind, M_bind, StateExn.get.
  rewrite Hf. apply Hfree.
Qed.

Lemma config_free_optimize_object col : config_free (optimize_object_column col).
Proof.
  unfold optimize_object_column. apply config_free_get; [reflexivity|].
  intros self.
  apply config_free_bind; [apply config_free_get_column | intros s].
  destruct (_data self) as [df|]; [|apply config_free_ret].
  destruct (Nat.eqb (index_len df) 0); [intros cfg self'; reflexivity|].
  destruct (Qle_bool _ _); [apply config_free_ret | apply config_free_set_column].
Qed.

Lemma config_free_optimize_dtypes : config_free _optimize_dtypes.
Proof.
  unfold _optimize_dtypes. apply config_free_get; [reflexivity|].
  intros self. destruct (_data self) as [df|]; [|apply config_free_ret].
  apply config_free_bind; [apply config_free_columns_of_dtype | intros int_cols].
  apply config_free_bind;
    [apply config_free_for_each, config_free_optimize_int | intros _].
  apply config_free_bind; [apply config_free_columns_of_dtype | intros float_cols].
  apply config_free_bind;
    [apply config_free_for_each, config_free_optimize_float | intros _].
  apply config_free_bind; [apply config_free_columns_of_dtype | intros object_cols].
  apply config_free_for_each, config_free_optimize_object.
Qed.

Lemma with_config_same (self : ModernDataLoader.t) : with_config (config self) self = self.
Proof. destruct self. reflexivity. Qed.

Lemma optimize_dtypes_config self :
  config (snd (_optimize_dtypes self)) = config self.
Proof.
  pose proof (config_free_optimize_dtypes (config self) self) as Hfree.
  rewrite with_config_same in Hfree. rewrite Hfree. reflexivity.
Qed.

(** What [load_pandas] does once the frame [df0] is read. *)
Lemma load_pandas_after_read fs self df0 :
  frame_read fs (config self) = Some (Ok df0) ->
  load_pandas fs self
  = (_optimize_dtypes;; self' ← StateExn.get; mret (_data self'))
      {| config := config self; _data := Some df0 |}.
Proof.
  unfold frame_read, load_pandas.
  unfold mbind at 1, M_bind at 1, StateExn.get at 1.
  unfold mbind at 1, M_bind at 1.
  repeat (destruct (bool_decide _);
          [intros [= Hread]; unfold mbind at 1, M_bind at 1, StateExn.lift at 1;
           rewrite Hread; reflexivity|]).
  discriminate.
Qed.

Lemma load_pandas_read_fails fs self e :
  frame_read fs (config self) = Some (Raise e) ->
  load_pandas fs self = (Raise e, self).
Proof.
  unfold frame_read, load_pandas.
  unfold mbind at 1, M_bind at 1, StateExn.get at 1.
  unfold mbind at 1, M_bind at 1.
  repeat (destruct (bool_decide _);
          [intros [= Hread]; unfold mbind at 1, M_bind at 1, StateExn.lift at 1;
           rewrite Hread; reflexivity|]).
  discriminate.
Qed.

Lemma frame_read_allowed fs cfg :
  DataConfig.file_type cfg ∈ DataConfig.allowed_types -> is_Some (frame_read fs cfg).
Proof.
  intros Hin. unfold frame_read.
  repeat match goal with
         | |- context [bool_decide (?a = ?b)] =>
             destruct (bool_decide (a = b)) eqn:?; [eexists; reflexivity|]
         end.
  exfalso. repeat match goal with
                  | E : bool_decide _ = false |- _ => apply bool_decide_eq_false_1 in E
                  end.
  unfold DataConfig.allowed_types in Hin.
  repeat (apply elem_of_cons in Hin as [Hin|Hin]; [congruence|]).
  apply elem_of_nil in Hin. exact Hin.
Qed.

(** What a run of [load_pandas] that returns has done, for a file type with
    a reader. *)
Lemma load_pandas_ok fs self r self' :
  is_Some (frame_read fs (config self)) ->
  load_pandas fs self = (Ok r, self') ->
  exists df0 df',
    frame_read fs (config self) = Some (Ok df0)
    /\ r = Some df'
    /\ _data self' = Some df'
    /\ config self' = config self
    /\ (NoDup (labels df0) -> same_shape df0 df' /\ columns_related column_kept df0 df').
Proof.
  intros [[df0|e] Hread] Hrun.
  2:{ rewrite (load_pandas_read_fails fs self e Hread) in Hrun. discriminate Hrun. }
  rewrite (load_pandas_after_read fs self df0 Hread) in Hrun.
  set (self0 := {| config := config self; _data := Some df0 |}) in *.
  apply bind_inv_ok in Hrun as ([] & self1 & Hopt & Hrun).
  unfold mbind, M_bind, StateExn.get in Hrun. injection Hrun as <- <-.
  pose proof (optimize_dtypes_config self0) as Hcfg. rewrite Hopt in Hcfg. simpl in Hcfg.
  assert (exists df', _data self1 = Some df'
            /\ (NoDup (labels df0) ->
                same_shape df0 df' /\ columns_related column_kept df0 df'))
    as (df' & Hd' & Hkept).
  { destruct (optimize_dtypes_still_loaded self0 (ex_intro _ df0 eq_refl)) as (df' & Hd').
    rewrite Hopt in Hd'. exists df'. split; [exact Hd'|].
    intros Hnd. destruct (optimize_dtypes_rel self0 df0 eq_refl Hnd) as (df'' & Hd'' & Hrest).
    rewrite Hopt in Hd''. simpl in *. assert (df'' = df') as -> by congruence. exact Hrest. }
  exists df0, df'. rewrite Hd'. auto.
Qed.

(** What [load_pandas] leaves in the loader once the frame [df0] is read,
    however it ends. *)
Lemma load_pandas_loads fs self df0 :
  frame_read fs (config self) = Some (Ok df0) ->
  exists df',
    _data (snd (load_pandas fs self)) = Some df'
    /\ config (snd (load_pandas fs self)) = config self
    /\ (forall r, fst (load_pandas fs self) = Ok r -> r = Some df')
    /\ (NoDup (labels df0) -> same_shape df0 df' /\ columns_related column_kept df0 df').
Proof.
  intros Hread. rewrite (load_pandas_after_read fs self df0 Hread).
  set (self0 := {| config := config self; _data := Some df0 |}).
  pose proof (optimize_dtypes_config self0) as Hcfg.
  destruct (optimize_dtypes_still_loaded self0 (ex_intro _ df0 eq_refl)) as (df' & Hd').
  pose proof (optimize_dtypes_rel self0 df0 eq_refl) as Hrel.
  unfold mbind, M_bind, StateExn.get.
  destruct (_optimize_dtypes self0) as [[[]|e] self1]; simpl in *;
    (exists df'; split; [exact Hd'|]; split; [exact Hcfg|]; split;
     [|intros Hnd; destruct (Hrel Hnd) as (df'' & Hd'' & Hrest);
       assert (df'' = df') as -> by congruence; exact Hrest]).
  - intros r [= <-]. exact Hd'.
  - intros r Hr. discriminate Hr.
Qed.


Lemma config_free_optimize_and_return :
  config_free (_optimize_dtypes;; self' ← StateExn.get; mret (_data self')).
Proof.
  apply config_free_bind; [apply config_free_optimize_dtypes | intros _].
  apply config_free_get; [reflexivity|]. intros self cfg self'. reflexivity.
Qed.

(** X14. For Parquet and JSON files the loading options are ignored: two
    loaders whose configurations name the same file of one of these types,
    and that hold the same frame, load the same frame, whatever their
    [encoding], [delimiter], [skip_rows], [max_rows] and [columns]. *)
Theorem load_pandas_ignores_options (fs : gmap Path node) (self self' : ModernDataLoader.t) :
  DataConfig.file_type (config self) ∈ ["parquet"; "json"] ->
  DataConfig.file_type (config self') = DataConfig.file_type (config self) ->
  DataConfig.file_path (config self') = DataConfig.file_path (config self) ->
  _data self' = _data self ->
  fst (load_pandas fs self') = fst (load_pandas fs self)
  /\ _data (snd (load_pandas fs self')) = _data (snd (load_pandas fs self)).
Proof.
  intros Htype Htype' Hpath' Hdata.
  assert (frame_read fs (config self') = frame_read fs (config self)
          /\ is_Some (frame_read fs (config self))) as [Hread' [r Hread]].
  { unfold frame_read. rewrite Htype', Hpath'.
    apply elem_of_cons in Htype as [->|Htype];
      [|apply elem_of_cons in Htype as [->|Htype]; [|apply elem_of_nil in Htype; contradiction]];
      (split; [reflexivity | eexists; reflexivity]). }
  rewrite Hread in Hread'. destruct r as [df0|e].
  - rewrite (load_pandas_after_read fs self df0 Hread),
      (load_pandas_after_read fs self' df0 Hread').
    pose proof (config_free_optimize_and_return (config self')
                  {| config := config self; _data := Some df0 |}) as Hfree.
    unfold with_config in Hfree. simpl in Hfree. rewrite Hfree. simpl. auto.
  - rewrite (load_pandas_read_fails fs self e Hread),
      (load_pandas_read_fails fs self' e Hread').
    simpl. auto.
Qed.

End Loading.

Section LoadingWitness.
Import Pandas FileSystem PandasIO ModernDataLoader DataLoading Statements.
#[local] Existing Instance Examples.plain_library.
#[local] Existing Instance Examples.people_reader.


Lemma load_pandas_ignores_options_witness :
  fst (load_pandas Examples.disk
         (ModernDataLoader.__init__
            (DataConfig.mk "people.parquet" "parquet" "latin-1" ";" 5 (Some 10%Z)
               (Some ["age"]))))
  = fst (load_pandas Examples.disk
           (ModernDataLoader.__init__
              (DataConfig.mk "people.parquet" "parquet" "utf-8" "," 0 None None))).
Proof.
  apply (load_pandas_ignores_options Examples.disk
           (ModernDataLoader.__init__
              (DataConfig.mk "people.parquet" "parquet" "utf-8" "," 0 None None))
           (ModernDataLoader.__init__
              (DataConfig.mk "people.parquet" "parquet" "latin-1" ";" 5 (Some 10%Z)
                 (Some ["age"])))).
  - apply list_elem_of_here.
  - reflexivity.
  - reflexivity.
  - reflexivity.
Defined.

End LoadingWitness.

(** ** The file a configuration names *)

Section DataConfigPath.
Import DataConfig.

Lemma init_ok fs path v enc delim skip maxr cols cfg :
  init fs path v enc delim skip maxr cols = Ok cfg ->
  FileSystem.exists_ fs path = true
  /\ v ∈ allowed_types
  /\ cfg = {| file_path := path; file_type := v; encoding := enc; delimiter := delim;
              skip_rows := skip; max_rows := maxr; columns := cols |}.
Proof.
  unfold init, validate_file_exists, validate_file_type.
  destruct (FileSystem.exists_ fs path); simpl;
    destruct (bool_decide (v ∉ allowed_types)) eqn:Hv; try discriminate.
  intros [= <-]. apply bool_decide_eq_false_1 in Hv.
  split; [reflexivity|]. split; [|reflexivity].
  destruct (decide (v ∈ allowed_types)) as [Hin|Hout]; [exact Hin | contradiction].
Qed.

Lemma init_missing_file fs path v enc delim skip maxr cols :
  FileSystem.exists_ fs path = false ->
  exists errors,
    init fs path v enc delim skip maxr cols = Raise (ValidationError errors)
    /\ ("file_path", "File does not exist: " +:+ path) ∈ errors.
Proof.
  intros Hex. unfold init, validate_file_exists. rewrite Hex. simpl.
  destruct (validate_file_type v); eexists; (split; [reflexivity|]); apply list_elem_of_here.
Qed.

(** X15. A configuration is only ever built for a file that exists: with a
    path that is no file or directory the construction raises a validation
    error that names the path, whatever the file type; and a construction
    that returns has checked both the path and the file type, and keeps the
    values it was given. *)
Theorem DataConfig_path_validation :
  (forall fs path v enc delim skip maxr cols,
      FileSystem.exists_ fs path = false ->
      exists errors,
        init fs path v enc delim skip maxr cols = Raise (ValidationError errors)
        /\ ("file_path", "File does not exist: " +:+ path) ∈ errors)
  /\ (forall fs path v enc delim skip maxr cols cfg,
        init fs path v enc delim skip maxr cols = Ok cfg ->
        FileSystem.exists_ fs path = true
        /\ v ∈ allowed_types
        /\ cfg = {| file_path := path; file_type := v; encoding := enc; delimiter := delim;
                    skip_rows := skip; max_rows := maxr; columns := cols |}).
Proof.
  split.
  - exact init_missing_file.
  - exact init_ok.
Qed.

Lemma DataConfig_path_validation_witness :
  exists errors,
    of_path Examples.disk "nowhere.csv" "csv" = Raise (ValidationError errors)
    /\ ("file_path", "File does not exist: nowhere.csv") ∈ errors.
Proof.
  apply (proj1 DataConfig_path_validation Examples.disk "nowhere.csv" "csv").
  vm_compute. reflexivity.
Defined.

End DataConfigPath.

(** ** The pipeline's steps *)

Section PipelineSteps.
Import Pandas FileSystem Store TypeSafeFeatureTransformer TransformerMixin Pipeline.
Import Statements.
Context `{Library.t} `{PandasIO.t}.

Lemma load_data_refused fs path ftype self errors :
  DataConfig.of_path fs path ftype = Raise (ValidationError errors) ->
  load_data fs path ftype self = (Raise (ValidationError errors), self).
Proof.
  intros Hcfg. unfold load_data, mbind at 1, M_bind at 1, StateExn.lift at 1.
  rewrite Hcfg. reflexivity.
Qed.

(** What a run of [load_data] that returns has done. *)
Lemma load_data_ok fs path ftype self r self' :
  load_data fs path ftype self = (Ok r, self') ->
  exists df loader,
    r = Some df
    /\ data_loader self' = Some loader
    /\ ModernDataLoader._data loader = Some df
    /\ ModernDataLoader.config loader = DataConfig.mk path ftype "utf-8" "," 0 None None
    /\ columns df <> []
    /\ FileSystem.exists_ fs path = true
    /\ ftype ∈ DataConfig.allowed_types
    /\ feature_engineer self' = feature_engineer self
    /\ imputer self' = imputer self.
Proof.
  unfold load_data. intros Hrun.
  apply bind_inv_ok in Hrun as (cfg & s1 & Hcfg & Hrun).
  unfold StateExn.lift in Hcfg. injection Hcfg as Hcfg <-.
  apply init_ok in Hcfg as (Hex & Htype & ->).
  apply bind_inv_ok in Hrun as ([] & s2 & Hset & Hrun).
  unfold set_data_loader in Hset. injection Hset as <-.
  apply bind_inv_ok in Hrun as (data & s3 & Hload & Hrun).
  unfold on_data_loader in Hload. simpl in Hload.
  destruct (DataLoading.load_pandas fs _) as [r1 l1] eqn:Hpandas.
  injection Hload as -> <-.
  apply bind_inv_ok in Hrun as (report & s4 & Hreport & Hrun).
  unfold on_data_loader in Hreport. simpl in Hreport.
  injection Hreport as Hreport <-. injection Hrun as <- <-.
  apply load_pandas_ok in Hpandas as (df0 & df' & _ & -> & Hd' & Hcfg' & _);
    [|apply frame_read_allowed; exact Htype].
  exists df', l1. simpl. repeat (split; [first [reflexivity | assumption]|]).
  split; [|auto].
  intros Hcols. unfold ModernDataLoader.generate_quality_report in Hreport.
  rewrite Hd', Hcols in Hreport. unfold ModernDataLoader.missing_ratio_of in Hreport.
  cbn [map length PyDict.of_items fold_left Z.of_nat] in Hreport.
  rewrite Z.mul_0_r in Hreport. discriminate Hreport.
Qed.

(** X16. What [load_data] does. A path that does not exist, or a file type
    outside the four, is refused by the configuration before anything is
    read, and the pipeline is as it was. When [load_data] returns, it
    returns the frame that the pipeline's new loader holds, read from an
    existing file of an allowed type with the default options; the frame has
    at least one column, since the quality report is computed on the way; and
    the transformers of the pipeline are untouched. *)
Theorem load_data_outcome (fs : gmap Path node) (path : Path) (ftype : string)
    (self : Pipeline.t) :
  (FileSystem.exists_ fs path = false \/ ftype ∉ DataConfig.allowed_types ->
     exists errors,
       load_data fs path ftype self = (Raise (ValidationError errors), self))
  /\ (forall r self', load_data fs path ftype self = (Ok r, self') ->
      exists df loader,
        r = Some df
        /\ data_loader self' = Some loader
        /\ ModernDataLoader._data loader = Some df
        /\ ModernDataLoader.config loader = DataConfig.mk path ftype "utf-8" "," 0 None None
        /\ columns df <> []
        /\ FileSystem.exists_ fs path = true
        /\ ftype ∈ DataConfig.allowed_types
        /\ feature_engineer self' = feature_engineer self
        /\ imputer self' = imputer self).
Proof.
  split.
  - intros Hbad.
    destruct (DataConfig.of_path fs path ftype) as [cfg|e] eqn:Hcfg.
    + exfalso. apply init_ok in Hcfg as (Hex & Htype & _).
      destruct Hbad as [Hbad|Hbad]; [congruence | exact (Hbad Htype)].
    + assert (exists errors, e = ValidationError errors) as [errors ->].
      { unfold DataConfig.of_path, DataConfig.init in Hcfg.
        destruct (DataConfig.validate_file_exists fs path);
          destruct (DataConfig.validate_file_type ftype); try discriminate;
          injection Hcfg as <-; eexists; reflexivity. }
      exists errors. apply load_data_refused. exact Hcfg.
  - apply load_data_ok.
Qed.

(** *** Preprocessing *)

Lemma fit_transform_ok {T} `{Transformer T} (fit : pyobj -> Store.t -> M T unit)
    X self st r self' st' :
  fit_transform fit X (self, st) = (Ok r, (self', st')) ->
  fit X st self = (Ok tt, self') /\ transform self' X st = (Ok r, st').
Proof.
  unfold fit_transform. destruct (fit X st self) as [[[]|e] self1]; [|discriminate].
  destruct (transform self1 X st) as [r1 st1] eqn:Htr. intros [= -> -> ->].
  split; [reflexivity | exact Htr].
Qed.

Lemma extends_by_same_shape c df0 df df' :
  same_shape df0 df -> extends_by c df df' -> extends_by c df0 df'.
Proof.
  intros [Hl Hn] (added & Hl' & Hn' & Hc). exists added.
  rewrite Hl', Hl, Hn', Hn. auto.
Qed.

Lemma on_imputer_run {A} (m : M (SmartMissingValueImputer.t * Store.t) A) self st i :
  imputer self = Some i ->
  on_imputer m (self, st)
  = (fst (m (i, st)),
     ({| data_loader := data_loader self; feature_engineer := feature_engineer self;
         imputer := Some (fst (snd (m (i, st)))) |}, snd (snd (m (i, st))))).
Proof.
  intros Hi. unfold on_imputer. rewrite Hi. destruct (m (i, st)) as [r [i' st']]. reflexivity.
Qed.

Lemma on_feature_engineer_run {A} (m : M (AdvancedFeatureEngineer.t * Store.t) A) self st e :
  feature_engineer self = Some e ->
  on_feature_engineer m (self, st)
  = (fst (m (e, st)),
     ({| data_loader := data_loader self;
         feature_engineer := Some (fst (snd (m (e, st))));
         imputer := imputer self |}, snd (snd (m (e, st))))).
Proof.
  intros He. unfold on_feature_engineer. rewrite He.
  destruct (m (e, st)) as [r [e' st']]. reflexivity.
Qed.

(** What a run of [preprocess_data] that returns has done. *)
Lemma preprocess_data_ok x self st df r self' st' :
  frames st !! x = Some df ->
  preprocess_data (PFrame x) (self, st) = (Ok r, (self', st')) ->
  frames_unchanged st st'
  /\ frames st !! r = None
  /\ data_loader self' = data_loader self
  /\ exists imp eng df',
       imputer self' = Some imp
       /\ feature_engineer self' = Some eng
       /\ base imp = fitted_with (labels df)
       /\ base eng = fitted_with (labels df)
       /\ frames st' !! r = Some df'
       /\ extends_by (feature_budget eng) df df'.
Proof.
  intros Hdf. unfold preprocess_data. intros Hrun.
  apply bind_inv_ok in Hrun as ([] & [s1 st1] & Hset & Hrun).
  unfold Pipeline.set_imputer in Hset. injection Hset as <- <-.
  apply bind_inv_ok in Hrun as (r1 & [s2 st2] & Himp & Hrun).
  match type of Himp with
  | on_imputer ?m (?s, ?t) = _ => rewrite (on_imputer_run m s t _ eq_refl) in Himp
  end.
  match type of Himp with
  | context [fit_transform ?f ?X ?s] =>
      destruct (fit_transform f X s) as [q1 [imp st2']] eqn:Hft1
  end.
  cbn [fst snd] in Himp. injection Himp as -> <- <-.
  apply fit_transform_ok in Hft1 as [Hfit1 Htr1].
  apply imputer_fit_ok in Hfit1 as (x0 & df0 & [= <-] & Hdf0 & Hbase1).
  assert (df0 = df) as -> by congruence.
  pose proof (transform_unchanged imp (PFrame x) st
                (fun x s => imputer_impl_unchanged imp x s)) as Hun1.
  rewrite Htr1 in Hun1. simpl in Hun1.
  pose proof (transform_fresh imp (PFrame x) st r1 st2'
                (fun x s r s' => imputer_impl_fresh imp x s r s') Htr1) as Hfresh1.
  apply transform_ok_impl in Htr1 as (x1 & df1 & [= <-] & _ & Himpl1).
  destruct (imputer_impl_shape imp x st df r1 st2' Hdf Himpl1) as (df1' & Hd1 & Hshape1).
  apply bind_inv_ok in Hrun as ([] & [s3 st3] & Hset2 & Hrun).
  unfold Pipeline.set_feature_engineer in Hset2. injection Hset2 as <- <-.
  apply bind_inv_ok in Hrun as (r2 & [s4 st4] & Heng & Hrun).
  injection Hrun as <- <- <-.
  match type of Heng with
  | on_feature_engineer ?m (?s, ?t) = _ =>
      rewrite (on_feature_engineer_run m s t _ eq_refl) in Heng
  end.
  match type of Heng with
  | context [fit_transform ?f ?X ?s] =>
      destruct (fit_transform f X s) as [q2 [eng st4']] eqn:Hft2
  end.
  cbn [fst snd] in Heng. injection Heng as -> <- <-.
  apply fit_transform_ok in Hft2 as [Hfit2 Htr2].
  apply engineer_fit_ok in Hfit2 as (x2 & df2 & [= <-] & Hdf2 & Hbase2).
  assert (df2 = df1') as -> by congruence.
  pose proof (transform_unchanged eng (PFrame r1) st2'
                (fun x s => engineer_impl_unchanged eng x s)) as Hun2.
  rewrite Htr2 in Hun2. simpl in Hun2.
  pose proof (transform_fresh eng (PFrame r1) st2' r2 st4'
                (fun x s r s' => engineer_impl_fresh eng x s r s') Htr2) as Hfresh2.
  apply transform_ok_impl in Htr2 as (x3 & df3 & [= <-] & _ & Himpl2).
  destruct (engineer_impl_appends eng r1 st2' df1' r2 st4' Hd1 Himpl2) as (df' & Hd' & Hext).
  split; [|split; [|split; [reflexivity|]]].
  - intros y d Hy. apply Hun2, Hun1. exact Hy.
  - destruct (frames st !! r2) as [d|] eqn:Hr2; [|reflexivity].
    apply Hun1 in Hr2. congruence.
  - exists imp, eng, df'. simpl.
    destruct Hshape1 as [Hl1 Hn1].
    split; [reflexivity|]. split; [reflexivity|]. split; [exact Hbase1|].
    split; [rewrite Hbase2, Hl1; reflexivity|]. split; [exact Hd'|].
    apply (extends_by_same_shape _ df df1'); [split; assumption | exact Hext].
Qed.

(** X17. What [preprocess_data] returns. When it returns, the frame it was
    given, and every other frame there was, is as before, and the result is a
    new frame: the input's columns first, in their order, over the same rows,
    followed by at most the engineer's budget of added columns. The pipeline
    then holds an imputer and an engineer that are both fitted on the
    columns of the input, and its loader is untouched. *)
Theorem preprocess_data_result (x : loc) (self : Pipeline.t) (st : Store.t)
    (df : DataFrame) (r : loc) (self' : Pipeline.t) (st' : Store.t) :
  frames st !! x = Some df ->
  preprocess_data (PFrame x) (self, st) = (Ok r, (self', st')) ->
  frames_unchanged st st'
  /\ frames st !! r = None
  /\ data_loader self' = data_loader self
  /\ exists imp eng df',
       imputer self' = Some imp
       /\ feature_engineer self' = Some eng
       /\ base imp = fitted_with (labels df)
       /\ base eng = fitted_with (labels df)
       /\ frames st' !! r = Some df'
       /\ extends_by (feature_budget eng) df df'.
Proof. exact (preprocess_data_ok x self st df r self' st'). Qed.

End PipelineSteps.

Section PipelineStepsWitness.
Import Pandas FileSystem Store TypeSafeFeatureTransformer TransformerMixin Pipeline.
Import Statements.
#[local] Existing Instance Examples.plain_library.
#[local] Existing Instance Examples.people_reader.

Lemma load_data_outcome_witness :
  (exists errors,
      load_data Examples.disk "nowhere.csv" "csv" Pipeline.__init__
      = (Raise (ValidationError errors), Pipeline.__init__))
  /\ exists df loader,
       fst (load_data Examples.disk "people.csv" "csv" Pipeline.__init__) = Ok (Some df)
       /\ data_loader (snd (load_data Examples.disk "people.csv" "csv" Pipeline.__init__))
          = Some loader
       /\ ModernDataLoader._data loader = Some df
       /\ columns df <> [].
Proof.
  split.
  - apply (proj1 (load_data_outcome Examples.disk "nowhere.csv" "csv" Pipeline.__init__)).
    left. vm_compute. reflexivity.
  - destruct (load_data Examples.disk "people.csv" "csv" Pipeline.__init__)
      as [[r|e] self'] eqn:Hrun.
    + destruct (proj2 (load_data_outcome Examples.disk "people.csv" "csv" Pipeline.__init__)
                  r self' Hrun)
        as (df & loader & -> & H2 & H3 & _ & H5 & _).
      exists df, loader. simpl. auto.
    + exfalso. vm_compute in Hrun. discriminate Hrun.
Defined.

Lemma preprocess_data_result_witness :
  exists r self' st',
    preprocess_data (PFrame 1%positive) (Pipeline.__init__, Examples.store)
    = (Ok r, (self', st'))
    /\ frames_unchanged Examples.store st'
    /\ frames Examples.store !! r = None
    /\ exists imp eng df',
         imputer self' = Some imp
         /\ feature_engineer self' = Some eng
         /\ base imp = fitted_with (labels Examples.people)
         /\ base eng = fitted_with (labels Examples.people)
         /\ frames st' !! r = Some df'
         /\ extends_by (feature_budget eng) Examples.people df'.
Proof.
  destruct (preprocess_data (PFrame 1%positive) (Pipeline.__init__, Examples.store))
    as [[r|e] [self' st']] eqn:Hrun.
  - exists r, self', st'. split; [reflexivity|].
    destruct (preprocess_data_result 1%positive Pipeline.__init__ Examples.store
                Examples.people r self' st' eq_refl Hrun) as (H1 & H2 & _ & H4).
    auto.
  - exfalso. vm_compute in Hrun. discriminate Hrun.
Defined.

End PipelineStepsWitness.

(** ** The whole run *)

Section WholeRun.
Import Pandas FileSystem Store TypeSafeFeatureTransformer TransformerMixin Pipeline.
Import Statements.
Context `{Library.t} `{PandasIO.t} `{Sklearn.t}.

Lemma drop_column_ok df name X :
  drop_column df name = Ok X ->
  name ∈ labels df
  /\ labels X = labels_without name df
  /\ index_len X = index_len df.
Proof.
  unfold drop_column. destruct (bool_decide (name ∈ labels df)) eqn:Hin; [|discriminate].
  apply bool_decide_eq_true_1 in Hin. intros [= <-]. split; [exact Hin|].
  split; [|reflexivity].
  unfold labels_without, labels. simpl.
  induction (columns df) as [|[c s] cs IH]; [reflexivity|].
  cbn [map fst]. rewrite !filter_cons. cbn [fst].
  destruct (decide (c = name)) as [->|Hne].
  - rewrite decide_False.
    2:{ rewrite bool_decide_eq_true_2 by reflexivity. simpl. tauto. }
    rewrite decide_False by tauto. exact IH.
  - rewrite decide_True.
    2:{ rewrite bool_decide_eq_false_2 by exact Hne. exact I. }
    rewrite decide_True by exact Hne. cbn [map fst]. rewrite IH. reflexivity.
Qed.

Lemma drop_column_missing df name :
  name ∉ labels df -> exists key, drop_column df name = Raise (KeyError key).
Proof.
  intros Hout. unfold drop_column. rewrite bool_decide_eq_false_2 by exact Hout.
  eexists. reflexivity.
Qed.

Lemma labels_without_spec name df : name ∉ labels_without name df.
Proof.
  unfold labels_without. intros Hin. apply list_elem_of_filter in Hin as [Hne _].
  exact (Hne eq_refl).
Qed.

Lemma alloc_unchanged df st : frames_unchanged st (snd (alloc df st)).
Proof.
  intros y d Hy. unfold alloc. simpl. rewrite lookup_insert_ne; [exact Hy|].
  intros <-. pose proof (is_fresh (dom (frames st))) as Hfresh.
  apply Hfresh. apply elem_of_dom. eexists. exact Hy.
Qed.

Lemma alloc_ok df st x st1 : alloc df st = (Ok x, st1) -> frames st1 !! x = Some df.
Proof. unfold alloc. intros [= <- <-]. simpl. apply lookup_insert_eq. Qed.


End WholeRun.

Section WholeRunWitness.
Import Pandas FileSystem Store TypeSafeFeatureTransformer TransformerMixin Pipeline.
Import Statements.
#[local] Existing Instance Examples.plain_library.
#[local] Existing Instance Examples.people_reader.
#[local] Existing Instance Examples.plain_sklearn.


End WholeRunWitness.

(** ** The columns the engineer leaves alone *)

Section UntouchedColumns.
Import Pandas SeriesOps Store TypeSafeFeatureTransformer AdvancedFeatureEngineer Statements.

#[local] Instance same_at_preorder x' name : PreOrder (same_at x' name).
Proof.
  split.
  - intros st df Hdf. exists df. auto.
  - intros a b c Hab Hbc df Hdf.
    destruct (Hab df Hdf) as (df1 & Hd1 & Hg1).
    destruct (Hbc df1 Hd1) as (df2 & Hd2 & Hg2).
    exists df2. split; [exact Hd2 | congruence].
Qed.

Lemma keeps_same_frames x' name {A} (m : M Store.t A) :
  (forall st, frames (snd (m st)) = frames st) -> keeps (same_at x' name) m.
Proof. intros Hm st df Hdf. exists df. rewrite Hm. auto. Qed.

Lemma keeps_at_columns_of x' name x : keeps (same_at x' name) (columns_of x).
Proof.
  apply keeps_same_frames. intros st. unfold columns_of, mbind, M_bind, deref.
  destruct (frames st !! x); reflexivity.
Qed.

Lemma keeps_at_frame_getitem x' name x c : keeps (same_at x' name) (frame_getitem x c).
Proof.
  apply keeps_same_frames. intros st.
  unfold frame_getitem, mbind, M_bind, deref, StateExn.lift.
  destruct (frames st !! x); reflexivity.
Qed.

Lemma keeps_at_truediv x' name a b : keeps (same_at x' name) (truediv a b).
Proof. apply keeps_same_frames. reflexivity. Qed.

Lemma keeps_at_frame_setitem x' name target s :
  target <> name -> keeps (same_at x' name) (frame_setitem x' target s).
Proof.
  intros Hne st df Hdf.
  destruct (frame_setitem_run x' target s st df Hdf) as [[e ->]| ->]; simpl.
  - exists df. auto.
  - eexists. split; [apply lookup_insert_eq|].
    unfold getitem, PyDict.item. simpl. rewrite get_set_ne by exact Hne. reflexivity.
Qed.

Lemma keeps_at_derive x' name target source f :
  target <> name -> keeps (same_at x' name) (derive x' target source f).
Proof.
  intros Hne. unfold derive.
  apply keeps_bind; [exact _ | apply keeps_at_frame_getitem | intros s].
  apply keeps_bind; [exact _ | apply keeps_lift; exact _ | intros s'].
  apply keeps_at_frame_setitem. exact Hne.
Qed.

Lemma date_name_generated self col suffix :
  col ∈ date_columns_ self -> suffix ∈ date_suffixes ->
  col +:+ suffix ∈ generated_names self.
Proof.
  intros Hcol Hsuffix. unfold generated_names. apply elem_of_app. left.
  apply list_elem_of_bind. exists col. split; [|exact Hcol].
  apply list_elem_of_fmap. exists suffix. auto.
Qed.

Lemma power_name_generated self col degree :
  col ∈ firstn 5 (numeric_columns_ self) -> degree ∈ degrees (polynomial_degree self) ->
  col +:+ "_pow_" +:+ pretty degree ∈ generated_names self.
Proof.
  intros Hcol Hdegree. unfold generated_names. apply elem_of_app. right.
  apply elem_of_app. left.
  apply list_elem_of_bind. exists col. split; [|exact Hcol].
  apply list_elem_of_fmap. exists degree. auto.
Qed.

Lemma pair_names_generated self col1 col2 :
  (col1, col2) ∈ combinations2 (firstn 10 (numeric_columns_ self)) ->
  (col1 +:+ "_x_" +:+ col2 ∈ generated_names self)
  /\ (col1 +:+ "_div_" +:+ col2 ∈ generated_names self).
Proof.
  intros Hpair. unfold generated_names.
  split; apply elem_of_app; right; apply elem_of_app; right;
    apply list_elem_of_bind; exists (col1, col2); (split; [|exact Hpair]); simpl.
  - apply list_elem_of_here.
  - apply list_elem_of_further, list_elem_of_here.
Qed.

Context `{Library.t}.

Section OneColumn.
Context (self : AdvancedFeatureEngineer.t) (x' : loc) (name : string).
Hypothesis Hdate : name ∉ date_columns_ self.
Hypothesis Hgen : name ∉ generated_names self.

Lemma keeps_at_date_features_of col :
  col ∈ date_columns_ self -> keeps (same_at x' name) (date_features_of x' col).
Proof.
  intros Hcol.
  assert (Hcol' : col <> name) by (intros ->; exact (Hdate Hcol)).
  assert (Hsuffix : forall suffix, suffix ∈ date_suffixes -> col +:+ suffix <> name).
  { intros suffix Hs Heq. apply Hgen. rewrite <- Heq.
    exact (date_name_generated self col suffix Hcol Hs). }
  unfold date_features_of.
  apply keeps_bind; [exact _ | apply keeps_at_columns_of | intros cols].
  destruct (bool_decide _); [apply keeps_ret; exact _|].
  apply keeps_bind; [exact _ | apply keeps_at_frame_getitem | intros s].
  apply keeps_bind; [exact _ | | intros _].
  { destruct (bool_decide _); [apply keeps_at_derive; exact Hcol' | apply keeps_ret; exact _]. }
  repeat (apply keeps_bind;
          [exact _ | apply keeps_at_derive; apply Hsuffix; compute_done | intros _]).
  apply keeps_at_derive. apply Hsuffix. compute_done.
Qed.

Lemma keeps_at_polynomial_features_of col :
  col ∈ firstn 5 (numeric_columns_ self) ->
  keeps (same_at x' name) (polynomial_features_of self x' col).
Proof.
  intros Hcol. unfold polynomial_features_of.
  apply keeps_bind; [exact _ | apply keeps_at_columns_of | intros cols].
  destruct (bool_decide _); [apply keeps_ret; exact _|].
  apply keeps_for_each; [exact _|]. intros degree Hdegree.
  apply keeps_at_derive. intros Heq. apply Hgen. rewrite <- Heq.
  exact (power_name_generated self col degree Hcol Hdegree).
Qed.

Lemma keeps_at_interaction_features_of pair :
  pair ∈ combinations2 (firstn 10 (numeric_columns_ self)) ->
  keeps (same_at x' name) (interaction_features_of x' pair).
Proof.
  destruct pair as [col1 col2]. intros Hpair.
  destruct (pair_names_generated self col1 col2 Hpair) as [Hx Hdiv].
  unfold interaction_features_of.
  apply keeps_bind; [exact _ | apply keeps_at_columns_of | intros cols].
  destruct (_ || _); [apply keeps_ret; exact _|].
  apply keeps_bind; [exact _ | apply keeps_at_frame_getitem | intros a].
  apply keeps_bind; [exact _ | apply keeps_at_frame_getitem | intros b].
  apply keeps_bind; [exact _ | apply keeps_lift; exact _ | intros product].
  apply keeps_bind; [exact _ | | intros _].
  { apply keeps_at_frame_setitem. intros Heq. apply Hgen. rewrite <- Heq. exact Hx. }
  apply keeps_bind; [exact _ | apply keeps_at_frame_getitem | intros a'].
  apply keeps_bind; [exact _ | apply keeps_at_frame_getitem | intros b'].
  apply keeps_bind; [exact _ | apply keeps_lift; exact _ | intros divisor].
  apply keeps_bind; [exact _ | apply keeps_at_truediv | intros ratio].
  apply keeps_at_frame_setitem. intros Heq. apply Hgen. rewrite <- Heq. exact Hdiv.
Qed.

Lemma keeps_at_stages :
  keeps (same_at x' name)
    (X_transformed ←
       (if create_date_features self then _create_date_features self x' else mret x');
     X_transformed ←
       (if create_polynomials self && (0 <? length (numeric_columns_ self))%nat
        then _create_polynomial_features self X_transformed
        else mret X_transformed);
     X_transformed ←
       (if create_interactions self && (1 <? length (numeric_columns_ self))%nat
        then _create_interaction_features self X_transformed
        else mret X_transformed);
     mret X_transformed).
Proof.
  apply (keeps_bind_ok (same_at x' name) (fun a => a = x')).
  { destruct (create_date_features self); [|apply keeps_ret; exact _].
    unfold _create_date_features.
    apply keeps_bind; [exact _ | | intros _; apply keeps_ret; exact _].
    apply keeps_for_each; [exact _|]. intros col Hcol.
    apply keeps_at_date_features_of. exact Hcol. }
  { intros s a s'. apply stage_returns. apply date_features_returns. }
  intros ? ->.
  apply (keeps_bind_ok (same_at x' name) (fun a => a = x')).
  { destruct (_ && _); [|apply keeps_ret; exact _].
    unfold _create_polynomial_features.
    apply keeps_bind; [exact _ | | intros _; apply keeps_ret; exact _].
    apply keeps_for_each; [exact _|]. intros col Hcol.
    apply keeps_at_polynomial_features_of. exact Hcol. }
  { intros s a s'. apply stage_returns. apply polynomial_features_returns. }
  intros ? ->.
  apply (keeps_bind_ok (same_at x' name) (fun a => a = x')).
  { destruct (_ && _); [|apply keeps_ret; exact _].
    unfold _create_interaction_features.
    apply keeps_bind; [exact _ | | intros _; apply keeps_ret; exact _].
    apply keeps_for_each; [exact _|]. intros pair Hpair.
    apply keeps_at_interaction_features_of. exact Hpair. }
  { intros s a s'. apply stage_returns. apply interaction_features_returns. }
  intros ? ->. apply keeps_ret. exact _.
Qed.

End OneColumn.

(** X19. The engineer leaves the given features alone: when [transform] of
    an [AdvancedFeatureEngineer] returns, every column of the input whose
    name is neither one of the fitted date columns (an [object_] date column
    is converted in place) nor one of the names the engineer writes to is in
    the result with the dtype and the cells it had; and a name of that kind
    that is no column of the input is none of the result. *)
Theorem engineer_keeps_given_columns (self : AdvancedFeatureEngineer.t) (x : loc)
    (st : Store.t) (df : DataFrame) (r : loc) (st' : Store.t) :
  frames st !! x = Some df ->
  transform self (PFrame x) st = (Ok r, st') ->
  exists df',
    frames st' !! r = Some df'
    /\ forall name,
         name ∉ date_columns_ self -> name ∉ generated_names self ->
         getitem df' name = getitem df name.
Proof.
  intros Hdf Hrun.
  apply transform_ok_impl in Hrun as (x0 & df0 & [= <-] & _ & Hrun).
  change (_transform_impl self x st) with (transform_impl self x st) in Hrun.
  unfold transform_impl in Hrun.
  unfold mbind at 1, M_bind at 1 in Hrun. rewrite (copy_run x st df Hdf) in Hrun.
  set (x' := fresh (dom (frames st))) in *. set (st1 := {| frames := _ |}) in *.
  assert (r = x') as ->.
  { pose proof Hrun as Hrun'.
    apply bind_inv_ok in Hrun' as (x1 & s1 & H1 & Hrun').
    apply stage_returns in H1; [subst x1 | apply date_features_returns].
    apply bind_inv_ok in Hrun' as (x2 & s2 & H2 & Hrun').
    apply stage_returns in H2; [subst x2 | apply polynomial_features_returns].
    apply bind_inv_ok in Hrun' as (x3 & s3 & H3 & Hrun').
    apply stage_returns in H3; [subst x3 | apply interaction_features_returns].
    injection Hrun' as <- _. reflexivity. }
  assert (frames st1 !! x' = Some df) as Hx' by apply lookup_insert_eq.
  destruct (engineer_stages_append self x' st1 df Hx') as (df' & Hd' & _).
  rewrite Hrun in Hd'. simpl in Hd'.
  exists df'. split; [exact Hd'|].
  intros name Hdate Hgen.
  destruct (keeps_at_stages self x' name Hdate Hgen st1 df Hx') as (df'' & Hd'' & Hg).
  rewrite Hrun in Hd''. simpl in Hd''. congruence.
Qed.

End UntouchedColumns.

Section UntouchedColumnsWitness.
Import Pandas Store TypeSafeFeatureTransformer AdvancedFeatureEngineer Statements.
#[local] Existing Instance Examples.plain_library.

Lemma engineer_keeps_given_columns_witness :
  exists df',
    frames (snd (transform Examples.people_engineer (PFrame 1%positive) Examples.store))
      !! 2%positive = Some df'
    /\ getitem df' "age" = getitem Examples.people "age".
Proof.
  destruct (engineer_keeps_given_columns Examples.people_engineer 1%positive Examples.store
              Examples.people 2%positive
              (snd (transform Examples.people_engineer (PFrame 1%positive) Examples.store)))
    as (df' & Hd' & Hkept).
  - reflexivity.
  - vm_compute. reflexivity.
  - exists df'. split; [exact Hd'|]. apply Hkept.
    + apply (bool_decide_unpack _). vm_compute. exact I.
    + apply (bool_decide_unpack _). vm_compute. exact I.
Defined.

End UntouchedColumnsWitness.

(** ** Imputing data that has no missing value *)

Section CompleteData.
Import Pandas Store TypeSafeFeatureTransformer SmartMissingValueImputer Statements.

Lemma fit_loop_complete X (l : list string) :
  wf_frame X = true ->
  (forall name s, (name, s) ∈ columns X -> null_count s = 0%nat) ->
  forall self self',
    for_each l (fit_column X) self = (Ok tt, self') -> self' = self.
Proof.
  intros Hwf Hcomplete. induction l as [|a l IH]; intros self self' Hrun.
  - injection Hrun as <-. reflexivity.
  - cbn [for_each] in Hrun.
    apply bind_inv_ok in Hrun as ([] & s1 & Hcol & Hrest).
    rewrite (IH s1 self' Hrest).
    assert (exists sa, getitem X a = Ok sa) as [sa Hga].
    { unfold fit_column, mbind, M_bind, StateExn.lift in Hcol.
      destruct (getitem X a) as [sa|e]; [eexists; reflexivity | discriminate]. }
    destruct (fit_column_ok X a sa self s1 Hga Hcol) as (_ & [[_ ->]|(Hz & Hrows & _)]);
      [reflexivity|].
    exfalso.
    assert ((a, sa) ∈ columns X) as Hin.
    { apply getitem_ok in Hga. exact (get_Some_elem _ _ _ Hga). }
    pose proof (wf_frame_lengths X a sa Hwf Hin) as Hlen.
    rewrite null_mean_share in Hz by congruence.
    rewrite (proj2 (fis_zero_share sa) (Hcomplete a sa Hin)) in Hz. discriminate Hz.
Qed.

Context `{Library.t}.

(** X20. An imputer fitted on data without missing values imputes nothing:
    when [fit] of a new imputer returns on a frame in which no cell is
    missing, it has kept no imputer and no strategy, whatever its setting;
    and [transform] then returns a plain copy of the frame it is given, even
    one that has missing values. *)
Theorem imputer_copies_after_complete_data (strategy : string) (n : Z) (st : Store.t)
    (x : loc) (df : DataFrame) (self1 : SmartMissingValueImputer.t) :
  frames st !! x = Some df ->
  wf_frame df = true ->
  (forall name s, (name, s) ∈ columns df -> null_count s = 0%nat) ->
  SmartMissingValueImputer.fit (PFrame x) st (SmartMissingValueImputer.__init__ strategy n)
  = (Ok tt, self1) ->
  imputers_ self1 = []
  /\ strategies_ self1 = []
  /\ forall x2 st2 r st2',
       transform self1 (PFrame x2) st2 = (Ok r, st2') ->
       frames st2' !! r = frames st2 !! x2.
Proof.
  intros Hdf Hwf Hcomplete Hfit.
  unfold SmartMissingValueImputer.fit in Hfit.
  apply bind_inv_ok in Hfit as ([] & s1 & Hsuper & Hloop).
  apply super_ok in Hsuper as (b & _ & ->).
  rewrite Hdf in Hloop.
  apply (fit_loop_complete df (labels df) Hwf Hcomplete) in Hloop. subst self1.
  split; [reflexivity|]. split; [reflexivity|].
  intros x2 st2 r st2' Hrun.
  apply transform_ok_impl in Hrun as (x0 & df2 & [= <-] & Hdf2 & Hrun).
  change (_transform_impl ?s x2 st2) with (transform_impl s x2 st2) in Hrun.
  unfold transform_impl in Hrun.
  unfold mbind at 1, M_bind at 1 in Hrun. rewrite (copy_run x2 st2 df2 Hdf2) in Hrun.
  simpl in Hrun. injection Hrun as <- <-. simpl.
  rewrite lookup_insert_eq. symmetry. exact Hdf2.
Qed.

End CompleteData.

Section CompleteDataWitness.
Import Pandas Store TypeSafeFeatureTransformer SmartMissingValueImputer Statements.
#[local] Existing Instance Examples.plain_library.

Lemma imputer_copies_after_complete_data_witness :
  imputers_ (snd (SmartMissingValueImputer.fit (PFrame 1%positive) Examples.ratios_store
                    (SmartMissingValueImputer.__init__ "auto" 5))) = []
  /\ strategies_ (snd (SmartMissingValueImputer.fit (PFrame 1%positive) Examples.ratios_store
                         (SmartMissingValueImputer.__init__ "auto" 5))) = [].
Proof.
  destruct (imputer_copies_after_complete_data "auto" 5 Examples.ratios_store 1%positive
              Examples.ratios
              (snd (SmartMissingValueImputer.fit (PFrame 1%positive) Examples.ratios_store
                      (SmartMissingValueImputer.__init__ "auto" 5))))
    as (H1 & H2 & _).
  - reflexivity.
  - vm_compute. reflexivity.
  - intros name s Hin.
    repeat (apply elem_of_cons in Hin as [[= -> ->]|Hin]; [reflexivity|]).
    apply elem_of_nil in Hin. contradiction.
  - vm_compute. reflexivity.
  - split; assumption.
Defined.

End CompleteDataWitness.

(** ** What [fit] leaves behind *)

Section AfterFit.
Import Pandas Store TypeSafeFeatureTransformer Statements.
#[local] Existing Instance same_parent_imputer_preorder.

Lemma validate_input_accepts b x st df :
  frames st !! x = Some df -> accepts_frame b df -> _validate_input b (PFrame x) st = Ok x.
Proof.
  intros Hdf Hacc. unfold _validate_input. rewrite Hdf.
  destruct (is_fitted_ b) eqn:Hf; [|reflexivity].
  destruct (feature_names_ b) as [names|] eqn:Hn; [|reflexivity].
  rewrite bool_decide_eq_true_2; [reflexivity|].
  apply missing_features_empty. exact (Hacc Hf names Hn).
Qed.

Lemma base_fit_accepts b x st df :
  frames st !! x = Some df -> accepts_frame b df ->
  TypeSafeFeatureTransformer.fit (PFrame x) st b = (Ok tt, fitted_with (labels df)).
Proof.
  intros Hdf Hacc.
  unfold TypeSafeFeatureTransformer.fit, mbind, M_bind, StateExn.get, StateExn.lift.
  rewrite (validate_input_accepts b x st df Hdf Hacc), Hdf. reflexivity.
Qed.

Lemma super_run {T} `{Transformer T} {A} (m : M TypeSafeFeatureTransformer.t A) self r b :
  m (base self) = (r, b) -> super m self = (r, with_base b self).
Proof. intros Hm. unfold super. rewrite Hm. reflexivity. Qed.

Lemma subframe_of_labels df names :
  (forall n, n ∈ names -> n ∈ labels df) ->
  exists sub, subframe df names = Ok sub /\ index_len sub = index_len df.
Proof.
  intros Hsub. unfold subframe.
  assert (exists cs, subframe_columns df names = Ok cs) as [cs Hcs].
  { induction names as [|n names IH]; [eexists; reflexivity|].
    destruct IH as [cs Hcs].
    { intros n' Hn'. apply Hsub. apply list_elem_of_further. exact Hn'. }
    destruct (get_key_Some (columns df) n (Hsub n (list_elem_of_here _ _))) as [s Hs].
    apply getitem_ok in Hs. simpl. rewrite Hs, Hcs. eexists. reflexivity. }
  rewrite Hcs. eexists. split; reflexivity.
Qed.

Lemma imputer_fit_no_rows imp sub :
  index_len sub = 0%nat -> exists msg, Library.imputer_fit imp sub = Raise (ValueError msg).
Proof.
  intros Hz. unfold Library.imputer_fit, Library.check_array. rewrite Hz. simpl.
  destruct imp; [destruct (bool_decide _) | destruct (_ <? _)%Z]; eexists; reflexivity.
Qed.

Lemma select_dtypes_labels include df n : n ∈ select_dtypes include df -> n ∈ labels df.
Proof.
  unfold select_dtypes, labels. intros Hn.
  apply list_elem_of_fmap in Hn as (c & -> & Hc).
  apply list_elem_of_filter in Hc as [_ Hc].
  apply list_elem_of_fmap. exists c. auto.
Qed.

(** The body of the imputer's loop on a frame without rows. *)
Lemma fit_column_no_rows X column self :
  wf_frame X = true -> index_len X = 0%nat -> column ∈ labels X ->
  exists msg, fst (SmartMissingValueImputer.fit_column X column self) = Raise (ValueError msg).
Proof.
  intros Hwf Hz Hin.
  destruct (get_key_Some (columns X) column Hin) as [s Hs].
  pose proof (get_Some_elem _ _ _ Hs) as Helem. apply getitem_ok in Hs.
  pose proof (wf_frame_lengths X column s Hwf Helem) as Hlen. rewrite Hz in Hlen.
  unfold SmartMissingValueImputer.fit_column.
  unfold mbind at 1, M_bind at 1, StateExn.lift at 1. rewrite Hs.
  unfold null_mean. rewrite Hlen. cbn [fis_zero].
  unfold mbind at 1, M_bind at 1, StateExn.get at 1.
  unfold mbind at 1, M_bind at 1, SmartMissingValueImputer.set_strategy at 1.
  destruct (bool_decide (_ = "knn")).
  - unfold mbind at 1, M_bind at 1, SmartMissingValueImputer.set_imputer at 1.
    destruct (subframe_of_labels X (select_dtypes is_number X)) as (sub & Hsub & Hn).
    { intros n. apply select_dtypes_labels. }
    unfold mbind at 1, M_bind at 1, StateExn.lift at 1. rewrite Hsub.
    destruct (imputer_fit_no_rows
                (Library.KNNImputer (SmartMissingValueImputer.n_neighbors self) None) sub)
      as [msg Hfit]; [congruence|].
    unfold mbind at 1, M_bind at 1, StateExn.lift at 1. rewrite Hfit.
    exists msg. reflexivity.
  - unfold mbind at 1, M_bind at 1, SmartMissingValueImputer.set_imputer at 1.
    destruct (subframe_of_labels X [column]) as (sub & Hsub & Hn).
    { intros n Hn. apply list_elem_of_singleton in Hn. subst n. exact Hin. }
    unfold mbind at 1, M_bind at 1, StateExn.lift at 1. rewrite Hsub.
    match goal with
    | |- context [Library.imputer_fit ?imp sub] =>
        destruct (imputer_fit_no_rows imp sub) as [msg Hfit]; [congruence|]
    end.
    unfold mbind at 1, M_bind at 1, StateExn.lift at 1. rewrite Hfit.
    exists msg. reflexivity.
Qed.

Context `{Library.t}.

(** X21. The imputer counts as fitted before its imputers are fitted.
    [fit] marks the transformer as fitted on the frame's columns first and
    fits an imputer for each column afterwards: however [fit] ends, on a
    frame that passes the check of its input, the imputer is marked as fitted
    on that frame's columns. And [fit] does fail that way: on a frame with a
    column and no row the share of missing values is NaN, an imputer is
    fitted on no sample, and scikit-learn's [ValueError] comes out. *)
Theorem imputer_fitted_before_imputers (x : loc) (st : Store.t) (df : DataFrame)
    (self : SmartMissingValueImputer.t) :
  frames st !! x = Some df ->
  accepts_frame (base self) df ->
  base (snd (SmartMissingValueImputer.fit (PFrame x) st self)) = fitted_with (labels df)
  /\ (wf_frame df = true -> index_len df = 0%nat -> columns df <> [] ->
      exists msg,
        fst (SmartMissingValueImputer.fit (PFrame x) st self) = Raise (ValueError msg)).
Proof.
  intros Hdf Hacc.
  pose proof (super_run _ self _ _ (base_fit_accepts (base self) x st df Hdf Hacc)) as Hsuper.
  unfold SmartMissingValueImputer.fit, mbind, M_bind. rewrite Hsuper, Hdf.
  set (self0 := with_base (fitted_with (labels df)) self).
  split.
  - pose proof (keeps_for_each same_parent_imputer (labels df)
                  (SmartMissingValueImputer.fit_column df)
                  (fun a _ => imputer_fit_column_keeps_parent df a) self0) as Hkeep.
    exact Hkeep.
  - intros Hwf Hz Hcols.
    destruct (labels df) as [|a rest] eqn:Hl.
    { unfold labels in Hl. destruct (columns df); [contradiction | discriminate]. }
    destruct (fit_column_no_rows df a self0 Hwf Hz) as [msg Hrun].
    { rewrite Hl. apply list_elem_of_here. }
    exists msg. cbn [for_each]. unfold mbind, M_bind.
    destruct (SmartMissingValueImputer.fit_column df a self0) as [[[]|e] s1];
      simpl in Hrun; [discriminate|].
    injection Hrun as ->. reflexivity.
Qed.

(** *** The engineer's [fit] swallows every error of the date detection *)

Lemma detect_date_column_run df col self :
  AdvancedFeatureEngineer.detect_date_column df col self
  = (Ok tt,
     if detected df col
     then snd (AdvancedFeatureEngineer.set_column_lists
                 (AdvancedFeatureEngineer.numeric_columns_ self)
                 (AdvancedFeatureEngineer.date_columns_ self ++ [col]) self)
     else self).
Proof.
  unfold AdvancedFeatureEngineer.detect_date_column, try_except, detected,
    mbind, M_bind, StateExn.lift, StateExn.get.
  destruct (getitem df col) as [s|e]; [|reflexivity].
  destruct (Library.to_datetime false (AdvancedFeatureEngineer.dropna_head s)); reflexivity.
Qed.

Lemma detect_loop_run df (l : list string) :
  forall self,
    for_each l (AdvancedFeatureEngineer.detect_date_column df) self
    = (Ok tt,
       snd (AdvancedFeatureEngineer.set_column_lists
              (AdvancedFeatureEngineer.numeric_columns_ self)
              (AdvancedFeatureEngineer.date_columns_ self ++ filter (detected df) l) self)).
Proof.
  induction l as [|col l IH]; intros self.
  - simpl. rewrite filter_nil, app_nil_r. destruct self. reflexivity.
  - cbn [for_each]. unfold mbind, M_bind. rewrite detect_date_column_run.
    rewrite IH. rewrite filter_cons.
    destruct (detected df col) eqn:Hd.
    + rewrite decide_True by exact I. simpl. rewrite <- app_assoc. reflexivity.
    + rewrite decide_False by (intros []).  reflexivity.
Qed.

(** X22. [fit] of the engineer cannot fail once its input is accepted: the
    detection of date columns runs under a bare [except], so whatever
    [pd.to_datetime] does, [fit] returns. It leaves the engineer fitted on the
    frame's columns, with the numeric columns of the frame as
    [numeric_columns_], and as [date_columns_] the [datetime64] columns
    followed by the [object_] columns whose first hundred values that are not
    missing [pd.to_datetime] accepts; the settings are untouched. *)
Theorem engineer_fit_returns (x : loc) (st : Store.t) (df : DataFrame)
    (self : AdvancedFeatureEngineer.t) :
  frames st !! x = Some df ->
  accepts_frame (base self) df ->
  exists self',
    AdvancedFeatureEngineer.fit (PFrame x) st self = (Ok tt, self')
    /\ base self' = fitted_with (labels df)
    /\ AdvancedFeatureEngineer.numeric_columns_ self' = select_dtypes is_number df
    /\ AdvancedFeatureEngineer.date_columns_ self'
       = select_dtypes (fun d => bool_decide (d = datetime64)) df
         ++ filter (detected df) (select_dtypes (fun d => bool_decide (d = object_)) df)
    /\ AdvancedFeatureEngineer.create_interactions self'
       = AdvancedFeatureEngineer.create_interactions self
    /\ AdvancedFeatureEngineer.create_polynomials self'
       = AdvancedFeatureEngineer.create_polynomials self
    /\ AdvancedFeatureEngineer.polynomial_degree self'
       = AdvancedFeatureEngineer.polynomial_degree self
    /\ AdvancedFeatureEngineer.create_date_features self'
       = AdvancedFeatureEngineer.create_date_features self.
Proof.
  intros Hdf Hacc.
  pose proof (super_run _ self _ _ (base_fit_accepts (base self) x st df Hdf Hacc)) as Hsuper.
  unfold AdvancedFeatureEngineer.fit.
  unfold mbind at 1, M_bind at 1. rewrite Hsuper, Hdf.
  unfold mbind, M_bind. cbn [AdvancedFeatureEngineer.set_column_lists].
  rewrite detect_loop_run. eexists. split; [reflexivity|].
  simpl. auto 10.
Qed.

End AfterFit.

Section AfterFitWitness.
Import Pandas Store TypeSafeFeatureTransformer Statements.
#[local] Existing Instance Examples.plain_library.

Lemma imputer_fitted_before_imputers_witness :
  base (snd (SmartMissingValueImputer.fit (PFrame 1%positive) Examples.headers_store
               (SmartMissingValueImputer.__init__ "auto" 5)))
  = fitted_with ["name"; "age"]
  /\ exists msg,
       fst (SmartMissingValueImputer.fit (PFrame 1%positive) Examples.headers_store
              (SmartMissingValueImputer.__init__ "auto" 5))
       = Raise (ValueError msg).
Proof.
  destruct (imputer_fitted_before_imputers 1%positive Examples.headers_store Examples.headers
              (SmartMissingValueImputer.__init__ "auto" 5)) as [H1 H2].
  - reflexivity.
  - intros Hfitted. discriminate Hfitted.
  - split; [exact H1|]. apply H2.
    + vm_compute. reflexivity.
    + reflexivity.
    + discriminate.
Defined.

Lemma engineer_fit_returns_witness :
  exists self',
    AdvancedFeatureEngineer.fit (PFrame 1%positive) Examples.store
      (AdvancedFeatureEngineer.__init__ true true 2 true)
    = (Ok tt, self')
    /\ base self' = fitted_with (labels Examples.people)
    /\ AdvancedFeatureEngineer.numeric_columns_ self' = ["age"; "income"].
Proof.
  destruct (engineer_fit_returns 1%positive Examples.store Examples.people
              (AdvancedFeatureEngineer.__init__ true true 2 true))
    as (self' & H1 & H2 & H3 & _).
  - reflexivity.
  - intros Hfitted. discriminate Hfitted.
  - exists self'. split; [exact H1|]. split; [exact H2|]. rewrite H3. reflexivity.
Defined.

End AfterFitWitness.
